(** * eTOXlab PLS engine ([src/pls.py]): NIPALS fitting, LOO validation,
      projection and model persistence.

    The embedding is shallow: each method of the class [pls] is a Rocq
    function of the same name.

    - Arithmetic.  The operations of the module are kept abstract in a
      class [Scalar].  Every definition is written once, over any carrier
      [F], and read at two carriers: [float] (IEEE binary64, Rocq's
      primitive floats), which is what [np.float64] computes, NaN and
      infinities included, and on which every definition evaluates; and
      [R] (the real numbers), the same program in exact arithmetic, for the
      algebraic properties of the algorithm.  [np.dot], [np.mean] and the
      accumulations are sums from the left.
    - Store.  Arrays that a method updates in place ([deflateLV],
      [project], [getLOO]) or that the caller hands in ([X], [Y], [x]) live
      in a store and are passed by reference, so that aliasing is visible.
      Arrays a method creates and nothing updates afterwards (scores,
      loadings, weights, means, result vectors) are immutable values.
    - Effects.  A method is a function from the store to an [outcome]: the
      value returned with the new store, a Python exception, or [OutOfFuel]
      for the [while True] loop of [build], which runs on fuel.  The object
      [self] is passed in and, where the method assigns attributes,
      returned.  An exception ends the call: what [self] and the arrays
      hold by then is not described.
    - Shapes.  A matrix is a list of rows with its number of columns; the
      properties below are about matrices whose rows all have that length
      ([rect]).  Where numpy raises on a shape mismatch the methods raise. *)

From Stdlib Require Import ZArith List String Bool Lia.
From Stdlib Require Import Floats Uint63 Reals Lra.
From stdpp Require Import base option list.
Import ListNotations.

(** ** Scalars *)

(** The operations of [np.float64] that [pls.py] uses. *)
Class Scalar (F : Type) : Type := {
  fzero : F;                     (* 0.0 *)
  fone : F;                      (* 1.00 *)
  fadd : F -> F -> F;
  fsub : F -> F -> F;
  fmul : F -> F -> F;
  fdiv : F -> F -> F;            (* numpy division: never raises *)
  fsqrt : F -> F;                (* np.sqrt *)
  of_int : nat -> F;             (* a Python int used as a float operand *)
  fgtb : F -> F -> bool;         (* a > b *)
  fis0 : F -> bool               (* b == 0.0, the test of Python's float division *)
}.

Declare Scope scalar_scope.
Delimit Scope scalar_scope with sc.
Infix "+" := fadd : scalar_scope.
Infix "-" := fsub : scalar_scope.
Infix "*" := fmul : scalar_scope.
Infix "/" := fdiv : scalar_scope.

(** Python exceptions the module can run into. *)
Inductive exn : Set :=
| ZeroDivisionError
| ValueError
| IndexError
| TypeError
| AttributeError
| IOError.

(** What a call does: return, raise, or still be looping when the fuel of
    the [while True] loop runs out.  A raised exception carries no state:
    what the object and the arrays hold after it is not described. *)
Inductive outcome (A : Type) : Type :=
| Ok (a : A)
| Raise (e : exn)
| OutOfFuel.
Arguments Ok {A} a.
Arguments Raise {A} e.
Arguments OutOfFuel {A}.

#[export] Instance outcome_ret : MRet outcome := fun A a => Ok a.
#[export] Instance outcome_bind : MBind outcome := fun A B f o =>
  match o with
  | Ok a => f a
  | Raise e => Raise e
  | OutOfFuel => OutOfFuel
  end.

(** A run over a state [S] (the store of arrays, or an open file): it
    reads and updates the state, and returns, raises or runs out of fuel. *)
Definition run (S A : Type) : Type := S -> outcome (A * S).

#[export] Instance run_ret {S} : MRet (run S) := fun A a s => Ok (a, s).
#[export] Instance run_bind {S} : MBind (run S) := fun A B f m s =>
  match m s with
  | Ok (a, s') => f a s'
  | Raise e => Raise e
  | OutOfFuel => OutOfFuel
  end.

Definition raise {S A} (e : exn) : run S A := fun _ => Raise e.
Definition out_of_fuel {S A} : run S A := fun _ => OutOfFuel.

Definition lift {S A} (o : outcome A) : run S A := fun s =>
  match o with
  | Ok a => Ok (a, s)
  | Raise e => Raise e
  | OutOfFuel => OutOfFuel
  end.

(** [v[i]]. *)
Definition getitem {A} (v : list A) (i : nat) : outcome A :=
  match v !! i with
  | Some x => Ok x
  | None => Raise IndexError
  end.

Definition item {S A} (v : list A) (i : nat) : run S A := lift (getitem v i).

Section Numpy.
Context {F : Type} `{Scalar F}.

(** *** Python floats and numpy floats

    [computeSS] starts its accumulators at the Python literal [0.0] and
    adds [np.float64] values to them.  A Python float divided by a Python
    float zero raises [ZeroDivisionError]; as soon as one operand is an
    [np.float64] the operation is numpy's, which returns inf or nan. *)
Inductive pyfloat : Type :=
| PyFloat (x : F)
| NpFloat64 (x : F).

Definition val (a : pyfloat) : F :=
  match a with PyFloat x | NpFloat64 x => x end.

Definition py_arith (op : F -> F -> F) (a b : pyfloat) : pyfloat :=
  match a, b with
  | PyFloat x, PyFloat y => PyFloat (op x y)
  | _, _ => NpFloat64 (op (val a) (val b))
  end.

Definition py_add := py_arith fadd.
Definition py_sub := py_arith fsub.

Definition py_div (a b : pyfloat) : outcome pyfloat :=
  match a, b with
  | PyFloat x, PyFloat y =>
      if fis0 y then Raise ZeroDivisionError else Ok (PyFloat (x / y)%sc)
  | _, _ => Ok (NpFloat64 (val a / val b)%sc)
  end.

(** [a / n] for a Python int [n]. *)
Definition py_div_int (a : pyfloat) (n : nat) : outcome pyfloat :=
  match a with
  | PyFloat x =>
      if Nat.eqb n 0 then Raise ZeroDivisionError else Ok (PyFloat (x / of_int n)%sc)
  | NpFloat64 x => Ok (NpFloat64 (x / of_int n)%sc)
  end.

(** *** One-dimensional kernels *)

(** [np.dot] of two vectors of one length: the products summed from the
    left. *)
Fixpoint dot_from (acc : F) (a b : list F) : F :=
  match a, b with
  | x :: a', y :: b' => dot_from (acc + x * y)%sc a' b'
  | _, _ => acc
  end.

Definition dot (a b : list F) : F := dot_from fzero a b.

(** [np.square]. *)
Definition square (x : F) : F := (x * x)%sc.

(** [sum], from the left. *)
Definition fsum (l : list F) : F := fold_left fadd l fzero.

(** Elementwise [a - b] on vectors of one length. *)
Fixpoint vsub (a b : list F) : list F :=
  match a, b with
  | x :: a', y :: b' => (x - y)%sc :: vsub a' b'
  | _, _ => []
  end.

(** [v * s] for a scalar [s]. *)
Definition scale (s : F) (v : list F) : list F := map (fun x => (x * s)%sc) v.

(** The in-place [x -= v] on a vector [x]: [v] has the length of [x] or is
    broadcast from length one; anything else is numpy's [ValueError]. *)
Definition isub (x v : list F) : outcome (list F) :=
  if Nat.eqb (length v) (length x) then Ok (vsub x v)
  else match v with
       | [s] => Ok (map (fun xi => (xi - s)%sc) x)
       | _ => Raise ValueError
       end.

(** *** Two-dimensional kernels: a matrix is the list of its rows *)

(** [X[:,j]]. *)
Definition column (rows : list (list F)) (j : nat) : list F :=
  map (fun row => nth j row fzero) rows.

(** [np.mean(X, axis=0)] for [X] of shape [(length rows, ncols)]. *)
Definition mean0 (ncols : nat) (rows : list (list F)) : list F :=
  map (fun j => (fsum (column rows j) / of_int (length rows))%sc) (seq 0 ncols).

(** [np.mean] of a vector. *)
Definition mean (v : list F) : F := (fsum v / of_int (length v))%sc.

End Numpy.

(** ** The store *)

Section Store.
Context {F : Type} `{Scalar F}.

(** A numpy array held by reference: a vector, or a matrix of shape
    [(length rows, ncols)] (every row has [ncols] entries). *)
Inductive ndarray : Type :=
| Vec (v : list F)
| Mat (ncols : nat) (rows : list (list F)).

Definition loc := nat.

(** The store: the arrays allocated so far, a reference being an index. *)
Local Abbreviation store := (list ndarray).

(** A method run over the store. *)
Definition M : Type -> Type := run store.

(** A fresh array: numpy allocates, nothing else refers to it yet. *)
Definition alloc (a : ndarray) : M loc := fun h => Ok (length h, h ++ [a]).

Definition get_vec (l : loc) : M (list F) := fun h =>
  match h !! l with
  | Some (Vec v) => Ok (v, h)
  | _ => Raise TypeError
  end.

Definition get_mat (l : loc) : M (nat * list (list F)) := fun h =>
  match h !! l with
  | Some (Mat ncols rows) => Ok ((ncols, rows), h)
  | _ => Raise TypeError
  end.

(** An in-place update of the array at [l]. *)
Definition put (l : loc) (a : ndarray) : M unit := fun h => Ok (tt, <[l := a]> h).

(** [np.dot] of two vectors: the lengths must agree. *)
Definition np_dot (a b : list F) : M F :=
  if Nat.eqb (length a) (length b) then mret (dot a b) else raise ValueError.

End Store.

Arguments ndarray F : clear implicits.
Abbreviation store F := (list (ndarray F)).
Arguments M F A : clear implicits.
Arguments pyfloat F : clear implicits.

(** ** The class [pls] *)

(** What [type(self.SSY)] can be: a Python list, which has [append], or a
    numpy array, which has not. *)
Inductive seq_type : Set :=
| PyList
| NdArray.

Section Pls.
Context {F : Type} `{Scalar F}.

(** The attributes of a [pls] object.  [X] and [Y] are references to the
    caller's training arrays ([None] before [build]); the per-LV lists grow
    by [append].  [SSY] is a list in [__init__] and the array
    [np.zeros(A)] once [validateLOO] has assigned it; [SSY_type] records
    which. *)
Record pls : Type := mk_pls {
  X : option loc;
  Y : option loc;
  Am : nat;                      (* model dimensionality *)
  Av : nat;                      (* number of LV validated *)
  nobj : nat;
  nvarx : nat;
  mux : option (list F);
  muy : option F;
  t : list (list F);             (* scores *)
  p : list (list F);             (* loadings *)
  w : list (list F);             (* weights *)
  c : list F;                    (* inner relationship *)
  SSXex : list F;
  SSXac : list F;
  SSYex : list F;
  SSYac : list F;
  SDEC : list F;
  dmodx : list (list F);
  SSY : list F;
  SSY_type : seq_type;           (* type(self.SSY) *)
  SDEP : list F;
  Q2 : list F
}.

(** [__init__]. *)
Definition __init__ : pls :=
  {| X := None; Y := None; Am := 0; Av := 0; nobj := 0; nvarx := 0;
     mux := None; muy := None;
     t := []; p := []; w := []; c := [];
     SSXex := []; SSXac := []; SSYex := []; SSYac := []; SDEC := []; dmodx := [];
     SSY := []; SSY_type := PyList; SDEP := []; Q2 := [] |}.

(** Attribute assignments, grouped as the methods make them. *)
Definition set_data (self : pls) (nobj' nvarx' : nat) (X' Y' : loc) : pls :=
  {| X := Some X'; Y := Some Y'; Am := Am self; Av := Av self;
     nobj := nobj'; nvarx := nvarx'; mux := mux self; muy := muy self;
     t := t self; p := p self; w := w self; c := c self;
     SSXex := SSXex self; SSXac := SSXac self; SSYex := SSYex self;
     SSYac := SSYac self; SDEC := SDEC self; dmodx := dmodx self;
     SSY := SSY self; SSY_type := SSY_type self;
     SDEP := SDEP self; Q2 := Q2 self |}.

Definition set_mu (self : pls) (mux' : list F) (muy' : F) : pls :=
  {| X := X self; Y := Y self; Am := Am self; Av := Av self;
     nobj := nobj self; nvarx := nvarx self; mux := Some mux'; muy := Some muy';
     t := t self; p := p self; w := w self; c := c self;
     SSXex := SSXex self; SSXac := SSXac self; SSYex := SSYex self;
     SSYac := SSYac self; SDEC := SDEC self; dmodx := dmodx self;
     SSY := SSY self; SSY_type := SSY_type self;
     SDEP := SDEP self; Q2 := Q2 self |}.

(** [self.t.append(t)] ... [self.c.append(c)]. *)
Definition append_lv (self : pls) (t' p' w' : list F) (c' : F) : pls :=
  {| X := X self; Y := Y self; Am := Am self; Av := Av self;
     nobj := nobj self; nvarx := nvarx self; mux := mux self; muy := muy self;
     t := t self ++ [t']; p := p self ++ [p']; w := w self ++ [w']; c := c self ++ [c'];
     SSXex := SSXex self; SSXac := SSXac self; SSYex := SSYex self;
     SSYac := SSYac self; SDEC := SDEC self; dmodx := dmodx self;
     SSY := SSY self; SSY_type := SSY_type self;
     SDEP := SDEP self; Q2 := Q2 self |}.

(** [self.SSXex.append(SSXex)] ... [self.dmodx.append(dmodx)]. *)
Definition append_ss (self : pls) (SSXex' SSXac' SSYex' SSYac' SDEC' : F)
    (dmodx' : list F) : pls :=
  {| X := X self; Y := Y self; Am := Am self; Av := Av self;
     nobj := nobj self; nvarx := nvarx self; mux := mux self; muy := muy self;
     t := t self; p := p self; w := w self; c := c self;
     SSXex := SSXex self ++ [SSXex']; SSXac := SSXac self ++ [SSXac'];
     SSYex := SSYex self ++ [SSYex']; SSYac := SSYac self ++ [SSYac'];
     SDEC := SDEC self ++ [SDEC']; dmodx := dmodx self ++ [dmodx'];
     SSY := SSY self; SSY_type := SSY_type self;
     SDEP := SDEP self; Q2 := Q2 self |}.

Definition set_Am (self : pls) (a : nat) : pls :=
  {| X := X self; Y := Y self; Am := a; Av := Av self;
     nobj := nobj self; nvarx := nvarx self; mux := mux self; muy := muy self;
     t := t self; p := p self; w := w self; c := c self;
     SSXex := SSXex self; SSXac := SSXac self; SSYex := SSYex self;
     SSYac := SSYac self; SDEC := SDEC self; dmodx := dmodx self;
     SSY := SSY self; SSY_type := SSY_type self;
     SDEP := SDEP self; Q2 := Q2 self |}.

(** The four assignments that end [validateLOO]: [self.SSY] becomes the
    array [SSY], [self.SDEP] and [self.Q2] new lists. *)
Definition set_cv (self : pls) (SSY' SDEP' Q2' : list F) (A : nat) : pls :=
  {| X := X self; Y := Y self; Am := Am self; Av := A;
     nobj := nobj self; nvarx := nvarx self; mux := mux self; muy := muy self;
     t := t self; p := p self; w := w self; c := c self;
     SSXex := SSXex self; SSXac := SSXac self; SSYex := SSYex self;
     SSYac := SSYac self; SDEC := SDEC self; dmodx := dmodx self;
     SSY := SSY'; SSY_type := NdArray; SDEP := SDEP'; Q2 := Q2' |}.

(** *** center *)

(** [center] on a matrix: the column means, and a new array [X - mu]. *)
Definition center (X : loc) : M F (loc * list F) :=
  '(ncols, rows) ← get_mat X;
  let mu := mean0 ncols rows in
  Xc ← alloc (Mat ncols (map (fun row => vsub row mu) rows));
  mret (Xc, mu).

(** [center] on a vector (the response): its mean, and a new array
    [Y - mu].  Python's one [center] serves both ranks. *)
Definition center1 (Y : loc) : M F (loc * F) :=
  v ← get_vec Y;
  let mu := mean v in
  Yc ← alloc (Vec (map (fun y => (y - mu)%sc) v));
  mret (Yc, mu).

(** *** extractLV *)

(** The arithmetic of [extractLV] on the contents of [X] and [Y]. *)
Definition extractLV_of (nvarx : nat) (X : list (list F)) (Y : list F)
  : list F * list F * list F * F :=
  let uu := dot Y Y in
  let w := map (fun j => (dot Y (column X j) / uu)%sc) (seq 0 nvarx) in
  let ww := fsqrt (dot w w) in
  let w := map (fun wj => (wj / ww)%sc) w in
  let t := map (fun row => dot w row) X in
  let tt := dot t t in
  let p := map (fun j => (dot t (column X j) / tt)%sc) (seq 0 nvarx) in
  let c := (dot t Y / tt)%sc in
  (t, p, w, c).

(** [extractLV]: reads [X] and [Y], updates nothing.  [np.dot] of [Y]
    with a column (or with [t]) needs [len(Y) == nobj]. *)
Definition extractLV (X Y : loc) : M F (list F * list F * list F * F) :=
  '(nvarx, Xv) ← get_mat X;
  Yv ← get_vec Y;
  if Nat.eqb (length Yv) (length Xv) then mret (extractLV_of nvarx Xv Yv)
  else raise ValueError.

(** *** computeSS *)

(** The loop of [computeSS] from row [i] on; [Y[i]] needs [i < len(Y)]. *)
Fixpoint computeSS_loop (X : list (list F)) (Y : list F) (SSX SSY : pyfloat F)
    (d : list F) : outcome (pyfloat F * pyfloat F * list F) :=
  match X with
  | [] => Ok (SSX, SSY, d)
  | objx :: X' =>
      match Y with
      | [] => Raise IndexError
      | Yi :: Y' =>
          computeSS_loop X' Y'
            (py_add SSX (NpFloat64 (dot objx objx)))
            (py_add SSY (NpFloat64 (square Yi)))
            (d ++ [dot objx objx])
      end
  end.

Definition computeSS (X Y : loc) : M F (pyfloat F * pyfloat F * list F) :=
  '(_, Xv) ← get_mat X;
  Yv ← get_vec Y;
  lift (computeSS_loop Xv Yv (PyFloat fzero) (PyFloat fzero) []).

(** *** deflateLV *)

(** The loop of [deflateLV] on the contents: row [i] loses [t[i]*p], and
    [Y[i]] loses [t[i]*c]. *)
Fixpoint deflateLV_loop (X : list (list F)) (Y t : list F) (p : list F) (c : F)
  : outcome (list (list F) * list F) :=
  match X with
  | [] => Ok ([], Y)
  | row :: X' =>
      match t, Y with
      | ti :: t', Yi :: Y' =>
          row' ← isub row (scale ti p);
          '(X'', Y'') ← deflateLV_loop X' Y' t' p c;
          Ok (row' :: X'', (Yi - ti * c)%sc :: Y'')
      | _, _ => Raise IndexError
      end
  end.

(** [deflateLV]: updates the arrays at [X] and [Y] in place and returns
    the same two references. *)
Definition deflateLV (X Y : loc) (t p : list F) (c : F) : M F (loc * loc) :=
  '(nvarx, Xv) ← get_mat X;
  Yv ← get_vec Y;
  '(Xv', Yv') ← lift (deflateLV_loop Xv Yv t p c);
  put X (Mat nvarx Xv');;
  put Y (Vec Yv');;
  mret (X, Y).

End Pls.

Arguments pls F : clear implicits.

Section Methods.
Context {F : Type} `{Scalar F}.

(** *** build *)

(** [dof = nvarx - a; if dof <= 0: dof = 1] (the subtraction of naturals
    stops at zero, where Python's would go negative). *)
Definition dof_of (nvarx a : nat) : nat :=
  let dof := nvarx - a in
  if Nat.leb dof 0 then 1 else dof.

(** The variables of the [while True] loop of [build]: [X] and [Y] are
    the centered working arrays, [a] counts the LVs extracted so far. *)
Record build_vars : Type := mk_vars {
  b_self : pls F;
  b_X : loc;
  b_Y : loc;
  b_SSXac : pyfloat F;
  b_SSYac : pyfloat F;
  b_SSXold : pyfloat F;
  b_SSYold : pyfloat F;
  b_a : nat
}.

(** One pass through the body of the loop, up to [a+=1]. *)
Definition build_body (nobj nvarx : nat) (SSX0 SSY0 : pyfloat F) (v : build_vars)
  : M F build_vars :=
  '(t, p, w, c) ← extractLV (b_X v) (b_Y v);
  let self := append_lv (b_self v) t p w c in
  '(X, Y) ← deflateLV (b_X v) (b_Y v) t p c;
  '(SSXnew, SSYnew, dmodx) ← computeSS X Y;
  SSXex ← lift (py_div (py_sub (b_SSXold v) SSXnew) SSX0);
  let SSXac := py_add (b_SSXac v) SSXex in
  SSYex ← lift (py_div (py_sub (b_SSYold v) SSYnew) SSY0);
  let SSYac := py_add (b_SSYac v) SSYex in
  q ← lift (py_div_int SSYnew nobj);
  let SDEC := fsqrt (val q) in
  let dof := dof_of nvarx (b_a v) in
  let dmodx := map (fun d => fsqrt (d / of_int dof)%sc) dmodx in
  let self := append_ss self (val SSXex) (val SSXac) (val SSYex) (val SSYac)
                SDEC dmodx in
  mret {| b_self := self; b_X := X; b_Y := Y;
          b_SSXac := SSXac; b_SSYac := SSYac;
          b_SSXold := SSXnew; b_SSYold := SSYnew;
          b_a := b_a v + 1 |}.

(** The two [break] tests that end a pass. *)
Definition build_break (targetA : nat) (targetSSX : F) (v : build_vars) : bool :=
  (Nat.ltb 0 targetA && Nat.eqb (b_a v) targetA)
  || (fgtb targetSSX fzero && fgtb (val (b_SSXac v)) targetSSX).

(** The loop: it leaves through a [break] or it goes on. *)
Fixpoint build_loop (fuel : nat) (nobj nvarx : nat) (targetA : nat) (targetSSX : F)
    (SSX0 SSY0 : pyfloat F) (v : build_vars) : M F build_vars :=
  match fuel with
  | 0 => out_of_fuel
  | S fuel =>
      v ← build_body nobj nvarx SSX0 SSY0 v;
      if build_break targetA targetSSX v then mret v
      else build_loop fuel nobj nvarx targetA targetSSX SSX0 SSY0 v
  end.

(** [build]: the updated object is returned in place of Python's mutation
    of [self]. *)
Definition build (self : pls F) (X Y : loc) (targetA : nat) (targetSSX : F)
    (fuel : nat) : M F (pls F) :=
  '(nvarx, Xv) ← get_mat X;
  let nobj := length Xv in
  let self := set_data self nobj nvarx X Y in
  '(Xc, mux) ← center X;
  '(Yc, muy) ← center1 Y;
  let self := set_mu self mux muy in
  '(SSX0, SSY0, _) ← computeSS Xc Yc;
  v ← build_loop fuel nobj nvarx targetA targetSSX SSX0 SSY0
        {| b_self := self; b_X := Xc; b_Y := Yc;
           b_SSXac := PyFloat fzero; b_SSYac := PyFloat fzero;
           b_SSXold := SSX0; b_SSYold := SSY0; b_a := 0 |};
  mret (set_Am (b_self v) (b_a v)).

(** *** getLOO *)

(** The loop of [getLOO] from LV [a] on, with [n] LVs to go. *)
Fixpoint getLOO_loop (n : nat) (X Y x : loc) (a : nat) (y : list F) : M F (list F) :=
  match n with
  | 0 => mret y
  | S n =>
      '(t, p, w, c) ← extractLV X Y;
      let y := if Nat.ltb 0 a then <[a := nth (a - 1) y fzero]> y else y in
      xv ← get_vec x;
      tt ← np_dot xv w;
      let y := <[a := (nth a y fzero + tt * c)%sc]> y in
      xv' ← lift (isub xv (scale tt p));
      put x (Vec xv');;
      '(X, Y) ← deflateLV X Y t p c;
      getLOO_loop n X Y x (a + 1) y
  end.

Definition getLOO (X Y x : loc) (A : nat) : M F (list F) :=
  getLOO_loop A X Y x 0 (replicate A fzero).

(** *** validateLOO *)

(** [SSY0], summed over the objects. *)
Fixpoint SSY0_loop (Yv : list F) (n : nat) (i : nat) (SSY0 : F) : M F F :=
  match n with
  | 0 => mret SSY0
  | S n =>
      Yi ← item Yv i;
      SSY0_loop Yv n (i + 1) (SSY0 + square (Yi - mean Yv))%sc
  end.

(** [for a in range(A): SSY[a] += np.square(yp[a]-Y[i])]. *)
Fixpoint SSY_update (n a : nat) (SSY yp : list F) (Yi : F) : list F :=
  match n with
  | 0 => SSY
  | S n =>
      SSY_update n (a + 1)
        (<[a := (nth a SSY fzero + square (nth a yp fzero - Yi))%sc]> SSY) yp Yi
  end.

(** The loop of [validateLOO] over the left-out object [i], with [n]
    objects to go. *)
Fixpoint validateLOO_loop (n : nat) (X Y : loc) (A : nat) (i : nat) (SSY : list F)
  : M F (list F) :=
  match n with
  | 0 => mret SSY
  | S n =>
      '(nvarx, Xv) ← get_mat X;
      Yv ← get_vec Y;
      (* np.delete(X,i,axis=0), np.delete(Y,i): new arrays *)
      Xr ← alloc (Mat nvarx (delete i Xv));
      (if Nat.ltb i (length Yv) then mret tt else raise IndexError);;
      Yr ← alloc (Vec (delete i Yv));
      '(Xr, muxr) ← center Xr;
      '(Yr, muyr) ← center1 Yr;
      Xi ← item Xv i;
      xp ← alloc (Vec Xi);                       (* np.copy(X[i,:]) *)
      xpv ← lift (isub Xi muxr);
      put xp (Vec xpv);;
      yp ← getLOO Xr Yr xp A;
      let yp := map (fun y => (y + muyr)%sc) yp in
      Yi ← item Yv i;
      validateLOO_loop n X Y A (i + 1) (SSY_update A 0 SSY yp Yi)
  end.

Definition validateLOO (self : pls F) (A : nat) : M F (pls F) :=
  match X self, Y self with
  | Some X, Some Y =>
      '(nvarx, Xv) ← get_mat X;
      Yv ← get_vec Y;
      let nobj := length Xv in
      SSY0 ← SSY0_loop Yv nobj 0 fzero;
      SSY ← validateLOO_loop nobj X Y A 0 (replicate A fzero);
      mret (set_cv self SSY
              (map (fun i => fsqrt (i / of_int nobj)%sc) SSY)
              (map (fun i => (fone - i / SSY0)%sc) SSY)
              A)
  | _, _ => mret self
  end.

(** *** project *)

(** What [project] returns: [(False, message)] or [(True, (y, t, d))]. *)
Inductive projection : Type :=
| Failed (message : string)
| Projected (y t d : list F).

(** The loop of [project] from LV [a] on, with [n] LVs to go. *)
Fixpoint project_loop (n : nat) (self : pls F) (x : loc) (a : nat) (y t d : list F)
  : M F (list F * list F * list F) :=
  match n with
  | 0 => mret (y, t, d)
  | S n =>
      xv ← get_vec x;
      wa ← item (w self) a;
      ta ← np_dot xv wa;
      let t := <[a := ta]> t in
      ca ← item (c self) a;
      let y := <[a := (nth a y fzero + ta * ca)%sc]> y in
      pa ← item (p self) a;
      xv' ← lift (isub xv (scale ta pa));
      put x (Vec xv');;
      let dof := dof_of (nvarx self) a in
      let d := <[a := fsqrt (dot xv' xv' / of_int dof)%sc]> d in
      project_loop n self x (a + 1) y t d
  end.

Definition project (self : pls F) (x : loc) (A : nat) : M F projection :=
  if Nat.ltb (Am self) A then mret (Failed "Too many LV")
  else
    match mux self with
    | None => raise TypeError
    | Some mu =>
        xv ← get_vec x;
        xv' ← lift (isub xv mu);
        put x (Vec xv');;
        '(y, t, d) ← project_loop A self x 0
                       (replicate A fzero) (replicate A fzero) (replicate A fzero);
        match muy self with
        | None => raise TypeError
        | Some mu => mret (Projected (map (fun yi => (yi + mu)%sc) y) t d)
        end
    end.

End Methods.

(** ** Persistence *)

Section Persistence.
Context {F : Type} `{Scalar F}.

(** One [np.save] record of the file: what was saved, by kind. *)
Inductive npy : Type :=
| NpyInt (n : nat)
| NpyFloat (x : F)
| NpyArray (v : list F)
| NpyNone.

(** The records [saveModel] writes for LV [a]. *)
Definition save_lv (self : pls F) (a : nat) : outcome (list npy) :=
  ta ← getitem (t self) a;
  pa ← getitem (p self) a;
  wa ← getitem (w self) a;
  ca ← getitem (c self) a;
  SSXex_a ← getitem (SSXex self) a;
  SSXac_a ← getitem (SSXac self) a;
  SSYex_a ← getitem (SSYex self) a;
  SSYac_a ← getitem (SSYac self) a;
  SDEC_a ← getitem (SDEC self) a;
  dmodx_a ← getitem (dmodx self) a;
  Ok [NpyArray ta; NpyArray pa; NpyArray wa; NpyFloat ca;
      NpyFloat SSXex_a; NpyFloat SSXac_a; NpyFloat SSYex_a; NpyFloat SSYac_a;
      NpyFloat SDEC_a; NpyArray dmodx_a].

(** The records [saveModel] writes for validated LV [a]. *)
Definition save_cv (self : pls F) (a : nat) : outcome (list npy) :=
  SSY_a ← getitem (SSY self) a;
  SDEP_a ← getitem (SDEP self) a;
  Q2_a ← getitem (Q2 self) a;
  Ok [NpyFloat SSY_a; NpyFloat SDEP_a; NpyFloat Q2_a].

(** [for a in range(n)]: the records of each [a], one after the other. *)
Fixpoint save_range (f : nat -> outcome (list npy)) (a n : nat) : outcome (list npy) :=
  match n with
  | 0 => Ok []
  | S n =>
      here ← f a;
      rest ← save_range f (a + 1) n;
      Ok (here ++ rest)
  end.

(** [saveModel]: the content of the file it writes. *)
Definition saveModel (self : pls F) : outcome (list npy) :=
  let header :=
    [NpyInt (Am self); NpyInt (Av self); NpyInt (nobj self); NpyInt (nvarx self);
     match mux self with Some mu => NpyArray mu | None => NpyNone end;
     match muy self with Some mu => NpyFloat mu | None => NpyNone end] in
  lvs ← save_range (save_lv self) 0 (Am self);
  cvs ← save_range (save_cv self) 0 (Av self);
  Ok (header ++ lvs ++ cvs).

(** [np.load(f)]: the next record of the open file.  At the end of the
    file the numpy releases that run this Python 2 module find no magic
    string, fall back to [pickle.load] and report its failure as an
    [IOError]. *)
Definition np_load : run (list npy) npy := fun f =>
  match f with
  | [] => Raise IOError
  | r :: f' => Ok (r, f')
  end.

(** [loadModel] stores whatever record comes next.  The attributes are
    typed here, so a record of another kind than the writer's is reported
    ([TypeError]) where Python would keep it. *)
Definition load_int : run (list npy) nat :=
  r ← np_load; match r with NpyInt n => mret n | _ => raise TypeError end.

Definition load_float : run (list npy) F :=
  r ← np_load; match r with NpyFloat x => mret x | _ => raise TypeError end.

Definition load_array : run (list npy) (list F) :=
  r ← np_load; match r with NpyArray v => mret v | _ => raise TypeError end.

Definition load_mux : run (list npy) (option (list F)) :=
  r ← np_load;
  match r with
  | NpyArray v => mret (Some v)
  | NpyNone => mret None
  | _ => raise TypeError
  end.

Definition load_muy : run (list npy) (option F) :=
  r ← np_load;
  match r with
  | NpyFloat x => mret (Some x)
  | NpyNone => mret None
  | _ => raise TypeError
  end.

(** The first loop of [loadModel], with [n] LVs to go. *)
Fixpoint load_lvs (n : nat) (self : pls F) : run (list npy) (pls F) :=
  match n with
  | 0 => mret self
  | S n =>
      ta ← load_array;
      pa ← load_array;
      wa ← load_array;
      ca ← load_float;
      SSXex_a ← load_float;
      SSXac_a ← load_float;
      SSYex_a ← load_float;
      SSYac_a ← load_float;
      SDEC_a ← load_float;
      dmodx_a ← load_array;
      load_lvs n (append_ss (append_lv self ta pa wa ca)
                    SSXex_a SSXac_a SSYex_a SSYac_a SDEC_a dmodx_a)
  end.

(** [self.SSY.append], [self.SDEP.append], [self.Q2.append] on an object
    whose [SSY] is a list. *)
Definition append_cv (self : pls F) (SSY' SDEP' Q2' : F) : pls F :=
  {| X := X self; Y := Y self; Am := Am self; Av := Av self;
     nobj := nobj self; nvarx := nvarx self; mux := mux self; muy := muy self;
     t := t self; p := p self; w := w self; c := c self;
     SSXex := SSXex self; SSXac := SSXac self; SSYex := SSYex self;
     SSYac := SSYac self; SDEC := SDEC self; dmodx := dmodx self;
     SSY := SSY self ++ [SSY']; SSY_type := SSY_type self;
     SDEP := SDEP self ++ [SDEP']; Q2 := Q2 self ++ [Q2'] |}.

(** The second loop of [loadModel], with [n] validated LVs to go.
    [self.SSY.append] is looked up before its argument [np.load(f)] is
    evaluated: on an object that [validateLOO] has left with an array in
    [SSY] the lookup raises [AttributeError] and no record is read. *)
Fixpoint load_cvs (n : nat) (self : pls F) : run (list npy) (pls F) :=
  match n with
  | 0 => mret self
  | S n =>
      match SSY_type self with
      | NdArray => raise AttributeError
      | PyList =>
          SSY_a ← load_float;
          SDEP_a ← load_float;
          Q2_a ← load_float;
          load_cvs n (append_cv self SSY_a SDEP_a Q2_a)
      end
  end.

(** The six assignments that open [loadModel]. *)
Definition set_header (self : pls F) (Am' Av' nobj' nvarx' : nat)
    (mux' : option (list F)) (muy' : option F) : pls F :=
  {| X := X self; Y := Y self; Am := Am'; Av := Av';
     nobj := nobj'; nvarx := nvarx'; mux := mux'; muy := muy';
     t := t self; p := p self; w := w self; c := c self;
     SSXex := SSXex self; SSXac := SSXac self; SSYex := SSYex self;
     SSYac := SSYac self; SDEC := SDEC self; dmodx := dmodx self;
     SSY := SSY self; SSY_type := SSY_type self;
     SDEP := SDEP self; Q2 := Q2 self |}.

(** [loadModel] on the content of the file; what is left unread is dropped
    by [f.close()].  The value is the object once every record has been
    read; Python assigns and appends as it reads, so an exception leaves
    the object with what was read before it, which a [Raise] does not
    carry. *)
Definition loadModel (self : pls F) (file : list npy) : outcome (pls F) :=
  r ← (Am' ← load_int;
       Av' ← load_int;
       nobj' ← load_int;
       nvarx' ← load_int;
       mux' ← load_mux;
       muy' ← load_muy;
       let self := set_header self Am' Av' nobj' nvarx' mux' muy' in
       self ← load_lvs Am' self;
       load_cvs Av' self) file;
  Ok (fst r).

End Persistence.

Arguments build_vars F : clear implicits.
Arguments npy F : clear implicits.
Arguments projection F : clear implicits.

(** ** The two carriers *)

(** [np.float64]. *)
#[export] Instance float64 : Scalar float := {
  fzero := 0%float;
  fone := 1%float;
  fadd := PrimFloat.add;
  fsub := PrimFloat.sub;
  fmul := PrimFloat.mul;
  fdiv := PrimFloat.div;
  fsqrt := PrimFloat.sqrt;
  of_int := fun n => PrimFloat.of_uint63 (Uint63.of_Z (Z.of_nat n));
  fgtb := fun a b => PrimFloat.ltb b a;
  fis0 := fun b => PrimFloat.eqb b 0%float
}.

(** Exact arithmetic. *)
#[export] Instance exact : Scalar R := {
  fzero := 0%R;
  fone := 1%R;
  fadd := Rplus;
  fsub := Rminus;
  fmul := Rmult;
  fdiv := Rdiv;
  fsqrt := sqrt;
  of_int := INR;
  fgtb := fun a b => if Rlt_dec b a then true else false;
  fis0 := fun b => if Req_dec_T b 0%R then true else false
}.

(** * Specification vocabulary *)

Section Vocabulary.
Context {F : Type} `{Scalar F}.

(** [keeps n h h']: every array at a reference below [n] is in [h'] what it
    was in [h], and no array disappeared. *)
Definition keeps (n : nat) (h h' : store F) : Prop :=
  length h <= length h' /\ forall l, l < n -> h' !! l = h !! l.

(** [rows] is a matrix of [ncols] columns. *)
Definition rect (ncols : nat) (rows : list (list F)) : Prop :=
  Forall (fun row => length row = ncols) rows.

(** The sums of squares [computeSS] accumulates, from [acc] on. *)
Definition SS_rows (acc : F) (rows : list (list F)) : F :=
  fold_left (fun a row => (a + dot row row)%sc) rows acc.

Definition SS_vec (acc : F) (v : list F) : F :=
  fold_left (fun a y => (a + square y)%sc) v acc.

(** What [deflateLV] leaves in [X] and in [Y]. *)
Definition deflated_X (rows : list (list F)) (t p : list F) : list (list F) :=
  zip_with (fun row ti => vsub row (scale ti p)) rows t.

Definition deflated_Y (Y t : list F) (c : F) : list F :=
  zip_with (fun Yi ti => (Yi - ti * c)%sc) Y t.

(** The arithmetic of one pass of the loop of [build] on the contents [Xv]
    and [Yv] of the working arrays, once the accumulators are
    [np.float64]: the new loop variables, and the new contents. *)
Definition build_body_of (nobj nvarx : nat) (SSX0 SSY0 : F) (v : build_vars F)
    (Xv : list (list F)) (Yv : list F) : build_vars F * list (list F) * list F :=
  let '(t, p, w, c) := extractLV_of nvarx Xv Yv in
  let Xv' := deflated_X Xv t p in
  let Yv' := deflated_Y Yv t c in
  let SSXnew := SS_rows fzero Xv' in
  let SSYnew := SS_vec fzero Yv' in
  let SSXex := ((val (b_SSXold v) - SSXnew) / SSX0)%sc in
  let SSXac := (val (b_SSXac v) + SSXex)%sc in
  let SSYex := ((val (b_SSYold v) - SSYnew) / SSY0)%sc in
  let SSYac := (val (b_SSYac v) + SSYex)%sc in
  let SDEC := fsqrt (SSYnew / of_int nobj)%sc in
  let dmodx := map (fun d => fsqrt (d / of_int (dof_of nvarx (b_a v)))%sc)
                 (map (fun row => dot row row) Xv') in
  ({| b_self := append_ss (append_lv (b_self v) t p w c)
                  SSXex SSXac SSYex SSYac SDEC dmodx;
      b_X := b_X v; b_Y := b_Y v;
      b_SSXac := NpFloat64 SSXac; b_SSYac := NpFloat64 SSYac;
      b_SSXold := NpFloat64 SSXnew; b_SSYold := NpFloat64 SSYnew;
      b_a := b_a v + 1 |}, Xv', Yv').

(** What [center] makes of the training arrays. *)
Definition centered_X (nvarx : nat) (Xv : list (list F)) : list (list F) :=
  map (fun row => vsub row (mean0 nvarx Xv)) Xv.

Definition centered_Y (Yv : list F) : list F :=
  map (fun y => (y - mean Yv)%sc) Yv.

(** The loop variables on entry, the centered copies being the arrays
    [Xc] and [Xc + 1] that [build] has just allocated. *)
Definition build_start (self : pls F) (X0 Y0 : loc) (nvarx : nat)
    (Xv : list (list F)) (Yv : list F) (Xc : loc) : build_vars F :=
  {| b_self := set_mu (set_data self (length Xv) nvarx X0 Y0)
                 (mean0 nvarx Xv) (mean Yv);
     b_X := Xc; b_Y := Xc + 1;
     b_SSXac := PyFloat fzero; b_SSYac := PyFloat fzero;
     b_SSXold := NpFloat64 (SS_rows fzero (centered_X nvarx Xv));
     b_SSYold := NpFloat64 (SS_vec fzero (centered_Y Yv));
     b_a := 0 |}.

(** The working arrays of the loop hold the [nobj] x [nvarx] matrix [Xv]
    and the vector [Yv] of length [nobj]. *)
Definition working (nobj nvarx : nat) (v : build_vars F) (h : store F)
    (Xv : list (list F)) (Yv : list F) : Prop :=
  h !! b_X v = Some (Mat nvarx Xv) /\ h !! b_Y v = Some (Vec Yv)
  /\ rect nvarx Xv /\ length Xv = nobj /\ length Yv = nobj.

(** The weight vector [extractLV] computes when [Y.Y] is zero: each raw
    weight is a quotient by zero, and the vector is then divided by its
    norm. *)
Definition weights_over_zero (nvarx : nat) (Xc : list (list F)) (Yc : list F) : list F :=
  let w := map (fun j => (dot Yc (column Xc j) / fzero)%sc) (seq 0 nvarx) in
  let ww := fsqrt (dot w w) in
  map (fun wj => (wj / ww)%sc) w.

(** The weight vector of [extractLV]. *)
Definition weights_of (nvarx : nat) (Xv : list (list F)) (Yv : list F) : list F :=
  let '(_, _, w, _) := extractLV_of nvarx Xv Yv in w.

(** A vector of raw weights divided, entry by entry, by the square root
    of its dot product with itself, all in the arithmetic of the code. *)
Definition normalised (wa : list F) : Prop :=
  exists raw, wa = map (fun wj => (wj / fsqrt (dot raw raw))%sc) raw.

(** All ten per-LV lists of the object have [k] entries. *)
Definition lv_lengths (self : pls F) (k : nat) : Prop :=
  length (t self) = k /\ length (p self) = k /\ length (w self) = k
  /\ length (c self) = k /\ length (SSXex self) = k /\ length (SSXac self) = k
  /\ length (SSYex self) = k /\ length (SSYac self) = k
  /\ length (SDEC self) = k /\ length (dmodx self) = k.

(** The three cross-validation lists of the object have [k] entries. *)
Definition cv_lengths (self : pls F) (k : nat) : Prop :=
  length (SSY self) = k /\ length (SDEP self) = k /\ length (Q2 self) = k.

(** What a file holds of an object: every attribute but the references to
    the training arrays, which [saveModel] does not write; the entries of
    [SSY] come back in a list. *)
Definition serialized (m : pls F) : pls F :=
  {| X := None; Y := None; Am := Am m; Av := Av m;
     nobj := nobj m; nvarx := nvarx m; mux := mux m; muy := muy m;
     t := t m; p := p m; w := w m; c := c m;
     SSXex := SSXex m; SSXac := SSXac m; SSYex := SSYex m;
     SSYac := SSYac m; SDEC := SDEC m; dmodx := dmodx m;
     SSY := SSY m; SSY_type := PyList; SDEP := SDEP m; Q2 := Q2 m |}.

(** [self] after it has appended the artifacts of LVs [a], ..., [a+n-1]
    of [m]. *)
Definition loaded_lvs (self m : pls F) (a n : nat) : pls F :=
  {| X := X self; Y := Y self; Am := Am self; Av := Av self;
     nobj := nobj self; nvarx := nvarx self; mux := mux self; muy := muy self;
     t := t self ++ take n (drop a (t m));
     p := p self ++ take n (drop a (p m));
     w := w self ++ take n (drop a (w m));
     c := c self ++ take n (drop a (c m));
     SSXex := SSXex self ++ take n (drop a (SSXex m));
     SSXac := SSXac self ++ take n (drop a (SSXac m));
     SSYex := SSYex self ++ take n (drop a (SSYex m));
     SSYac := SSYac self ++ take n (drop a (SSYac m));
     SDEC := SDEC self ++ take n (drop a (SDEC m));
     dmodx := dmodx self ++ take n (drop a (dmodx m));
     SSY := SSY self; SSY_type := SSY_type self;
     SDEP := SDEP self; Q2 := Q2 self |}.

(** [self] after it has appended the statistics of validated LVs [a],
    ..., [a+n-1] of [m]. *)
Definition loaded_cvs (self m : pls F) (a n : nat) : pls F :=
  {| X := X self; Y := Y self; Am := Am self; Av := Av self;
     nobj := nobj self; nvarx := nvarx self; mux := mux self; muy := muy self;
     t := t self; p := p self; w := w self; c := c self;
     SSXex := SSXex self; SSXac := SSXac self; SSYex := SSYex self;
     SSYac := SSYac self; SDEC := SDEC self; dmodx := dmodx self;
     SSY := SSY self ++ take n (drop a (SSY m)); SSY_type := SSY_type self;
     SDEP := SDEP self ++ take n (drop a (SDEP m));
     Q2 := Q2 self ++ take n (drop a (Q2 m)) |}.

(** A fitted model: what [build] returned on a new object, validated any
    number of times. *)
Inductive fitted : pls F -> Prop :=
| fitted_build X0 Y0 targetA targetSSX fuel (h : store F) m h' :
    build __init__ X0 Y0 targetA targetSSX fuel h = Ok (m, h') -> fitted m
| fitted_validateLOO m A (h : store F) m' h' :
    fitted m -> validateLOO m A h = Ok (m', h') -> fitted m'.

(** Any number of [validateLOO] calls, one per requested dimension. *)
Fixpoint validations (self : pls F) (As : list nat) : M F (pls F) :=
  match As with
  | [] => mret self
  | A :: As => self ← validateLOO self A; validations self As
  end.

(** The query vector after the LVs with weights [ws] and loadings [ps], in
    order: each LV takes its score times its loading vector off the vector,
    the score being the dot product of the vector with the weights. *)
Fixpoint deflated (ws ps : list (list F)) (x : list F) : outcome (list F) :=
  match ws, ps with
  | wa :: ws, pa :: ps => x' ← isub x (scale (dot x wa) pa); deflated ws ps x'
  | _, _ => Ok x
  end.

(** [x - v] written out entry by entry: [x[j] - v[j]], and [x[j] - v[0]]
    when [v] has one entry, which numpy takes off every entry of [x]. *)
Definition sub_entries (x v : list F) : list F :=
  match v with
  | [s] => map (fun xj => (xj - s)%sc) x
  | _ => zip_with fsub x v
  end.

(** What is left of a centered query [x] after the LVs with weights [ws]
    and loadings [ps], written out: each LV in order takes, off every
    entry [x[j]], the loading [p[j]] times the score of the LV, which is
    the dot product of what is left of [x] so far with the weights of the
    LV. *)
Fixpoint query_residual (ws ps : list (list F)) (x : list F) : list F :=
  match ws, ps with
  | wa :: ws, pa :: ps =>
      query_residual ws ps (sub_entries x (map (fun pj => (pj * dot x wa)%sc) pa))
  | _, _ => x
  end.

End Vocabulary.

(** * Vocabulary of exact arithmetic *)

Section ExactVocabulary.
Local Open Scope R_scope.

(** Each entry is at most the next one. *)
Definition nondecreasing (l : list R) : Prop :=
  forall a x y, l !! a = Some x -> l !! (a + 1)%nat = Some y -> x <= y.

(** A weight vector with an entry other than zero has Euclidean norm 1. *)
Definition unit_if_nonzero (wa : list R) : Prop :=
  Exists (fun x => x <> 0) wa -> sqrt (dot wa wa) = 1.

(** Two observations of one variable, and their responses. *)
Definition exact_store : store R := [Mat 1 [[-1]; [1]]; Vec [-1; 1]].

End ExactVocabulary.

(** * Worked data, in binary64 *)

Section Worked.
Local Open Scope float_scope.

(** What a run returned, or [d] when it did not return. *)
Definition returned {A} (d : A) (o : outcome A) : A :=
  match o with Ok a => a | _ => d end.

(** The scenario of the specification: four observations of two
    variables, their responses, and a copy of the first observation to
    project.  References 0, 1 and 2. *)
Definition ex_store : store float :=
  [Mat 2 [[1; 2]; [2; 3]; [3; 5]; [4; 7]]; Vec [3; 5; 8; 11]; Vec [1; 2]].

(** [build(X, Y, targetA=2)] on a new object, and the store it leaves. *)
Definition ex_fit : pls float * store float :=
  returned (__init__, []) (build __init__ 0%nat 1%nat 2%nat 0 10%nat ex_store).

(** Then [validateLOO(2)] and [validateLOO(1)]. *)
Definition ex_validated : pls float * store float :=
  returned (__init__, []) (validations (fst ex_fit) [2; 1]%nat (snd ex_fit)).

(** [project(x, 2)] on the fitted model: [((y, t, d), store)]. *)
Definition ex_projected : (list float * list float * list float) * store float :=
  match project (fst ex_fit) 2%nat 2%nat (snd ex_fit) with
  | Ok (Projected y t d, h) => ((y, t, d), h)
  | _ => (([], [], []), [])
  end.

(** An empty training set: no observation of one variable. *)
Definition ex_empty : store float := [Mat 1 []; Vec []].

(** A response without variance: two observations, [Y = [5, 5]]. *)
Definition ex_flat : store float := [Mat 1 [[1]; [2]]; Vec [5; 5]].

(** Two observations of one small variable and a large response:
    [X = [[-1.5 * 2^-299], [1.5 * 2^-299]]], [Y = [-2^239, 2^239]]. *)
Definition ex_small : store float :=
  [Mat 1 [[-0x1.8p-299]; [0x1.8p-299]]; Vec [-0x1p239; 0x1p239]].

(** Data of rank one: three observations of one variable, [Y = X]. *)
Definition ex_rank1 : store float := [Mat 1 [[1]; [2]; [3]]; Vec [1; 2; 3]].

End Worked.

(** * Reading the training data ([readData]) *)

Section ReadData.
Context {F : Type} `{Scalar F}.

(** Python's [int(line)] and [float(line)]: the number a line of text
    stands for, or the exception it raises ([ValueError]). *)
Variable py_int : string -> outcome Z.
Variable py_float : string -> outcome F.

(** [f.readline()] on the lines still to read: the next line, or the empty
    string once the file is exhausted. *)
Definition readline : run (list string) string := fun f =>
  match f with
  | [] => Ok (EmptyString, [])
  | line :: f' => Ok (line, f')
  end.

(** [for j in range(nvar-1)]: the values of [X[i,:]], one per line. *)
Fixpoint readData_row (n : nat) : run (list string) (list F) :=
  match n with
  | 0 => mret []
  | S n =>
      line ← readline;
      x ← lift (py_float line);
      row ← readData_row n;
      mret (x :: row)
  end.

(** [for i in range(nobj)], with [n] objects to go: two lines are read and
    dropped, then come the values of [X[i,:]], then [Y[i]]. *)
Fixpoint readData_loop (n ncols : nat) : run (list string) (list (list F) * list F) :=
  match n with
  | 0 => mret ([], [])
  | S n =>
      readline;;
      readline;;
      row ← readData_row ncols;
      line ← readline;
      y ← lift (py_float line);
      '(Xv, Yv) ← readData_loop n ncols;
      mret (row :: Xv, y :: Yv)
  end.

(** The text of the file, read: the number of columns of [X], its rows,
    and [Y].  [np.zeros] refuses a negative dimension ([ValueError]). *)
Definition readData_lines : run (list string) (nat * list (list F) * list F) :=
  readline;;
  line ← readline;
  nvar ← lift (py_int line);
  line ← readline;
  nobj ← lift (py_int line);
  if (nobj <? 0)%Z || (nvar - 1 <? 0)%Z then raise ValueError
  else
    let ncols := Z.to_nat (nvar - 1) in
    '(Xv, Yv) ← readData_loop (Z.to_nat nobj) ncols;
    mret (ncols, Xv, Yv).

(** [readData] on the lines of the file: [X] and [Y] are two new arrays;
    what is left unread is dropped by [f.close()]. *)
Definition readData (file : list string) : M F (loc * loc) :=
  '(ncols, Xv, Yv, _) ← lift (readData_lines file);
  X ← alloc (Mat ncols Xv);
  Y ← alloc (Vec Yv);
  mret (X, Y).

End ReadData.

(** * Vocabulary of the further properties *)

Section FurtherVocabulary.
Context {F : Type} `{Scalar F}.

(** The artifacts of the object have the shapes of [nobj'] observations of
    [nvarx'] variables. *)
Definition shaped (m : pls F) (nobj' nvarx' : nat) : Prop :=
  nobj m = nobj' /\ nvarx m = nvarx'
  /\ Forall (fun wa => length wa = nvarx') (w m)
  /\ Forall (fun pa => length pa = nvarx') (p m)
  /\ Forall (fun ta => length ta = nobj') (t m)
  /\ Forall (fun da => length da = nobj') (dmodx m).

(** The running sums of [l], from [acc] on, each added from the left. *)
Fixpoint cumulative (acc : F) (l : list F) : list F :=
  match l with
  | [] => []
  | s :: l => (acc + s)%sc :: cumulative (acc + s)%sc l
  end.

(** What each of [n] successive LVs of the data [Xv], [Yv] contributes to
    the prediction for the query [xv]: the score of the query on the LV
    times the inner relation, the data and the query being deflated from
    one LV to the next. *)
Fixpoint contributions (n nvarx : nat) (Xv : list (list F)) (Yv xv : list F) : list F :=
  match n with
  | 0 => []
  | S n =>
      let '(t, p, w, c) := extractLV_of nvarx Xv Yv in
      let tt := dot xv w in
      (tt * c)%sc
        :: contributions n nvarx (deflated_X Xv t p) (deflated_Y Yv t c)
             (vsub xv (scale tt p))
  end.

(** The predictions [getLOO] returns: the running sums of the
    contributions, from [0.0] on. *)
Definition getLOO_of (A nvarx : nat) (Xv : list (list F)) (Yv xv : list F) : list F :=
  cumulative fzero (contributions A nvarx Xv Yv xv).

(** The predictions of one fold of [validateLOO]: observation [i] is left
    out, the other observations are centered by their own means and fitted,
    and the observation left out, centered by those means, is predicted
    with 1, ..., [A] LVs. *)
Definition LOO_prediction (nvarx : nat) (Xv : list (list F)) (Yv : list F) (A i : nat)
  : list F :=
  let Xr := delete i Xv in
  let Yr := delete i Yv in
  map (fun y => (y + mean Yr)%sc)
    (getLOO_of A nvarx (centered_X nvarx Xr) (centered_Y Yr)
       (vsub (nth i Xv []) (mean0 nvarx Xr))).

(** The squared errors of the folds [i], ..., [i+n-1], added to [SSY]. *)
Fixpoint LOO_SSY (nvarx : nat) (Xv : list (list F)) (Yv : list F) (A n i : nat)
    (SSY : list F) : list F :=
  match n with
  | 0 => SSY
  | S n =>
      LOO_SSY nvarx Xv Yv A n (i + 1)
        (SSY_update A 0 SSY (LOO_prediction nvarx Xv Yv A i) (nth i Yv fzero))
  end.

(** One LV taken off the contents of the working arrays of [build]:
    what [deflateLV] leaves of them, given what [extractLV] returns. *)
Definition deflate_once (nvarx : nat) (XY : list (list F) * list F)
  : list (list F) * list F :=
  let '(t, p, w, c) := extractLV_of nvarx (fst XY) (snd XY) in
  (deflated_X (fst XY) t p, deflated_Y (snd XY) t c).

(** The centered data once [a] LVs have been taken off. *)
Fixpoint residual (a nvarx : nat) (Xc : list (list F)) (Yc : list F)
  : list (list F) * list F :=
  match a with
  | 0 => (Xc, Yc)
  | S a => deflate_once nvarx (residual a nvarx Xc Yc)
  end.

(** LV number [a] of the centered data: what [extractLV] makes of the
    data once the LVs before it have been taken off. *)
Definition lv_of (a nvarx : nat) (Xc : list (list F)) (Yc : list F)
  : list F * list F * list F * F :=
  extractLV_of nvarx (fst (residual a nvarx Xc Yc)) (snd (residual a nvarx Xc Yc)).

(** What [build] stores for LV number [a] of the centered data: its
    scores, loadings, weights and inner relation, and the distances of the
    observations to the model of [a + 1] LVs. *)
Definition stores_lv (m : pls F) (a nvarx : nat) (Xc : list (list F)) (Yc : list F)
  : Prop :=
  exists ta pa wa ca,
    lv_of a nvarx Xc Yc = (ta, pa, wa, ca)
    /\ t m !! a = Some ta /\ p m !! a = Some pa
    /\ w m !! a = Some wa /\ c m !! a = Some ca
    /\ dmodx m !! a
       = Some (map (fun d => fsqrt (d / of_int (dof_of nvarx a))%sc)
                 (map (fun row => dot row row)
                    (fst (residual (a + 1) nvarx Xc Yc)))).

(** The reader [r] reads the records [recs] and no more, and returns [a]:
    whatever follows them in the file is left; and when the file ends
    before the last of them, [r] raises [IOError]. *)
Definition reads {A} (r : run (list (npy F)) A) (recs : list (npy F)) (a : A) : Prop :=
  (forall rest, r (recs ++ rest) = Ok (a, rest))
  /\ (forall n, n < length recs -> r (take n recs) = Raise IOError).

(** The reader [r] reads the records [recs] and then raises [e], whatever
    follows them in the file; and when the file ends before the last of
    them, [r] raises [IOError]. *)
Definition refuses {A} (r : run (list (npy F)) A) (recs : list (npy F)) (e : exn) : Prop :=
  (forall rest, r (recs ++ rest) = Raise e)
  /\ (forall n, n < length recs -> r (take n recs) = Raise IOError).

(** What [loadModel] makes of an object [self] on the file of [m]: the
    counters and the means of [m], the lists of [self] followed by those
    of [m], and the references of [self] to its training arrays. *)
Definition loaded (self m : pls F) : pls F :=
  {| X := X self; Y := Y self; Am := Am m; Av := Av m;
     nobj := nobj m; nvarx := nvarx m; mux := mux m; muy := muy m;
     t := t self ++ t m; p := p self ++ p m; w := w self ++ w m; c := c self ++ c m;
     SSXex := SSXex self ++ SSXex m; SSXac := SSXac self ++ SSXac m;
     SSYex := SSYex self ++ SSYex m; SSYac := SSYac self ++ SSYac m;
     SDEC := SDEC self ++ SDEC m; dmodx := dmodx self ++ dmodx m;
     SSY := SSY self ++ SSY m; SSY_type := SSY_type self;
     SDEP := SDEP self ++ SDEP m; Q2 := Q2 self ++ Q2 m |}.

(** The six records that open the file of [m]. *)
Definition header_of (m : pls F) : list (npy F) :=
  [NpyInt (Am m); NpyInt (Av m); NpyInt (nobj m); NpyInt (nvarx m);
   match mux m with Some mu => NpyArray mu | None => NpyNone end;
   match muy m with Some mu => NpyFloat mu | None => NpyNone end].

(** The entries of a GOLPE file that [readData] parses for object [i]:
    line [3 + i*(ncols+3) + 2 + j] holds [X[i,j]], and the line after the
    last of them holds [Y[i]]. *)
Definition line_of_X (ncols i j : nat) : nat := 3 + i * (ncols + 3) + 2 + j.

Definition line_of_Y (ncols i : nat) : nat := 3 + i * (ncols + 3) + 2 + ncols.

End FurtherVocabulary.

(** * Further vocabulary of exact arithmetic *)

Section FurtherExactVocabulary.
Local Open Scope R_scope.

(** Any two of the vectors, at different places of the list, have a dot
    product of zero. *)
Definition pairwise_orthogonal (ts : list (list R)) : Prop :=
  forall a b ta tb,
    (a < b)%nat -> ts !! a = Some ta -> ts !! b = Some tb -> dot ta tb = 0.

End FurtherExactVocabulary.

(** * Further worked data, in binary64 *)

Section FurtherWorked.
Local Open Scope float_scope.

(** The training data of the scenario. *)
Definition ex_X : list (list float) := [[1; 2]; [2; 3]; [3; 5]; [4; 7]].

Definition ex_Y : list float := [3; 5; 8; 11].

(** [validateLOO(2)] on the fitted model of the scenario. *)
Definition ex_cv : pls float * store float :=
  returned (__init__, []) (validateLOO (fst ex_fit) 2%nat (snd ex_fit)).

(** The file [saveModel] writes for the validated model of the scenario. *)
Definition ex_file : list (npy float) :=
  returned [] (saveModel (fst ex_validated)).

(** [build(X, Y, targetSSX=511/512)] on a new object: the variance test
    alone ends the loop. *)
Definition ex_fit_SSX : pls float * store float :=
  returned (__init__, [])
    (build __init__ 0%nat 1%nat 0%nat 0.998046875 10%nat ex_store).

(** A response one entry short for the matrix of the scenario. *)
Definition ex_short : store float := [Mat 2 ex_X; Vec [3; 5; 8]].

(** A query of three entries for the model of the scenario, whose
    observations have two: reference 5. *)
Definition ex_query3 : store float := snd ex_fit ++ [Vec [1; 2; 3]].

(** Centered data for [getLOO] and the kernels: three observations of two
    variables, their responses, and a query.  References 0, 1 and 2. *)
Definition ex_loo : store float :=
  [Mat 2 [[-1; 0]; [0; 1]; [1; -1]]; Vec [-1; 0; 1]; Vec [1; 1]].

(** What [extractLV], [computeSS] and [deflateLV] return on them. *)
Definition ex_lv : (list float * list float * list float * float) * store float :=
  returned (([], [], [], 0), []) (extractLV 0%nat 1%nat ex_loo).

Definition ex_ss : (pyfloat float * pyfloat float * list float) * store float :=
  returned ((PyFloat 0, PyFloat 0, []), []) (computeSS 0%nat 1%nat ex_loo).

Definition ex_deflated : (loc * loc) * store float :=
  returned ((0%nat, 0%nat), []) (deflateLV 0%nat 1%nat [1; 0; 1] [1; 1] 1 ex_loo).

(** A GOLPE file of two objects of three variables (two columns of [X]
    and the response), and parsers for the numbers in it. *)
Definition ex_lines : list string :=
  ["GOLPE"; "3"; "2"; "object 1"; "-"; "1"; "2"; "3";
   "object 2"; "-"; "2"; "3"; "5"]%string.

Definition ex_int (line : string) : outcome Z :=
  if String.eqb line "2" then Ok 2%Z
  else if String.eqb line "3" then Ok 3%Z
  else Raise ValueError.

Definition ex_float (line : string) : outcome float :=
  if String.eqb line "1" then Ok 1
  else if String.eqb line "2" then Ok 2
  else if String.eqb line "3" then Ok 3
  else if String.eqb line "5" then Ok 5
  else Raise ValueError.

(** [readData] on that file, in an empty store. *)
Definition ex_read : (loc * loc) * store float :=
  returned ((0%nat, 0%nat), []) (readData ex_int ex_float ex_lines []).

End FurtherWorked.

(** * Reasoning about runs *)

Section Runs.
Context {F : Type} `{Scalar F}.

Lemma bind_Ok {S A B} (m : run S A) (f : A -> run S B) s b s' :
  (m ≫= f) s = Ok (b, s') ->
  exists a s1, m s = Ok (a, s1) /\ f a s1 = Ok (b, s').
Proof.
  unfold mbind, run_bind. destruct (m s) as [[a s1]| |]; try discriminate.
  intros Hf. exists a, s1. split; [reflexivity | exact Hf].
Qed.

Lemma bind_run {S A B} (m : run S A) (f : A -> run S B) s a s1 :
  m s = Ok (a, s1) -> (m ≫= f) s = f a s1.
Proof. unfold mbind, run_bind. intros ->. reflexivity. Qed.

Lemma ret_Ok {S A} (a b : A) (s s' : S) :
  mret (M := run S) a s = Ok (b, s') -> b = a /\ s' = s.
Proof. unfold mret, run_ret. intros [= -> ->]. split; reflexivity. Qed.

Lemma lift_Ok {S A} (o : outcome A) (s s' : S) a :
  lift o s = Ok (a, s') -> o = Ok a /\ s' = s.
Proof. unfold lift. destruct o; intros [= -> ->]. split; reflexivity. Qed.

Lemma item_Ok {S A} (v : list A) i (s s' : S) x :
  item v i s = Ok (x, s') -> v !! i = Some x /\ s' = s.
Proof.
  unfold item, getitem. intros Hl. apply lift_Ok in Hl as [Hv ->].
  destruct (v !! i); inversion Hv. split; reflexivity.
Qed.

Lemma get_mat_Ok l (h h' : store F) ncols rows :
  get_mat l h = Ok ((ncols, rows), h') -> h !! l = Some (Mat ncols rows) /\ h' = h.
Proof.
  unfold get_mat. destruct (h !! l) as [[v|nc rs]|]; intros [= -> -> ->].
  split; reflexivity.
Qed.

Lemma get_vec_Ok l (h h' : store F) v :
  get_vec l h = Ok (v, h') -> h !! l = Some (Vec v) /\ h' = h.
Proof.
  unfold get_vec. destruct (h !! l) as [[v'|nc rs]|]; intros [= -> ->].
  split; reflexivity.
Qed.

Lemma alloc_Ok (a : ndarray F) (h h' : store F) l :
  alloc a h = Ok (l, h') -> l = length h /\ h' = h ++ [a].
Proof. unfold alloc. intros [= <- <-]. split; reflexivity. Qed.

Lemma put_Ok l (a : ndarray F) (h h' : store F) u :
  put l a h = Ok (u, h') -> h' = <[l := a]> h.
Proof. unfold put. intros [= _ <-]. reflexivity. Qed.

Lemma np_dot_Ok (a b : list F) (h h' : store F) r :
  np_dot a b h = Ok (r, h') -> length a = length b /\ r = dot a b /\ h' = h.
Proof.
  unfold np_dot. destruct (Nat.eqb (length a) (length b)) eqn:E; [|discriminate].
  intros [= <- <-]. apply Nat.eqb_eq in E. repeat split. exact E.
Qed.

End Runs.

(** One step back through a run that returned. *)
Ltac run_step :=
  match goal with
  | H : (_ ≫= _) _ = Ok _ |- _ =>
      let a := fresh "r" in
      let s := fresh "h" in
      let E := fresh "E" in
      apply bind_Ok in H; destruct H as (a & s & E & H)
  | H : (let '(_, _) := ?a in _) _ = Ok _ |- _ => destruct a
  | H : get_mat _ _ = Ok ((_, _), _) |- _ => apply get_mat_Ok in H as [H ->]
  | H : get_mat _ _ = Ok (?r, _) |- _ => destruct r
  | H : get_vec _ _ = Ok _ |- _ => apply get_vec_Ok in H as [H ->]
  | H : alloc _ _ = Ok _ |- _ => apply alloc_Ok in H as [-> ->]
  | H : put _ _ _ = Ok _ |- _ => apply put_Ok in H as ->
  | H : lift _ _ = Ok _ |- _ => apply lift_Ok in H as [H ->]
  | H : item _ _ _ = Ok _ |- _ => apply item_Ok in H as [H ->]
  | H : np_dot _ _ _ = Ok _ |- _ => apply np_dot_Ok in H as (H & -> & ->)
  | H : mret _ _ = Ok _ |- _ => apply ret_Ok in H as [H ->]; simplify_eq
  | H : raise _ _ = Ok _ |- _ => discriminate H
  | H : (if ?b then _ else _) _ = Ok _ |- _ =>
      let E := fresh "E" in destruct b eqn:E
  end.

Ltac run_inv := repeat run_step.

(** * Frame: what a method leaves alone *)

Section Frame.
Context {F : Type} `{Scalar F}.

Lemma keeps_refl n (h : store F) : keeps n h h.
Proof. split; [lia | reflexivity]. Qed.

Lemma keeps_trans n (h1 h2 h3 : store F) : keeps n h1 h2 -> keeps n h2 h3 -> keeps n h1 h3.
Proof.
  intros [L1 K1] [L2 K2]. split; [lia|].
  intros l Hl. rewrite K2, K1 by exact Hl. reflexivity.
Qed.

Lemma keeps_alloc n (h : store F) a : n <= length h -> keeps n h (h ++ [a]).
Proof.
  intros Hn. split.
  - rewrite length_app. lia.
  - intros l Hl. apply lookup_app_l. lia.
Qed.

Lemma keeps_put n (h : store F) l a : n <= l -> keeps n h (<[l := a]> h).
Proof.
  intros Hn. split.
  - rewrite length_insert. lia.
  - intros l' Hl'. apply list_lookup_insert_ne. lia.
Qed.

Lemma center_keeps n X Xc mu (h h' : store F) :
  n <= length h -> center X h = Ok ((Xc, mu), h') ->
  keeps n h h' /\ n <= Xc.
Proof.
  intros Hn Hc. unfold center in Hc. run_inv.
  split; [apply keeps_alloc; exact Hn | exact Hn].
Qed.

Lemma center1_keeps n Y Yc mu (h h' : store F) :
  n <= length h -> center1 Y h = Ok ((Yc, mu), h') ->
  keeps n h h' /\ n <= Yc.
Proof.
  intros Hn Hc. unfold center1 in Hc. run_inv.
  split; [apply keeps_alloc; exact Hn | exact Hn].
Qed.

Lemma extractLV_reads X Y r (h h' : store F) :
  extractLV X Y h = Ok (r, h') -> h' = h.
Proof. intros He. unfold extractLV in He. run_inv. reflexivity. Qed.

Lemma computeSS_reads X Y r (h h' : store F) :
  computeSS X Y h = Ok (r, h') -> h' = h.
Proof. intros He. unfold computeSS in He. run_inv. reflexivity. Qed.

Lemma deflateLV_keeps n X Y t p c r (h h' : store F) :
  n <= X -> n <= Y -> deflateLV X Y t p c h = Ok (r, h') ->
  r = (X, Y) /\ keeps n h h'.
Proof.
  intros HX HY Hd. unfold deflateLV in Hd. run_inv.
  split; [reflexivity|].
  eapply keeps_trans; apply keeps_put; assumption.
Qed.

Lemma build_body_keeps n nobj nvarx SSX0 SSY0 v v' (h h' : store F) :
  n <= b_X v -> n <= b_Y v ->
  build_body nobj nvarx SSX0 SSY0 v h = Ok (v', h') ->
  keeps n h h' /\ b_X v' = b_X v /\ b_Y v' = b_Y v
  /\ X (b_self v') = X (b_self v) /\ Y (b_self v') = Y (b_self v).
Proof.
  intros HX HY Hb. unfold build_body in Hb.
  apply bind_Ok in Hb as ([[[t0 p0] w0] c0] & h1 & He & Hb).
  apply extractLV_reads in He as ->.
  apply bind_Ok in Hb as ([X1 Y1] & h2 & Hd & Hb).
  apply (deflateLV_keeps n) in Hd as [[= -> ->] K]; [|assumption..].
  apply bind_Ok in Hb as ([[SSXnew SSYnew] d] & h3 & Hc & Hb).
  apply computeSS_reads in Hc as ->.
  run_inv. simpl. auto.
Qed.

Lemma build_loop_keeps n fuel nobj nvarx tA tS SSX0 SSY0 v v' (h h' : store F) :
  n <= b_X v -> n <= b_Y v ->
  build_loop fuel nobj nvarx tA tS SSX0 SSY0 v h = Ok (v', h') ->
  keeps n h h'
  /\ X (b_self v') = X (b_self v) /\ Y (b_self v') = Y (b_self v).
Proof.
  revert v h. induction fuel as [|fuel IH]; intros v h HX HY Hl; [discriminate|].
  simpl in Hl. apply bind_Ok in Hl as (v1 & h1 & Hb & Hl).
  apply (build_body_keeps n) in Hb as (K & EX & EY & SX & SY); [|assumption..].
  destruct (build_break tA tS v1).
  - apply ret_Ok in Hl as [-> ->]. auto.
  - apply IH in Hl as (K' & SX' & SY'); [|lia..].
    split; [eapply keeps_trans; eassumption|].
    split; congruence.
Qed.

(** [build] keeps every array that was in the store when it was called,
    and stores the two references it was given. *)
Lemma build_keeps self X0 Y0 tA tS fuel m (h h' : store F) :
  build self X0 Y0 tA tS fuel h = Ok (m, h') ->
  keeps (length h) h h' /\ X m = Some X0 /\ Y m = Some Y0
  /\ X0 < length h /\ Y0 < length h.
Proof.
  intros Hb. unfold build in Hb.
  apply bind_Ok in Hb as ([nv Xv] & h1 & Hg & Hb).
  apply get_mat_Ok in Hg as [HX ->].
  apply bind_Ok in Hb as ([Xc mu] & h1 & Hc & Hb).
  pose proof Hc as Hc'. apply (center_keeps (length h)) in Hc' as [K1 HXc]; [|lia].
  apply bind_Ok in Hb as ([Yc mu'] & h2 & Hc1 & Hb).
  pose proof Hc1 as Hc1'. unfold center1 in Hc1'.
  apply bind_Ok in Hc1' as (Yv & h1' & HgY & _).
  apply get_vec_Ok in HgY as [HY ->].
  apply (center1_keeps (length h)) in Hc1 as [K2 HYc]; [|destruct K1; lia].
  apply bind_Ok in Hb as ([[SSX0 SSY0] d] & h3 & Hs & Hb).
  apply computeSS_reads in Hs as ->.
  apply bind_Ok in Hb as (v & h3 & Hl & Hb).
  apply (build_loop_keeps (length h)) in Hl as (K3 & SX & SY); [|assumption..].
  apply ret_Ok in Hb as [-> ->]. simpl in *.
  split; [eapply keeps_trans; [|exact K3]; eapply keeps_trans; eassumption|].
  split; [exact SX|]. split; [exact SY|].
  split.
  - apply lookup_lt_Some in HX. exact HX.
  - destruct K1 as [_ K1]. destruct (decide (Y0 < length h)) as [Hlt|Hge]; [exact Hlt|].
    exfalso.
    assert (Hc2 : center X0 h = Ok (Xc, mu, h1)) by exact Hc.
    unfold center in Hc2. run_inv.
    rewrite lookup_app_r in HY by lia.
    destruct (Y0 - length h) as [|k] eqn:Ek; simpl in HY; [discriminate|].
    rewrite lookup_nil in HY. discriminate.
Qed.

Lemma getLOO_loop_keeps k n X0 Y0 x a y r (h h' : store F) :
  k <= X0 -> k <= Y0 -> k <= x ->
  getLOO_loop n X0 Y0 x a y h = Ok (r, h') -> keeps k h h'.
Proof.
  revert X0 Y0 a y h. induction n as [|n IH]; intros X0 Y0 a y h HX HY Hx Hl.
  - apply ret_Ok in Hl as [_ ->]. apply keeps_refl.
  - simpl in Hl.
    apply bind_Ok in Hl as ([[[t0 p0] w0] c0] & h1 & He & Hl).
    apply extractLV_reads in He as ->.
    apply bind_Ok in Hl as (xv & h1 & Hg & Hl). apply get_vec_Ok in Hg as [_ ->].
    apply bind_Ok in Hl as (tt & h1 & Hd & Hl). apply np_dot_Ok in Hd as (_ & _ & ->).
    apply bind_Ok in Hl as (xv' & h1 & Hi & Hl). apply lift_Ok in Hi as [_ ->].
    apply bind_Ok in Hl as (u & h1 & Hp & Hl). apply put_Ok in Hp as ->.
    apply bind_Ok in Hl as ([X1 Y1] & h2 & Hd & Hl).
    apply (deflateLV_keeps k) in Hd as [[= -> ->] K]; [|assumption..].
    apply IH in Hl; [|assumption..].
    eapply keeps_trans; [apply keeps_put; exact Hx|].
    eapply keeps_trans; eassumption.
Qed.

Lemma validateLOO_loop_keeps k n X0 Y0 A i SSY0 r (h h' : store F) :
  k <= length h ->
  validateLOO_loop n X0 Y0 A i SSY0 h = Ok (r, h') -> keeps k h h'.
Proof.
  revert i SSY0 h. induction n as [|n IH]; intros i SSY0 h Hk Hl.
  - apply ret_Ok in Hl as [_ ->]. apply keeps_refl.
  - simpl in Hl.
    apply bind_Ok in Hl as ([nv Xv] & h1 & Hg & Hl). apply get_mat_Ok in Hg as [_ ->].
    apply bind_Ok in Hl as (Yv & h1 & Hg & Hl). apply get_vec_Ok in Hg as [_ ->].
    apply bind_Ok in Hl as (Xr & h1 & Ha & Hl). apply alloc_Ok in Ha as [-> ->].
    apply bind_Ok in Hl as (u & h1 & Hi & Hl).
    assert (h1 = h ++ [Mat nv (delete i Xv)]) as ->.
    { destruct (Nat.ltb i (length Yv)); [apply ret_Ok in Hi as [_ ->]; reflexivity|discriminate]. }
    clear Hi.
    apply bind_Ok in Hl as (Yr & h1 & Ha & Hl). apply alloc_Ok in Ha as [-> ->].
    set (h1 := (h ++ [Mat nv (delete i Xv)]) ++ [Vec (delete i Yv)]) in *.
    assert (K1 : keeps k h h1).
    { eapply keeps_trans; apply keeps_alloc; [lia|rewrite length_app; lia]. }
    apply bind_Ok in Hl as ([Xc mu] & h2 & Hc & Hl).
    apply (center_keeps k) in Hc as [K2 HXc]; [|destruct K1; lia].
    apply bind_Ok in Hl as ([Yc mu1] & h3 & Hc & Hl).
    apply (center1_keeps k) in Hc as [K3 HYc]; [|destruct K1, K2; lia].
    apply bind_Ok in Hl as (Xi & h4 & Hi & Hl). apply item_Ok in Hi as [_ ->].
    apply bind_Ok in Hl as (xp & h4 & Ha & Hl). apply alloc_Ok in Ha as [-> ->].
    apply bind_Ok in Hl as (xpv & h4 & Hi & Hl). apply lift_Ok in Hi as [_ ->].
    apply bind_Ok in Hl as (u' & h4 & Hp & Hl). apply put_Ok in Hp as ->.
    apply bind_Ok in Hl as (yp & h4 & Hgl & Hl).
    assert (Hk3 : k <= length h3) by (destruct K1, K2, K3; lia).
    apply (getLOO_loop_keeps k) in Hgl as K5; [|assumption..].
    apply bind_Ok in Hl as (Yi & h5 & Hi & Hl). apply item_Ok in Hi as [_ ->].
    assert (K4 : keeps k h3 (<[length h3 := Vec xpv]> (h3 ++ [Vec Xi]))).
    { eapply keeps_trans; [apply keeps_alloc|apply keeps_put]; assumption. }
    apply IH in Hl.
    + eapply keeps_trans; [exact K1|]. eapply keeps_trans; [exact K2|].
      eapply keeps_trans; [exact K3|]. eapply keeps_trans; [exact K4|].
      eapply keeps_trans; [exact K5|]. exact Hl.
    + destruct K4 as [L4 _], K5 as [L5 _].
      eapply Nat.le_trans; [exact Hk3|]. eapply Nat.le_trans; [exact L4|exact L5].
Qed.

(** [validateLOO] keeps every array that was in the store when it was
    called, and the two stored references. *)
Lemma validateLOO_keeps k self A m (h h' : store F) :
  k <= length h ->
  validateLOO self A h = Ok (m, h') ->
  keeps k h h' /\ X m = X self /\ Y m = Y self.
Proof.
  intros Hk Hv. unfold validateLOO in Hv.
  destruct (X self) as [X0|] eqn:EX; [destruct (Y self) as [Y0|] eqn:EY|].
  - apply bind_Ok in Hv as ([nv Xv] & h1 & Hg & Hv). apply get_mat_Ok in Hg as [_ ->].
    apply bind_Ok in Hv as (Yv & h1 & Hg & Hv). apply get_vec_Ok in Hg as [_ ->].
    apply bind_Ok in Hv as (S0 & h1 & Hs & Hv).
    assert (h1 = h) as ->.
    { clear Hv. revert Hs. generalize 0 at 1. generalize (@fzero F _).
      induction (length Xv) as [|n IH]; intros z i Hs.
      - apply ret_Ok in Hs as [_ ->]. reflexivity.
      - simpl in Hs. apply bind_Ok in Hs as (Yi & h2 & Hi & Hs).
        apply item_Ok in Hi as [_ ->]. eapply IH. exact Hs. }
    apply bind_Ok in Hv as (SSYv & h2 & Hl & Hv).
    apply (validateLOO_loop_keeps k) in Hl; [|exact Hk].
    apply ret_Ok in Hv as [-> ->]. simpl. auto.
  - apply ret_Ok in Hv as [-> ->]. split; [apply keeps_refl|]. split; congruence.
  - apply ret_Ok in Hv as [-> ->]. split; [apply keeps_refl|]. split; congruence.
Qed.

End Frame.

(** * What the methods compute *)

Section Computes.
Context {F : Type} `{Scalar F}.

Lemma vsub_length (a b : list F) : length a = length b -> length (vsub a b) = length a.
Proof.
  revert b. induction a as [|x a IH]; intros [|y b] Hl; simpl in *; try lia.
  rewrite IH; lia.
Qed.

Lemma isub_same_length (x v : list F) :
  length v = length x -> isub x v = Ok (vsub x v).
Proof. intros Hl. unfold isub. rewrite Hl, Nat.eqb_refl. reflexivity. Qed.

Lemma center_run X0 nv Xv (h : store F) :
  h !! X0 = Some (Mat nv Xv) ->
  center X0 h
  = Ok ((length h, mean0 nv Xv),
        h ++ [Mat nv (map (fun row => vsub row (mean0 nv Xv)) Xv)]).
Proof.
  intros HX. unfold center, get_mat, alloc, mbind, run_bind. rewrite HX. reflexivity.
Qed.

Lemma center1_run Y0 Yv (h : store F) :
  h !! Y0 = Some (Vec Yv) ->
  center1 Y0 h
  = Ok ((length h, mean Yv), h ++ [Vec (map (fun y => (y - mean Yv)%sc) Yv)]).
Proof.
  intros HY. unfold center1, get_vec, alloc, mbind, run_bind. rewrite HY. reflexivity.
Qed.

Lemma extractLV_run X0 Y0 nv Xv Yv (h : store F) :
  h !! X0 = Some (Mat nv Xv) -> h !! Y0 = Some (Vec Yv) ->
  length Yv = length Xv ->
  extractLV X0 Y0 h = Ok (extractLV_of nv Xv Yv, h).
Proof.
  intros HX HY Hl. unfold extractLV, get_mat, get_vec, mbind, run_bind.
  rewrite HX, HY, Hl, Nat.eqb_refl. reflexivity.
Qed.

Lemma extractLV_of_lengths nv Xv Yv t0 p0 w0 c0 :
  extractLV_of nv Xv Yv = (t0, p0, w0, c0) ->
  length t0 = length Xv /\ length p0 = nv /\ length w0 = nv.
Proof.
  unfold extractLV_of. intros [= <- <- <- _].
  rewrite !length_map, !length_seq. auto.
Qed.

Lemma computeSS_loop_step row (Xv : list (list F)) Yi (Yv : list F) SSX0 SSY0 d :
  computeSS_loop (row :: Xv) (Yi :: Yv) SSX0 SSY0 d
  = computeSS_loop Xv Yv (py_add SSX0 (NpFloat64 (dot row row)))
      (py_add SSY0 (NpFloat64 (square Yi))) (d ++ [dot row row]).
Proof. reflexivity. Qed.

Lemma val_py_add_np (a : pyfloat F) x : py_add a (NpFloat64 x) = NpFloat64 (val a + x)%sc.
Proof. destruct a; reflexivity. Qed.

Lemma computeSS_loop_cons row (Xv : list (list F)) Yi (Yv : list F) SSX0 SSY0 d :
  length Yv = length Xv ->
  computeSS_loop (row :: Xv) (Yi :: Yv) SSX0 SSY0 d
  = Ok (NpFloat64 (SS_rows (val SSX0) (row :: Xv)),
        NpFloat64 (SS_vec (val SSY0) (Yi :: Yv)),
        d ++ map (fun row => dot row row) (row :: Xv)).
Proof.
  revert row Yi Yv SSX0 SSY0 d.
  induction Xv as [|row' Xv IH]; intros row Yi Yv SSX0 SSY0 d Hl.
  - destruct Yv; [|discriminate]. rewrite computeSS_loop_step, !val_py_add_np.
    reflexivity.
  - destruct Yv as [|Yi' Yv]; [discriminate|].
    rewrite computeSS_loop_step, IH by (simpl in Hl; lia).
    rewrite !val_py_add_np. simpl. rewrite <- app_assoc. reflexivity.
Qed.

Lemma computeSS_loop_run (Xv : list (list F)) (Yv : list F) SSX0 SSY0 d :
  length Yv = length Xv -> Xv <> [] ->
  computeSS_loop Xv Yv SSX0 SSY0 d
  = Ok (NpFloat64 (SS_rows (val SSX0) Xv), NpFloat64 (SS_vec (val SSY0) Yv),
        d ++ map (fun row => dot row row) Xv).
Proof.
  intros Hl Hne. destruct Xv as [|row Xv]; [congruence|].
  destruct Yv as [|Yi Yv]; [discriminate|].
  apply computeSS_loop_cons. simpl in Hl. lia.
Qed.

Lemma computeSS_run X0 Y0 nv Xv Yv (h : store F) :
  h !! X0 = Some (Mat nv Xv) -> h !! Y0 = Some (Vec Yv) ->
  length Yv = length Xv -> Xv <> [] ->
  computeSS X0 Y0 h
  = Ok ((NpFloat64 (SS_rows fzero Xv), NpFloat64 (SS_vec fzero Yv),
         map (fun row => dot row row) Xv), h).
Proof.
  intros HX HY Hl Hne. unfold computeSS, get_mat, get_vec, mbind, run_bind.
  rewrite HX, HY. rewrite computeSS_loop_run by assumption. reflexivity.
Qed.

Lemma deflateLV_loop_run nv (Xv : list (list F)) (Yv t0 p0 : list F) c0 :
  rect nv Xv -> length p0 = nv ->
  length t0 = length Xv -> length Yv = length Xv ->
  deflateLV_loop Xv Yv t0 p0 c0 = Ok (deflated_X Xv t0 p0, deflated_Y Yv t0 c0).
Proof.
  intros HR Hp. revert Yv t0. induction HR as [|row Xv Hrow HR IH]; intros Yv t0 Ht HY.
  - destruct Yv; [|discriminate]. destruct t0; [|discriminate]. reflexivity.
  - destruct Yv as [|Yi Yv]; [discriminate|]. destruct t0 as [|ti t0]; [discriminate|].
    simpl in *. rewrite isub_same_length by (unfold scale; rewrite length_map; lia).
    simpl. rewrite IH by lia. reflexivity.
Qed.

Lemma deflated_X_rect nv (Xv : list (list F)) (t0 p0 : list F) :
  rect nv Xv -> length p0 = nv -> rect nv (deflated_X Xv t0 p0).
Proof.
  intros HR Hp. revert t0. induction HR as [|row Xv Hrow HR IH]; intros [|ti t0];
    try constructor.
  - rewrite vsub_length; unfold scale; rewrite ?length_map; lia.
  - apply IH.
Qed.

Lemma deflateLV_run X0 Y0 nv Xv Yv t0 p0 c0 (h : store F) :
  h !! X0 = Some (Mat nv Xv) -> h !! Y0 = Some (Vec Yv) ->
  rect nv Xv -> length p0 = nv ->
  length t0 = length Xv -> length Yv = length Xv ->
  deflateLV X0 Y0 t0 p0 c0 h
  = Ok ((X0, Y0),
        <[Y0 := Vec (deflated_Y Yv t0 c0)]> (<[X0 := Mat nv (deflated_X Xv t0 p0)]> h)).
Proof.
  intros HX HY HR Hp Ht Hl.
  unfold deflateLV, get_mat, get_vec, put, lift, mbind, run_bind.
  rewrite HX, HY. rewrite (deflateLV_loop_run nv) by assumption. reflexivity.
Qed.

Lemma zip_with_length_same {A B C} (f : A -> B -> C) (l : list A) (k : list B) :
  length k = length l -> length (zip_with f l k) = length l.
Proof. intros Hl. rewrite length_zip_with. lia. Qed.

Lemma build_body_run nobj nv sx0 sy0 v (h : store F) Xv Yv :
  working nobj nv v h Xv Yv -> 0 < nobj ->
  build_body nobj nv (NpFloat64 sx0) (NpFloat64 sy0) v h
  = let '(v', Xv', Yv') := build_body_of nobj nv sx0 sy0 v Xv Yv in
    Ok (v', <[b_Y v := Vec Yv']> (<[b_X v := Mat nv Xv']> h)).
Proof.
  intros (HX & HY & HR & HlX & HlY) Hn.
  unfold build_body, build_body_of.
  destruct (extractLV_of nv Xv Yv) as [[[t0 p0] w0] c0] eqn:E.
  destruct (extractLV_of_lengths _ _ _ _ _ _ _ E) as (Ht & Hp & Hw).
  assert (HXY : b_X v <> b_Y v) by (intros e; rewrite e in HX; congruence).
  assert (LX : b_X v < length h) by (eapply lookup_lt_Some; exact HX).
  assert (LY : b_Y v < length h) by (eapply lookup_lt_Some; exact HY).
  erewrite bind_run by (apply extractLV_run; [exact HX|exact HY|lia]).
  rewrite E.
  cbv beta iota.
  erewrite bind_run by (apply (deflateLV_run _ _ nv Xv Yv); (assumption || lia)).
  cbv beta iota.
  set (Xv' := deflated_X Xv t0 p0). set (Yv' := deflated_Y Yv t0 c0).
  set (h' := <[b_Y v := Vec Yv']> (<[b_X v := Mat nv Xv']> h)).
  assert (HX' : h' !! b_X v = Some (Mat nv Xv')).
  { unfold h'. rewrite list_lookup_insert_ne by congruence.
    apply list_lookup_insert_eq. exact LX. }
  assert (HY' : h' !! b_Y v = Some (Vec Yv')).
  { unfold h'. apply list_lookup_insert_eq. rewrite length_insert. exact LY. }
  assert (LX' : length Xv' = length Xv).
  { unfold Xv', deflated_X. apply zip_with_length_same. exact Ht. }
  assert (LY' : length Yv' = length Xv').
  { unfold Yv', deflated_Y. rewrite zip_with_length_same; lia. }
  erewrite bind_run
    by (apply (computeSS_run _ _ nv Xv' Yv');
        [exact HX'|exact HY'|exact LY'|intros e; rewrite e in LX'; simpl in LX'; lia]).
  destruct (b_SSXold v), (b_SSYold v), (b_SSXac v), (b_SSYac v); reflexivity.
Qed.

Lemma build_body_of_working nobj nv sx0 sy0 v (h : store F) Xv Yv v' Xv' Yv' :
  working nobj nv v h Xv Yv ->
  build_body_of nobj nv sx0 sy0 v Xv Yv = (v', Xv', Yv') ->
  working nobj nv v' (<[b_Y v := Vec Yv']> (<[b_X v := Mat nv Xv']> h)) Xv' Yv'
  /\ b_a v' = b_a v + 1.
Proof.
  intros (HX & HY & HR & HlX & HlY). unfold build_body_of.
  destruct (extractLV_of nv Xv Yv) as [[[t0 p0] w0] c0] eqn:E.
  destruct (extractLV_of_lengths _ _ _ _ _ _ _ E) as (Ht & Hp & Hw).
  intros [= <- <- <-]. simpl.
  assert (HXY : b_X v <> b_Y v) by (intros e; rewrite e in HX; congruence).
  assert (LX : b_X v < length h) by (eapply lookup_lt_Some; exact HX).
  assert (LY : b_Y v < length h) by (eapply lookup_lt_Some; exact HY).
  split; [|reflexivity]. unfold working. simpl.
  split; [rewrite list_lookup_insert_ne by congruence;
          apply list_lookup_insert_eq; exact LX|].
  split; [apply list_lookup_insert_eq; rewrite length_insert; exact LY|].
  split; [apply deflated_X_rect; assumption|].
  unfold deflated_X, deflated_Y. rewrite !zip_with_length_same; lia.
Qed.

Lemma centered_X_rect nv (Xv : list (list F)) :
  rect nv Xv -> rect nv (centered_X nv Xv).
Proof.
  intros HR. unfold centered_X, rect in *. rewrite Forall_map.
  eapply Forall_impl; [exact HR|].
  intros row Hrow. simpl. rewrite vsub_length; [exact Hrow|].
  unfold mean0. rewrite length_map, length_seq. exact Hrow.
Qed.

(** On an [nobj] x [nvarx] matrix and a vector of length [nobj], with
    [nobj >= 1], [build] reaches its loop: the centered copies are the two
    newest arrays of the store, and the reference sums of squares are
    [np.float64] values. *)
Lemma build_enters (self : pls F) X0 Y0 nv Xv Yv tA tS fuel (h : store F) :
  h !! X0 = Some (Mat nv Xv) -> rect nv Xv -> 0 < length Xv ->
  h !! Y0 = Some (Vec Yv) -> length Yv = length Xv ->
  let Xc := centered_X nv Xv in
  let Yc := centered_Y Yv in
  let v0 := build_start self X0 Y0 nv Xv Yv (length h) in
  let h2 := (h ++ [Mat nv Xc]) ++ [Vec Yc] in
  build self X0 Y0 tA tS fuel h
  = (v ← build_loop fuel (length Xv) nv tA tS
           (NpFloat64 (SS_rows fzero Xc)) (NpFloat64 (SS_vec fzero Yc)) v0;
     mret (set_Am (b_self v) (b_a v))) h2
  /\ working (length Xv) nv v0 h2 Xc Yc.
Proof.
  intros HX HR Hn HY Hl Xc Yc v0 h2.
  set (h1 := h ++ [Mat nv Xc]).
  assert (HY1 : h1 !! Y0 = Some (Vec Yv)).
  { unfold h1. rewrite lookup_app_l; [exact HY|]. eapply lookup_lt_Some; exact HY. }
  assert (L1 : length h1 = length h + 1) by (unfold h1; rewrite length_app; simpl; lia).
  assert (HXc : h2 !! length h = Some (Mat nv Xc)).
  { unfold h2. fold h1. unfold h1. rewrite lookup_app_l by (rewrite length_app; simpl; lia).
    apply list_lookup_middle. reflexivity. }
  assert (HYc : h2 !! (length h + 1) = Some (Vec Yc)).
  { unfold h2. fold h1. rewrite <- L1. apply list_lookup_middle. reflexivity. }
  assert (LXc : length Xc = length Xv) by (unfold Xc, centered_X; apply length_map).
  assert (LYc : length Yc = length Xc) by (unfold Yc, centered_Y; rewrite length_map; lia).
  split.
  - assert (Hg : get_mat X0 h = Ok ((nv, Xv), h))
      by (unfold get_mat; rewrite HX; reflexivity).
    assert (Hc : center X0 h = Ok ((length h, mean0 nv Xv), h1))
      by (apply center_run; exact HX).
    assert (Hc1 : center1 Y0 h1 = Ok ((length h + 1, mean Yv), h2))
      by (rewrite <- L1; apply center1_run; exact HY1).
    assert (Hs : computeSS (length h) (length h + 1) h2
                 = Ok ((NpFloat64 (SS_rows fzero Xc), NpFloat64 (SS_vec fzero Yc),
                        map (fun row => dot row row) Xc), h2)).
    { apply (computeSS_run _ _ nv Xc Yc); [exact HXc|exact HYc|exact LYc|].
      intros e; rewrite e in LXc; simpl in LXc; lia. }
    unfold build.
    rewrite (bind_run _ _ _ _ _ Hg). cbv beta iota zeta.
    rewrite (bind_run _ _ _ _ _ Hc). cbv beta iota zeta.
    rewrite (bind_run _ _ _ _ _ Hc1). cbv beta iota zeta.
    rewrite (bind_run _ _ _ _ _ Hs). cbv beta iota zeta.
    reflexivity.
  - unfold working, v0, build_start. simpl.
    repeat split; try assumption; try lia.
    apply centered_X_rect. exact HR.
Qed.

(** Whatever one pass of the loop keeps true is true when the loop is
    left. *)
Lemma build_loop_inv (I : build_vars F -> store F -> Prop) nobj nv tA tS SSX0 SSY0 :
  (forall v h v' h', I v h -> build_body nobj nv SSX0 SSY0 v h = Ok (v', h') -> I v' h') ->
  forall fuel v h v' h',
    I v h -> build_loop fuel nobj nv tA tS SSX0 SSY0 v h = Ok (v', h') -> I v' h'.
Proof.
  intros Hbody. induction fuel as [|fuel IH]; intros v h v' h' Hi Hl; [discriminate|].
  simpl in Hl. apply bind_Ok in Hl as (v1 & h1 & Hb & Hl).
  apply (Hbody _ _ _ _ Hi) in Hb.
  destruct (build_break tA tS v1).
  - apply ret_Ok in Hl as [-> ->]. exact Hb.
  - eapply IH; eassumption.
Qed.

(** With [targetA = k] and the variance criterion off, the loop is left
    after the pass that makes [a = k], given fuel for the passes to go. *)
Lemma build_loop_targetA (I : build_vars F -> store F -> Prop) nobj nv k tS SSX0 SSY0 :
  fgtb tS fzero = false ->
  (forall v h, I v h ->
     exists v' h', build_body nobj nv SSX0 SSY0 v h = Ok (v', h')
                   /\ I v' h' /\ b_a v' = b_a v + 1) ->
  forall n fuel v h,
    I v h -> b_a v + S n = k -> S n <= fuel ->
    exists v' h', build_loop fuel nobj nv k tS SSX0 SSY0 v h = Ok (v', h')
                  /\ I v' h' /\ b_a v' = k.
Proof.
  intros HtS Hbody. induction n as [|n IH]; intros fuel v h Hi Ha Hf.
  - destruct fuel as [|fuel]; [lia|]. simpl.
    destruct (Hbody v h Hi) as (v1 & h1 & Hb & Hi1 & Ha1).
    rewrite (bind_run _ _ _ _ _ Hb). unfold build_break.
    replace (Nat.ltb 0 k) with true by (symmetry; apply Nat.ltb_lt; lia).
    replace (Nat.eqb (b_a v1) k) with true by (symmetry; apply Nat.eqb_eq; lia).
    simpl. exists v1, h1. repeat split; [exact Hi1|lia].
  - destruct fuel as [|fuel]; [lia|]. simpl.
    destruct (Hbody v h Hi) as (v1 & h1 & Hb & Hi1 & Ha1).
    rewrite (bind_run _ _ _ _ _ Hb). unfold build_break.
    replace (Nat.eqb (b_a v1) k) with false by (symmetry; apply Nat.eqb_neq; lia).
    rewrite HtS, andb_false_r. simpl.
    apply IH; [exact Hi1|lia|lia].
Qed.

(** [build] with [targetA = k] on well-shaped data of at least one
    observation: it returns, after the pass that makes [a = k], and whatever
    [J] the passes keep true of the loop variables and the contents of the
    working arrays is true at the end. *)
Lemma build_targetA_run (J : build_vars F -> list (list F) -> list F -> Prop)
    (self : pls F) X0 Y0 nv Xv Yv k fuel (h : store F) :
  fgtb (fzero : F) fzero = false ->
  h !! X0 = Some (Mat nv Xv) -> rect nv Xv -> 0 < length Xv ->
  h !! Y0 = Some (Vec Yv) -> length Yv = length Xv ->
  1 <= k -> k <= fuel ->
  let Xc := centered_X nv Xv in
  let Yc := centered_Y Yv in
  J (build_start self X0 Y0 nv Xv Yv (length h)) Xc Yc ->
  (forall v Xv' Yv' v1 Xv1 Yv1,
     J v Xv' Yv' ->
     build_body_of (length Xv) nv (SS_rows fzero Xc) (SS_vec fzero Yc) v Xv' Yv'
     = (v1, Xv1, Yv1) ->
     J v1 Xv1 Yv1) ->
  exists v' h' Xf Yf,
    build self X0 Y0 k fzero fuel h = Ok (set_Am (b_self v') (b_a v'), h')
    /\ b_a v' = k /\ J v' Xf Yf.
Proof.
  intros H0 HX HR Hn HY Hl Hk Hf Xc Yc HJ0 HJ.
  destruct (build_enters self X0 Y0 nv Xv Yv k fzero fuel h HX HR Hn HY Hl)
    as (Hrun & Hw).
  fold Xc in Hrun, Hw. fold Yc in Hrun, Hw.
  set (v0 := build_start _ _ _ _ _ _ _) in *.
  set (h2 := (h ++ _) ++ _) in *.
  destruct (build_loop_targetA
              (fun v h => exists Xv' Yv', working (length Xv) nv v h Xv' Yv' /\ J v Xv' Yv')
              (length Xv) nv k fzero
              (NpFloat64 (SS_rows fzero Xc)) (NpFloat64 (SS_vec fzero Yc)) H0)
    with (n := k - 1) (fuel := fuel) (v := v0) (h := h2)
    as (v' & h' & Hloop & (Xf & Yf & _ & HJf) & Ha).
  - intros v hh (Xv' & Yv' & Hw' & HJv).
    pose proof (build_body_run _ _ (SS_rows fzero Xc) (SS_vec fzero Yc) _ _ _ _ Hw' Hn) as Hb.
    destruct (build_body_of (length Xv) nv (SS_rows fzero Xc) (SS_vec fzero Yc) v Xv' Yv')
      as [[v1 Xv1] Yv1] eqn:E.
    destruct (build_body_of_working _ _ _ _ _ _ _ _ _ _ _ Hw' E) as (Hw1 & Ha1).
    eexists _, _. split; [exact Hb|]. split; [|exact Ha1].
    exists Xv1, Yv1. split; [exact Hw1|]. eapply HJ; eassumption.
  - exists Xc, Yc. split; assumption.
  - unfold v0, build_start. simpl. lia.
  - lia.
  - exists v', h', Xf, Yf. rewrite Hrun, (bind_run _ _ _ _ _ Hloop).
    split; [reflexivity|]. split; assumption.
Qed.

(** [build] on well-shaped data, whatever ends the loop: if it returns,
    what the passes keep true is true at the end. *)
Lemma build_run_inv (J : build_vars F -> list (list F) -> list F -> Prop)
    (self : pls F) X0 Y0 nv Xv Yv tA tS fuel (h h' : store F) m :
  h !! X0 = Some (Mat nv Xv) -> rect nv Xv -> 0 < length Xv ->
  h !! Y0 = Some (Vec Yv) -> length Yv = length Xv ->
  let Xc := centered_X nv Xv in
  let Yc := centered_Y Yv in
  J (build_start self X0 Y0 nv Xv Yv (length h)) Xc Yc ->
  (forall v Xv' Yv' v1 Xv1 Yv1,
     J v Xv' Yv' -> rect nv Xv' -> length Xv' = length Xv -> length Yv' = length Xv ->
     build_body_of (length Xv) nv (SS_rows fzero Xc) (SS_vec fzero Yc) v Xv' Yv'
     = (v1, Xv1, Yv1) ->
     J v1 Xv1 Yv1) ->
  build self X0 Y0 tA tS fuel h = Ok (m, h') ->
  exists v' Xf Yf, m = set_Am (b_self v') (b_a v') /\ J v' Xf Yf.
Proof.
  intros HX HR Hn HY Hl Xc Yc HJ0 HJ Hb.
  destruct (build_enters self X0 Y0 nv Xv Yv tA tS fuel h HX HR Hn HY Hl)
    as (Hrun & Hw).
  fold Xc in Hrun, Hw. fold Yc in Hrun, Hw.
  set (v0 := build_start _ _ _ _ _ _ _) in *.
  set (h2 := (h ++ _) ++ _) in *.
  rewrite Hrun in Hb. apply bind_Ok in Hb as (v' & h3 & Hloop & Hb).
  apply ret_Ok in Hb as [-> ->].
  apply (build_loop_inv
           (fun v h => exists Xv' Yv', working (length Xv) nv v h Xv' Yv' /\ J v Xv' Yv'))
    in Hloop.
  - destruct Hloop as (Xf & Yf & _ & HJf). exists v', Xf, Yf. split; [reflexivity|exact HJf].
  - intros v hh v1 h1 (Xv' & Yv' & Hw' & HJv) Hbody.
    rewrite (build_body_run _ _ _ _ _ _ _ _ Hw' Hn) in Hbody.
    destruct (build_body_of (length Xv) nv (SS_rows fzero Xc) (SS_vec fzero Yc) v Xv' Yv')
      as [[v2 Xv2] Yv2] eqn:E.
    injection Hbody as <- <-.
    destruct (build_body_of_working _ _ _ _ _ _ _ _ _ _ _ Hw' E) as (Hw1 & Ha1).
    exists Xv2, Yv2. split; [exact Hw1|].
    destruct Hw' as (_ & _ & HR' & HL' & HLY').
    eapply HJ; eassumption.
  - exists Xc, Yc. split; assumption.
Qed.

(** The first weight vector [build] stores is the one [extractLV] makes of
    the centered data. *)
Lemma build_first_weights X0 Y0 nv Xv Yv k fuel (h : store F) :
  fgtb (fzero : F) fzero = false ->
  h !! X0 = Some (Mat nv Xv) -> rect nv Xv -> 0 < length Xv ->
  h !! Y0 = Some (Vec Yv) -> length Yv = length Xv ->
  1 <= k -> k <= fuel ->
  exists m h',
    build __init__ X0 Y0 k fzero fuel h = Ok (m, h')
    /\ Am m = k
    /\ head (w m) = Some (weights_of nv (centered_X nv Xv) (centered_Y Yv)).
Proof.
  intros H0 HX HR Hn HY Hl Hk Hf.
  set (w1 := weights_of nv (centered_X nv Xv) (centered_Y Yv)).
  destruct (build_targetA_run
              (fun v Xv' Yv' =>
                 (b_a v = 0 /\ Xv' = centered_X nv Xv /\ Yv' = centered_Y Yv
                  /\ w (b_self v) = [])
                 \/ (0 < b_a v /\ head (w (b_self v)) = Some w1))
              __init__ X0 Y0 nv Xv Yv k fuel h H0 HX HR Hn HY Hl Hk Hf)
    as (v' & h' & Xf & Yf & Hb & Ha & HJ).
  - left. unfold build_start. simpl. auto.
  - intros v Xv' Yv' v1 Xv1 Yv1 HJ E. right. unfold build_body_of in E.
    destruct (extractLV_of nv Xv' Yv') as [[[t0 p0] w0] c0] eqn:EL.
    injection E as <- _ _. simpl. split; [lia|].
    destruct HJ as [(Ha0 & EX & EY & Hw)|(Hpos & Hhd)].
    + subst Xv' Yv'. rewrite Hw. simpl. f_equal.
      unfold w1, weights_of. rewrite EL. reflexivity.
    + destruct (w (b_self v)); [discriminate|]. exact Hhd.
  - exists (set_Am (b_self v') (b_a v')), h'. split; [exact Hb|].
    split; [exact Ha|].
    destruct HJ as [(Ha0 & _)|(_ & Hhd)]; [lia|exact Hhd].
Qed.

Lemma lv_lengths_append (self : pls F) k t0 p0 w0 c0 e1 a1 e2 a2 s d :
  lv_lengths self k ->
  lv_lengths (append_ss (append_lv self t0 p0 w0 c0) e1 a1 e2 a2 s d) (k + 1).
Proof.
  unfold lv_lengths. simpl. rewrite !length_app. simpl. intuition lia.
Qed.

End Computes.

(** * Persistence *)

Section SaveLoad.
Context {F : Type} `{Scalar F}.

Lemma getitem_lt {A} (l : list A) i :
  i < length l -> exists x, l !! i = Some x /\ getitem l i = Ok x.
Proof.
  intros Hi. destruct (lookup_lt_is_Some_2 l i Hi) as [x Hx].
  exists x. split; [exact Hx|]. unfold getitem. rewrite Hx. reflexivity.
Qed.

Lemma take_S_drop {A} (l : list A) a n x :
  l !! a = Some x -> take (S n) (drop a l) = x :: take n (drop (a + 1) l).
Proof.
  intros Hx. rewrite (drop_S _ _ _ Hx). simpl.
  replace (a + 1) with (S a) by lia. reflexivity.
Qed.

Lemma app_take_S_drop {A} (k l : list A) a n x :
  l !! a = Some x ->
  (k ++ [x]) ++ take n (drop (a + 1) l) = k ++ take (S n) (drop a l).
Proof.
  intros Hx. rewrite (take_S_drop _ _ _ _ Hx), <- app_assoc. reflexivity.
Qed.

Lemma lvs_roundtrip (m : pls F) k :
  lv_lengths m k ->
  forall n a self rest,
    a + n <= k ->
    exists recs,
      save_range (save_lv m) a n = Ok recs
      /\ load_lvs n self (recs ++ rest) = Ok (loaded_lvs self m a n, rest).
Proof.
  intros (L1 & L2 & L3 & L4 & L5 & L6 & L7 & L8 & L9 & L10).
  induction n as [|n IH]; intros a self rest Ha.
  - exists []. split; [reflexivity|]. simpl.
    unfold mret, run_ret, loaded_lvs. simpl. rewrite !app_nil_r.
    destruct self; reflexivity.
  - destruct (getitem_lt (t m) a) as (x1 & E1 & G1); [lia|].
    destruct (getitem_lt (p m) a) as (x2 & E2 & G2); [lia|].
    destruct (getitem_lt (w m) a) as (x3 & E3 & G3); [lia|].
    destruct (getitem_lt (c m) a) as (x4 & E4 & G4); [lia|].
    destruct (getitem_lt (SSXex m) a) as (x5 & E5 & G5); [lia|].
    destruct (getitem_lt (SSXac m) a) as (x6 & E6 & G6); [lia|].
    destruct (getitem_lt (SSYex m) a) as (x7 & E7 & G7); [lia|].
    destruct (getitem_lt (SSYac m) a) as (x8 & E8 & G8); [lia|].
    destruct (getitem_lt (SDEC m) a) as (x9 & E9 & G9); [lia|].
    destruct (getitem_lt (dmodx m) a) as (x10 & E10 & G10); [lia|].
    destruct (IH (a + 1)
                (append_ss (append_lv self x1 x2 x3 x4) x5 x6 x7 x8 x9 x10) rest)
      as (recs & Hs & Hld); [lia|].
    assert (Hrec : save_lv m a
                   = Ok [NpyArray x1; NpyArray x2; NpyArray x3; NpyFloat x4;
                         NpyFloat x5; NpyFloat x6; NpyFloat x7; NpyFloat x8;
                         NpyFloat x9; NpyArray x10]).
    { unfold save_lv. rewrite G1, G2, G3, G4, G5, G6, G7, G8, G9, G10. reflexivity. }
    eexists. split.
    + change (save_range (save_lv m) a (S n))
        with (here ← save_lv m a; rest0 ← save_range (save_lv m) (a + 1) n;
              Ok (here ++ rest0)).
      rewrite Hrec, Hs. reflexivity.
    + simpl. unfold mbind, run_bind, load_array, load_float, np_load, mret, run_ret.
      simpl. unfold mbind, run_bind in Hld. rewrite Hld. f_equal. f_equal.
      unfold loaded_lvs. simpl.
      rewrite (app_take_S_drop _ _ _ _ _ E1), (app_take_S_drop _ _ _ _ _ E2),
        (app_take_S_drop _ _ _ _ _ E3), (app_take_S_drop _ _ _ _ _ E4),
        (app_take_S_drop _ _ _ _ _ E5), (app_take_S_drop _ _ _ _ _ E6),
        (app_take_S_drop _ _ _ _ _ E7), (app_take_S_drop _ _ _ _ _ E8),
        (app_take_S_drop _ _ _ _ _ E9), (app_take_S_drop _ _ _ _ _ E10).
      reflexivity.
Qed.

Lemma cvs_roundtrip (m : pls F) k :
  cv_lengths m k ->
  forall n a self rest,
    a + n <= k -> SSY_type self = PyList ->
    exists recs,
      save_range (save_cv m) a n = Ok recs
      /\ load_cvs n self (recs ++ rest) = Ok (loaded_cvs self m a n, rest).
Proof.
  intros (L1 & L2 & L3).
  induction n as [|n IH]; intros a self rest Ha Hty.
  - exists []. split; [reflexivity|]. simpl.
    unfold mret, run_ret, loaded_cvs. simpl. rewrite !app_nil_r.
    destruct self; reflexivity.
  - destruct (getitem_lt (SSY m) a) as (x1 & E1 & G1); [lia|].
    destruct (getitem_lt (SDEP m) a) as (x2 & E2 & G2); [lia|].
    destruct (getitem_lt (Q2 m) a) as (x3 & E3 & G3); [lia|].
    destruct (IH (a + 1) (append_cv self x1 x2 x3) rest) as (recs & Hs & Hld);
      [lia|exact Hty|].
    assert (Hrec : save_cv m a = Ok [NpyFloat x1; NpyFloat x2; NpyFloat x3]).
    { unfold save_cv. rewrite G1, G2, G3. reflexivity. }
    eexists. split.
    + change (save_range (save_cv m) a (S n))
        with (here ← save_cv m a; rest0 ← save_range (save_cv m) (a + 1) n;
              Ok (here ++ rest0)).
      rewrite Hrec, Hs. reflexivity.
    + simpl. rewrite Hty.
      unfold mbind, run_bind, load_float, np_load, mret, run_ret.
      simpl. unfold mbind, run_bind in Hld. rewrite Hld. f_equal. f_equal.
      unfold loaded_cvs. simpl.
      rewrite (app_take_S_drop _ _ _ _ _ E1), (app_take_S_drop _ _ _ _ _ E2),
        (app_take_S_drop _ _ _ _ _ E3).
      reflexivity.
Qed.

(** An object whose lists have the lengths its counters say is written,
    and read back into a new object as it was. *)
Lemma roundtrip_of_lengths (m : pls F) :
  lv_lengths m (Am m) -> cv_lengths m (Av m) ->
  exists file, saveModel m = Ok file /\ loadModel __init__ file = Ok (serialized m).
Proof.
  intros Hlv Hcv.
  set (self0 := set_header __init__ (Am m) (Av m) (nobj m) (nvarx m) (mux m) (muy m)).
  destruct (cvs_roundtrip m _ Hcv (Av m) 0 (loaded_lvs self0 m 0 (Am m)) [])
    as (cvs & Hsc & Hlc); [lia|reflexivity|].
  destruct (lvs_roundtrip m _ Hlv (Am m) 0 self0 (cvs ++ []))
    as (lvs & Hsl & Hll); [lia|].
  eexists. split.
  - unfold saveModel. rewrite Hsl, Hsc. simpl. reflexivity.
  - rewrite app_nil_r in Hll, Hlc.
    unfold loadModel. simpl.
    unfold mbind at 2. unfold run_bind, load_int, load_mux, load_muy, np_load.
    unfold mbind at 2. unfold run_bind, mret, run_ret. simpl.
    destruct (mux m) eqn:Emx, (muy m) eqn:Emy; simpl;
      unfold mbind, run_bind in *; fold self0; rewrite Hll, Hlc; simpl;
      unfold mret, outcome_ret; f_equal;
      destruct Hlv as (L1 & L2 & L3 & L4 & L5 & L6 & L7 & L8 & L9 & L10);
      destruct Hcv as (K1 & K2 & K3);
      unfold loaded_cvs, loaded_lvs, serialized; simpl;
      rewrite ?Emx, ?Emy, !drop_0, !take_ge by lia; reflexivity.
Qed.

Lemma SSY_update_length n a (SSYv yp : list F) Yi :
  length (SSY_update n a SSYv yp Yi) = length SSYv.
Proof.
  revert a SSYv. induction n as [|n IH]; intros a SSYv; simpl; [reflexivity|].
  rewrite IH, length_insert. reflexivity.
Qed.

Lemma validateLOO_loop_length n X0 Y0 A i SSYv r (h h' : store F) :
  validateLOO_loop n X0 Y0 A i SSYv h = Ok (r, h') -> length r = length SSYv.
Proof.
  revert i SSYv h. induction n as [|n IH]; intros i SSYv h Hl.
  - apply ret_Ok in Hl as [-> _]. reflexivity.
  - simpl in Hl.
    repeat (apply bind_Ok in Hl as (? & ? & _ & Hl);
            try match type of Hl with (let '(_, _) := ?a in _) _ = _ => destruct a end).
    apply IH in Hl. rewrite Hl. apply SSY_update_length.
Qed.

Lemma validateLOO_lengths (m m' : pls F) A (h h' : store F) k :
  validateLOO m A h = Ok (m', h') ->
  lv_lengths m k -> Am m = k -> cv_lengths m (Av m) ->
  lv_lengths m' k /\ Am m' = k /\ cv_lengths m' (Av m').
Proof.
  intros Hv Hlv HA Hcv. unfold validateLOO in Hv.
  destruct (X m) as [X0|]; [destruct (Y m) as [Y0|]|];
    try (apply ret_Ok in Hv as [-> _]; auto).
  apply bind_Ok in Hv as ([nv Xv] & h1 & _ & Hv).
  apply bind_Ok in Hv as (Yv & h2 & _ & Hv).
  apply bind_Ok in Hv as (S0 & h3 & _ & Hv).
  apply bind_Ok in Hv as (SSYv & h4 & Hl & Hv).
  apply validateLOO_loop_length in Hl. rewrite length_replicate in Hl.
  apply ret_Ok in Hv as [-> _].
  split; [exact Hlv|]. split; [exact HA|].
  unfold cv_lengths. simpl. rewrite !length_map. auto.
Qed.

Lemma build_body_self nobj nv SSX0 SSY0 v v' (h h' : store F) :
  build_body nobj nv SSX0 SSY0 v h = Ok (v', h') ->
  b_a v' = b_a v + 1
  /\ exists t0 p0 w0 c0 e1 a1 e2 a2 s d,
      b_self v' = append_ss (append_lv (b_self v) t0 p0 w0 c0) e1 a1 e2 a2 s d.
Proof.
  intros Hb. unfold build_body in Hb.
  apply bind_Ok in Hb as ([[[t0 p0] w0] c0] & h1 & _ & Hb).
  apply bind_Ok in Hb as ([X1 Y1] & h2 & _ & Hb).
  apply bind_Ok in Hb as ([[SSXnew SSYnew] d] & h3 & _ & Hb).
  apply bind_Ok in Hb as (SSXex & h4 & _ & Hb).
  apply bind_Ok in Hb as (SSYex & h5 & _ & Hb).
  apply bind_Ok in Hb as (q & h6 & _ & Hb).
  apply ret_Ok in Hb as [-> _]. simpl. split; [reflexivity|].
  do 10 eexists. reflexivity.
Qed.

(** What [build] returns on a new object has lists as long as [Am] says,
    and nothing validated. *)
Lemma build_lengths X0 Y0 tA tS fuel (h h' : store F) m :
  build __init__ X0 Y0 tA tS fuel h = Ok (m, h') ->
  lv_lengths m (Am m) /\ cv_lengths m (Av m).
Proof.
  intros Hb. unfold build in Hb.
  apply bind_Ok in Hb as ([nv Xv] & h1 & _ & Hb).
  apply bind_Ok in Hb as ([Xc mu] & h2 & _ & Hb).
  apply bind_Ok in Hb as ([Yc mu1] & h3 & _ & Hb).
  apply bind_Ok in Hb as ([[SSX0 SSY0] d] & h4 & _ & Hb).
  apply bind_Ok in Hb as (v & h5 & Hl & Hb).
  apply ret_Ok in Hb as [-> _].
  apply (build_loop_inv
           (fun v _ => lv_lengths (b_self v) (b_a v)
                       /\ cv_lengths (b_self v) 0 /\ Av (b_self v) = 0)) in Hl.
  - destruct Hl as (Hlv & Hcv & HAv). simpl. rewrite HAv. split; assumption.
  - intros v0 hh v1 h1' (Hlv & Hcv & HAv) Hbody.
    apply build_body_self in Hbody
      as (Ha & t0 & p0 & w0 & c0 & e1 & a1 & e2 & a2 & s & d0 & Hs).
    rewrite Ha, Hs. split; [apply lv_lengths_append; exact Hlv|].
    split; [exact Hcv|exact HAv].
  - simpl. unfold lv_lengths, cv_lengths. simpl. repeat split.
Qed.

Lemma fitted_lengths (m : pls F) :
  fitted m -> lv_lengths m (Am m) /\ cv_lengths m (Av m).
Proof.
  induction 1 as [X0 Y0 tA tS fuel h m h' Hb | m A h m' h' _ [Hlv Hcv] Hv].
  - eapply build_lengths. exact Hb.
  - destruct (validateLOO_lengths _ _ _ _ _ _ Hv Hlv eq_refl Hcv) as (Hlv' & HA & Hcv').
    rewrite HA. split; assumption.
Qed.

Lemma fitted_validations (m m' : pls F) As (h h' : store F) :
  fitted m -> validations m As h = Ok (m', h') -> fitted m'.
Proof.
  revert m h. induction As as [|A As IH]; intros m h Hf Hv.
  - apply ret_Ok in Hv as [-> _]. exact Hf.
  - simpl in Hv. apply bind_Ok in Hv as (m1 & h1 & Hv1 & Hv).
    eapply IH; [|exact Hv]. eapply fitted_validateLOO; eassumption.
Qed.

Lemma extractLV_Ok X0 Y0 r (h h' : store F) :
  extractLV X0 Y0 h = Ok (r, h') -> exists nv Xv Yv, r = extractLV_of nv Xv Yv.
Proof.
  intros He. unfold extractLV in He.
  apply bind_Ok in He as ([nv Xv] & h1 & _ & He).
  apply bind_Ok in He as (Yv & h2 & _ & He).
  destruct (Nat.eqb (length Yv) (length Xv)); [|discriminate].
  apply ret_Ok in He as [-> _]. exists nv, Xv, Yv. reflexivity.
Qed.

Lemma build_body_w nobj nv SSX0 SSY0 v v' (h h' : store F) :
  build_body nobj nv SSX0 SSY0 v h = Ok (v', h') ->
  exists nv' Xv Yv, w (b_self v') = w (b_self v) ++ [weights_of nv' Xv Yv].
Proof.
  intros Hb. unfold build_body in Hb.
  apply bind_Ok in Hb as ([[[t0 p0] w0] c0] & h1 & He & Hb).
  apply extractLV_Ok in He as (nv' & Xv & Yv & He).
  apply bind_Ok in Hb as ([X1 Y1] & h2 & _ & Hb).
  apply bind_Ok in Hb as ([[SSXnew SSYnew] d] & h3 & _ & Hb).
  apply bind_Ok in Hb as (SSXex & h4 & _ & Hb).
  apply bind_Ok in Hb as (SSYex & h5 & _ & Hb).
  apply bind_Ok in Hb as (q & h6 & _ & Hb).
  apply ret_Ok in Hb as [-> _]. simpl.
  exists nv', Xv, Yv. unfold weights_of. rewrite <- He. reflexivity.
Qed.

Lemma validateLOO_w (m m' : pls F) A (h h' : store F) :
  validateLOO m A h = Ok (m', h') -> w m' = w m.
Proof.
  intros Hv. unfold validateLOO in Hv.
  destruct (X m) as [X0|]; [destruct (Y m) as [Y0|]|];
    try (apply ret_Ok in Hv as [-> _]; reflexivity).
  apply bind_Ok in Hv as ([nv Xv] & h1 & _ & Hv).
  apply bind_Ok in Hv as (Yv & h2 & _ & Hv).
  apply bind_Ok in Hv as (S0 & h3 & _ & Hv).
  apply bind_Ok in Hv as (SSYv & h4 & _ & Hv).
  apply ret_Ok in Hv as [-> _]. reflexivity.
Qed.

(** Every weight vector of a fitted model came out of [extractLV]. *)
Lemma fitted_weights (P : list F -> Prop) (m : pls F) :
  (forall nv Xv Yv, P (weights_of nv Xv Yv)) ->
  fitted m -> Forall P (w m).
Proof.
  intros HP. induction 1 as [X0 Y0 tA tS fuel h m h' Hb | m A h m' h' _ IH Hv].
  - unfold build in Hb.
    apply bind_Ok in Hb as ([nv Xv] & h1 & _ & Hb).
    apply bind_Ok in Hb as ([Xc mu] & h2 & _ & Hb).
    apply bind_Ok in Hb as ([Yc mu1] & h3 & _ & Hb).
    apply bind_Ok in Hb as ([[SSX0 SSY0] d] & h4 & _ & Hb).
    apply bind_Ok in Hb as (v & h5 & Hl & Hb).
    apply ret_Ok in Hb as [-> _].
    apply (build_loop_inv (fun v _ => Forall P (w (b_self v)))) in Hl.
    + exact Hl.
    + intros v0 hh v1 h1' HF Hbody.
      apply build_body_w in Hbody as (nv' & Xv' & Yv' & ->).
      apply Forall_app. split; [exact HF|]. constructor; [apply HP|constructor].
    + simpl. constructor.
  - rewrite (validateLOO_w _ _ _ _ _ Hv). exact IH.
Qed.

(** Every weight vector of a fitted model was divided by the norm
    [extractLV] computed for it. *)
Lemma fitted_normalised (m : pls F) : fitted m -> Forall normalised (w m).
Proof.
  apply fitted_weights. intros nv Xv Yv.
  exists (map (fun j => (dot Yv (column Xv j) / dot Yv Yv)%sc) (seq 0 nv)).
  reflexivity.
Qed.

End SaveLoad.

(** * Exact arithmetic *)

Section Exact.
Local Open Scope R_scope.

Lemma dot_from_acc (acc : R) (a b : list R) : dot_from acc a b = acc + dot a b.
Proof.
  unfold dot. revert acc b. induction a as [|x a IH]; intros acc [|y b]; simpl; try lra.
  rewrite IH, (IH (0 + x * y)). lra.
Qed.

Lemma dot_cons (x y : R) a b : dot (x :: a) (y :: b) = x * y + dot a b.
Proof. unfold dot at 1. simpl. rewrite dot_from_acc. lra. Qed.

Lemma dot_nil_l (b : list R) : dot [] b = 0.
Proof. reflexivity. Qed.

Lemma dot_nil_r (a : list R) : dot a [] = 0.
Proof. destruct a; reflexivity. Qed.

Lemma dot_comm (a b : list R) : dot a b = dot b a.
Proof.
  revert b. induction a as [|x a IH]; intros [|y b]; try reflexivity.
  rewrite !dot_cons, IH. lra.
Qed.

Lemma dot_self_nonneg (a : list R) : 0 <= dot a a.
Proof.
  induction a as [|x a IH]; [rewrite dot_nil_l; lra|].
  rewrite dot_cons. nra.
Qed.

Lemma dot_self_zero (a : list R) : dot a a = 0 -> Forall (fun x => x = 0) a.
Proof.
  induction a as [|x a IH]; intros Hd; [constructor|].
  rewrite dot_cons in Hd. pose proof (dot_self_nonneg a).
  constructor; [nra|apply IH; nra].
Qed.

Lemma dot_zero_l (a b : list R) : Forall (fun x => x = 0) a -> dot a b = 0.
Proof.
  intros Ha. revert b. induction Ha as [|x a -> _ IH]; intros [|y b]; try reflexivity.
  rewrite dot_cons, IH. lra.
Qed.

Lemma dot_map_add {A} (f g : A -> R) (l : list A) (q : list R) :
  dot (map (fun j => f j + g j) l) q = dot (map f l) q + dot (map g l) q.
Proof.
  revert q. induction l as [|j l IH]; intros [|y q]; simpl;
    rewrite ?dot_nil_l, ?dot_nil_r, ?dot_cons, ?IH; lra.
Qed.

Lemma dot_map_mul {A} (k : R) (f : A -> R) (l : list A) (q : list R) :
  dot (map (fun j => k * f j) l) q = k * dot (map f l) q.
Proof.
  revert q. induction l as [|j l IH]; intros [|y q]; simpl;
    rewrite ?dot_nil_l, ?dot_nil_r, ?dot_cons, ?IH; lra.
Qed.

Lemma dot_map_div_r (D : list R) (s : R) :
  dot D (map (fun d => d / s) D) = dot D D / s.
Proof.
  induction D as [|d D IH]; simpl; rewrite ?dot_nil_l, ?dot_cons, ?IH;
    unfold Rdiv; lra.
Qed.

Lemma dot_map_div (D : list R) (s : R) :
  dot (map (fun d => d / s) D) (map (fun d => d / s) D) = dot D D * (/ s * / s).
Proof.
  induction D as [|d D IH]; simpl; rewrite ?dot_nil_l, ?dot_cons, ?IH;
    unfold Rdiv; lra.
Qed.

Lemma map_nth_seq (row : list R) :
  map (fun j => nth j row 0) (seq 0 (length row)) = row.
Proof.
  apply (nth_ext _ _ 0 0).
  - rewrite length_map, length_seq. reflexivity.
  - intros n Hn. rewrite length_map, length_seq in Hn.
    rewrite (nth_indep _ _ (nth 0 row 0)) by (rewrite length_map, length_seq; exact Hn).
    rewrite (map_nth (fun j => nth j row 0) (seq 0 (length row)) 0%nat n).
    rewrite seq_nth by exact Hn. reflexivity.
Qed.

Lemma SS_rows_acc (acc : R) (Xv : list (list R)) :
  SS_rows acc Xv = acc + SS_rows 0 Xv.
Proof.
  unfold SS_rows. revert acc. induction Xv as [|row Xv IH]; intros acc; simpl; [lra|].
  rewrite IH, (IH (0 + dot row row)). lra.
Qed.

Lemma SS_rows_cons (row : list R) (Xv : list (list R)) :
  SS_rows 0 (row :: Xv) = dot row row + SS_rows 0 Xv.
Proof.
  change (SS_rows 0 (row :: Xv)) with (SS_rows (0 + dot row row) Xv).
  rewrite (SS_rows_acc (0 + dot row row)). lra.
Qed.

Lemma SS_rows_nonneg (Xv : list (list R)) : 0 <= SS_rows 0 Xv.
Proof.
  induction Xv as [|row Xv IH]; [unfold SS_rows; simpl; lra|].
  rewrite SS_rows_cons. pose proof (dot_self_nonneg row). lra.
Qed.

(** One row less [ti] times [p]. *)
Lemma dot_deflated_row (row q : list R) (ti : R) :
  length row = length q ->
  dot (vsub row (scale ti q)) (vsub row (scale ti q))
  = dot row row - 2 * ti * dot row q + ti * ti * dot q q.
Proof.
  revert q. induction row as [|x row IH]; intros [|y q] Hl; try discriminate.
  - simpl. rewrite !dot_nil_l. lra.
  - simpl. rewrite !dot_cons, IH by (simpl in Hl; lia). lra.
Qed.

(** The sum of squares after a deflation, for any [t] and [p] of the
    right lengths. *)
Lemma SS_rows_deflated nv (Xv : list (list R)) (t0 p0 : list R) :
  rect nv Xv -> length p0 = nv -> length t0 = length Xv ->
  SS_rows 0 (deflated_X Xv t0 p0)
  = SS_rows 0 Xv - 2 * dot t0 (map (fun row => dot row p0) Xv)
    + dot t0 t0 * dot p0 p0.
Proof.
  intros HR Hp. revert t0. induction HR as [|row Xv Hrow HR IH]; intros [|ti t0] Ht;
    try discriminate.
  - simpl. rewrite !dot_nil_l. unfold SS_rows. simpl. lra.
  - change (deflated_X (row :: Xv) (ti :: t0) p0)
      with (vsub row (scale ti p0) :: deflated_X Xv t0 p0).
    rewrite map_cons, !SS_rows_cons, !dot_cons, IH by (simpl in Ht; lia).
    rewrite dot_deflated_row by lia. lra.
Qed.

(** Summing over the rows first or over the columns first. *)
Lemma dot_rows_columns nv (Xv : list (list R)) (t0 p0 : list R) :
  rect nv Xv -> length t0 = length Xv ->
  dot t0 (map (fun row => dot row p0) Xv)
  = dot (map (fun j => dot t0 (column Xv j)) (seq 0 nv)) p0.
Proof.
  intros HR. revert t0. induction HR as [|row Xv Hrow HR IH]; intros [|ti t0] Ht;
    try discriminate.
  - simpl. rewrite dot_nil_l. symmetry. apply dot_zero_l.
    rewrite Forall_map. apply Forall_forall. intros j _. reflexivity.
  - rewrite map_cons, dot_cons, IH by (simpl in Ht; lia).
    erewrite (map_ext (fun j => dot (ti :: t0) (column (row :: Xv) j))
                (fun j => ti * nth j row 0 + dot t0 (column Xv j)));
      [|intros j; unfold column; simpl; apply dot_cons].
    rewrite dot_map_add, dot_map_mul. rewrite <- Hrow at 2.
    rewrite map_nth_seq. lra.
Qed.

(** A deflation with the loadings [p = X't / t't] takes [t't * p'p] off
    the sum of squares of [X]: it never increases it. *)
Lemma deflation_shrinks nv (Xv : list (list R)) (t0 : list R) :
  rect nv Xv -> length t0 = length Xv ->
  let p0 := map (fun j => dot t0 (column Xv j) / dot t0 t0) (seq 0 nv) in
  SS_rows 0 (deflated_X Xv t0 p0) <= SS_rows 0 Xv.
Proof.
  intros HR Ht p0.
  assert (Hp : length p0 = nv) by (unfold p0; rewrite length_map, length_seq; reflexivity).
  rewrite (SS_rows_deflated nv) by assumption.
  rewrite (dot_rows_columns nv) by assumption.
  set (D := map (fun j => dot t0 (column Xv j)) (seq 0 nv)).
  assert (Hp0 : p0 = map (fun d => d / dot t0 t0) D).
  { unfold p0, D. rewrite map_map. reflexivity. }
  rewrite Hp0, dot_map_div_r, dot_map_div.
  pose proof (dot_self_nonneg t0) as Htt. pose proof (dot_self_nonneg D) as HDD.
  destruct (Req_dec (dot t0 t0) 0) as [E|NE].
  - assert (HD : dot D D = 0).
    { apply dot_zero_l. unfold D. rewrite Forall_map. apply Forall_forall.
      intros j _. apply dot_zero_l. apply dot_self_zero. exact E. }
    rewrite E, HD. unfold Rdiv. lra.
  - assert (Hpos : 0 < dot t0 t0) by lra.
    assert (Hinv : 0 < / dot t0 t0) by (apply Rinv_0_lt_compat; exact Hpos).
    replace (dot t0 t0 * (dot D D * (/ dot t0 t0 * / dot t0 t0)))
      with (dot D D * / dot t0 t0) by (field; exact NE).
    unfold Rdiv. nra.
Qed.

Lemma nondecreasing_snoc (l : list R) (z : R) :
  nondecreasing l -> Forall (fun x => x <= z) l -> nondecreasing (l ++ [z]).
Proof.
  intros Hl Hz a x y Hx Hy.
  destruct (decide (a + 1 < length l)%nat) as [Hlt|Hge].
  - rewrite lookup_app_l in Hx by lia. rewrite lookup_app_l in Hy by lia.
    eapply Hl; eassumption.
  - assert (Ha : (a + 1 = length l)%nat).
    { apply lookup_lt_Some in Hy. rewrite length_app in Hy. simpl in Hy. lia. }
    rewrite lookup_app_l in Hx by lia.
    rewrite lookup_app_r in Hy by lia.
    replace (a + 1 - length l)%nat with 0%nat in Hy by lia. injection Hy as <-.
    rewrite Forall_forall in Hz. apply Hz. apply list_elem_of_lookup. exists a. exact Hx.
Qed.

(** The weights [extractLV] returns are the raw weights over their norm:
    all zero, or of norm 1. *)
Lemma weights_of_unit nv (Xv : list (list R)) (Yv : list R) :
  unit_if_nonzero (weights_of nv Xv Yv).
Proof.
  unfold unit_if_nonzero, weights_of, extractLV_of.
  set (raw := map (fun j => fdiv (dot Yv (column Xv j)) (dot Yv Yv)) (seq 0 nv)).
  set (ww := fsqrt (dot raw raw)). intros Hnz.
  change (sqrt (dot (map (fun wj => wj / ww) raw) (map (fun wj => wj / ww) raw)) = 1).
  rewrite dot_map_div.
  pose proof (dot_self_nonneg raw) as Hnn.
  destruct (Req_dec (dot raw raw) 0) as [E|NE].
  - exfalso. apply dot_self_zero in E.
    apply Exists_exists in Hnz as (x & Hin & Hx). apply Hx.
    apply list_elem_of_In, in_map_iff in Hin as (r0 & <- & Hr).
    rewrite Forall_forall in E. rewrite (E r0) by (apply list_elem_of_In; exact Hr).
    change (0 / ww = 0). unfold Rdiv. lra.
  - assert (Hpos : 0 < dot raw raw) by lra.
    assert (Hww : ww * ww = dot raw raw) by (apply sqrt_sqrt; lra).
    assert (Hw0 : ww <> 0).
    { intros e. rewrite e in Hww. lra. }
    replace (dot raw raw * (/ ww * / ww)) with 1; [apply sqrt_1|].
    rewrite <- Hww. field. exact Hw0.
Qed.

(** Read in exact arithmetic, every weight vector of a fitted model that
    has an entry other than zero has Euclidean norm 1. *)
Lemma weights_unit_exact (m : pls R) :
  fitted m -> Forall unit_if_nonzero (w m).
Proof.
  intros Hf. apply fitted_weights; [|exact Hf].
  intros nv Xv Yv. apply weights_of_unit.
Qed.

(** C5 (as amended). Read in exact arithmetic, on a training matrix whose
    centered sum of squares is positive, the accumulated explained
    X-variance of the model [build] returns never decreases from one LV to
    the next. *)
Theorem SSXac_nondecreasing_exact (X0 Y0 : loc) (nv : nat) (Xv : list (list R))
    (Yv : list R) (targetA : nat) (targetSSX : R) (fuel : nat) (h h' : store R)
    (m : pls R) :
  h !! X0 = Some (Mat nv Xv) -> rect nv Xv ->
  h !! Y0 = Some (Vec Yv) -> length Yv = length Xv ->
  0 < SS_rows 0 (centered_X nv Xv) ->
  build __init__ X0 Y0 targetA targetSSX fuel h = Ok (m, h') ->
  nondecreasing (SSXac m).
Proof.
  intros HX HR HY Hl Hpos Hb.
  assert (Hn : (0 < length Xv)%nat).
  { destruct Xv; [|simpl; lia]. unfold centered_X, SS_rows in Hpos. simpl in Hpos. lra. }
  destruct (build_run_inv
              (fun v Xv' _ =>
                 val (b_SSXold v) = SS_rows 0 Xv'
                 /\ nondecreasing (SSXac (b_self v))
                 /\ Forall (fun x => x <= val (b_SSXac v)) (SSXac (b_self v)))
              __init__ X0 Y0 nv Xv Yv targetA targetSSX fuel h h' m HX HR Hn HY Hl)
    as (v' & Xf & Yf & -> & _ & Hnd & _); [| |exact Hb|exact Hnd].
  - unfold build_start. simpl. split; [reflexivity|].
    split; [intros a x y Hx; rewrite lookup_nil in Hx; discriminate|constructor].
  - intros v Xv' Yv' v1 Xv1 Yv1 (Hold & Hnd & Hle) HR' HL' _ E.
    unfold build_body_of in E.
    destruct (extractLV_of nv Xv' Yv') as [[[t0 p0] w0] c0] eqn:EL.
    assert (Ht : length t0 = length Xv').
    { apply extractLV_of_lengths in EL. tauto. }
    assert (Hp : p0 = map (fun j => dot t0 (column Xv' j) / dot t0 t0) (seq 0 nv)).
    { unfold extractLV_of in EL. injection EL as <- <- _ _. reflexivity. }
    pose proof (deflation_shrinks nv Xv' t0 HR' Ht) as Hshrink.
    simpl in Hshrink. rewrite <- Hp in Hshrink.
    injection E as <- <- _. simpl.
    split; [reflexivity|].
    set (SSXex := (val (b_SSXold v) - SS_rows 0 (deflated_X Xv' t0 p0))
                  / SS_rows 0 (centered_X nv Xv)).
    assert (Hex : 0 <= SSXex).
    { unfold SSXex. rewrite Hold. apply Rmult_le_pos; [lra|].
      apply Rlt_le, Rinv_0_lt_compat. exact Hpos. }
    change (nondecreasing (SSXac (b_self v) ++ [val (b_SSXac v) + SSXex])
            /\ Forall (fun x => x <= val (b_SSXac v) + SSXex)
                 (SSXac (b_self v) ++ [val (b_SSXac v) + SSXex])).
    split.
    + apply nondecreasing_snoc; [exact Hnd|].
      eapply Forall_impl; [exact Hle|]. intros x Hxle. simpl in Hxle. lra.
    + apply Forall_app. split.
      * eapply Forall_impl; [exact Hle|]. intros x Hxle. simpl in Hxle. lra.
      * constructor; [lra|constructor].
Qed.

End Exact.

(** * Properties of the engine *)

Section Properties.
Context {F : Type} `{Scalar F}.

(** C2. Asking [project] for more latent variables than the model has
    ([A > Am]) returns the failure [(False, 'Too many LV')]: no result
    sequences, and the store, the query vector included, is what it was. *)
Theorem project_too_many_LV (self : pls F) (x : loc) (A : nat) (h : store F) :
  Am self < A ->
  project self x A h = Ok (Failed "Too many LV", h).
Proof.
  intros HA. unfold project.
  replace (Nat.ltb (Am self) A) with true; [reflexivity|].
  symmetry. apply Nat.ltb_lt. exact HA.
Qed.

(** C9. After [build(X, Y, ...)] and any number of [validateLOO] calls the
    object still refers to the two arrays it was given, and both hold what
    they held before [build]: centering allocated new arrays, and every
    in-place deflation went to those. *)
Theorem training_data_kept (self : pls F) (X0 Y0 : loc) (targetA : nat)
    (targetSSX : F) (fuel : nat) (h h1 h' : store F) (m m' : pls F) (As : list nat) :
  build self X0 Y0 targetA targetSSX fuel h = Ok (m, h1) ->
  validations m As h1 = Ok (m', h') ->
  X m' = Some X0 /\ Y m' = Some Y0
  /\ h' !! X0 = h !! X0 /\ h' !! Y0 = h !! Y0.
Proof.
  intros Hb Hv.
  apply build_keeps in Hb as (K & HX & HY & LX & LY).
  assert (Hgen : keeps (length h) h1 h' /\ X m' = X m /\ Y m' = Y m).
  { assert (Hlen : length h <= length h1) by (destruct K; assumption).
    clear K HX HY LX LY. revert m h1 Hlen Hv.
    induction As as [|A As IH]; intros m h1 Hlen Hv.
    - apply ret_Ok in Hv as [-> ->]. split; [apply keeps_refl|]. split; reflexivity.
    - simpl in Hv. apply bind_Ok in Hv as (m1 & h2 & Hv1 & Hv).
      apply (validateLOO_keeps (length h)) in Hv1 as (K1 & EX & EY); [|exact Hlen].
      apply IH in Hv as (K2 & EX' & EY'); [|destruct K1; lia].
      split; [eapply keeps_trans; eassumption|]. split; congruence. }
  destruct Hgen as ((_ & K') & EX & EY). destruct K as (_ & K).
  repeat split.
  - congruence.
  - congruence.
  - rewrite K', K by exact LX. reflexivity.
  - rewrite K', K by exact LY. reflexivity.
Qed.

Lemma project_loop_x n (self : pls F) x a y t d r (h h' : store F) xv :
  h !! x = Some (Vec xv) ->
  project_loop n self x a y t d h = Ok (r, h') ->
  exists xf,
    deflated (take n (drop a (w self))) (take n (drop a (p self))) xv = Ok xf
    /\ h' = <[x := Vec xf]> h.
Proof.
  revert a y t d h xv. induction n as [|n IH]; intros a y t d h xv Hx Hl.
  - apply ret_Ok in Hl as [_ ->]. exists xv. split; [reflexivity|].
    symmetry. apply list_insert_id. exact Hx.
  - simpl in Hl.
    apply bind_Ok in Hl as (xv0 & h1 & Hg & Hl). apply get_vec_Ok in Hg as [Hx' ->].
    assert (xv0 = xv) as -> by congruence. clear Hx'.
    apply bind_Ok in Hl as (wa & h1 & Hw & Hl). apply item_Ok in Hw as [Hw ->].
    apply bind_Ok in Hl as (ta & h1 & Hd & Hl). apply np_dot_Ok in Hd as (_ & -> & ->).
    apply bind_Ok in Hl as (ca & h1 & Hc & Hl). apply item_Ok in Hc as [_ ->].
    apply bind_Ok in Hl as (pa & h1 & Hp & Hl). apply item_Ok in Hp as [Hp ->].
    apply bind_Ok in Hl as (xv' & h1 & Hi & Hl). apply lift_Ok in Hi as [Hi ->].
    apply bind_Ok in Hl as (u & h1 & Hput & Hl). apply put_Ok in Hput as ->.
    assert (Hlt : x < length h) by (eapply lookup_lt_Some; exact Hx).
    apply (IH _ _ _ _ _ xv') in Hl as (xf & Hdef & ->);
      [|apply list_lookup_insert_eq; exact Hlt].
    exists xf. split.
    + rewrite (drop_S _ _ _ Hw), (drop_S _ _ _ Hp). simpl.
      rewrite Hi. simpl. replace (S a) with (a + 1) by lia. exact Hdef.
    + apply list_insert_insert_eq.
Qed.

Lemma project_loop_y n (self : pls F) x a y t d y' t' d' (h h' : store F) :
  project_loop n self x a y t d h = Ok ((y', t', d'), h') ->
  length y' = length y /\ length t' = length t
  /\ (forall i, i < a \/ a + n <= i -> y' !! i = y !! i /\ t' !! i = t !! i)
  /\ (forall i, a <= i < a + n -> i < length y -> i < length t ->
       exists ti ci, t' !! i = Some ti /\ c self !! i = Some ci
                     /\ y' !! i = Some (nth i y fzero + ti * ci)%sc).
Proof.
  revert a y t d h. induction n as [|n IH]; intros a y t d h Hl.
  - apply ret_Ok in Hl as [[= -> -> ->] _].
    repeat split; try reflexivity. intros i Hi. lia.
  - simpl in Hl.
    apply bind_Ok in Hl as (xv & h1 & _ & Hl).
    apply bind_Ok in Hl as (wa & h2 & _ & Hl).
    apply bind_Ok in Hl as (ta & h3 & _ & Hl).
    apply bind_Ok in Hl as (ca & h4 & Hc & Hl). apply item_Ok in Hc as [Hc _].
    apply bind_Ok in Hl as (pa & h5 & _ & Hl).
    apply bind_Ok in Hl as (xv' & h6 & _ & Hl).
    apply bind_Ok in Hl as (u & h7 & _ & Hl).
    apply IH in Hl as (Ly & Lt & Hout & Hin).
    rewrite length_insert in Ly, Lt.
    split; [exact Ly|]. split; [exact Lt|]. split.
    + intros i Hi. destruct (Hout i) as [Ey Et]; [lia|].
      rewrite Ey, Et, !list_lookup_insert_ne by lia. split; reflexivity.
    + intros i Hi Hiy Hit. destruct (decide (i = a)) as [->|Hne].
      * destruct (Hout a) as [Ey Et]; [lia|].
        exists ta, ca. rewrite Ey, Et, !list_lookup_insert_eq by lia.
        split; [reflexivity|]. split; [exact Hc|reflexivity].
      * destruct (Hin i) as (ti & ci & Et & Ec & Ey);
          [lia|rewrite length_insert; lia|rewrite length_insert; lia|].
        exists ti, ci. split; [exact Et|]. split; [exact Ec|].
        rewrite Ey. do 2 f_equal.
        rewrite !nth_lookup, list_lookup_insert_ne by lia. reflexivity.
Qed.

(** The in-place subtraction, where it does not raise, gives the
    differences entry by entry and keeps the length of [x]. *)
Lemma isub_sub_entries (x v r : list F) :
  isub x v = Ok r -> r = sub_entries x v /\ length r = length x.
Proof.
  unfold isub. destruct (Nat.eqb (length v) (length x)) eqn:E.
  - apply Nat.eqb_eq in E. intros [= <-]. split; [|apply vsub_length; lia].
    assert (Hz : vsub x v = zip_with fsub x v).
    { clear E. revert v.
      induction x as [|a x IH]; intros [|b v]; simpl; try reflexivity; f_equal; apply IH. }
    unfold sub_entries. destruct v as [|s [|s' v]]; try exact Hz.
    destruct x as [|a [|a' x]]; simpl in E; try lia. reflexivity.
  - destruct v as [|s [|s' v]]; try discriminate.
    intros [= <-]. split; [reflexivity|apply length_map].
Qed.

Lemma deflated_residual (ws ps : list (list F)) (x xf : list F) :
  deflated ws ps x = Ok xf ->
  xf = query_residual ws ps x /\ length xf = length x.
Proof.
  revert ps x. induction ws as [|wa ws IH]; intros ps x Hd.
  - injection Hd as <-. split; reflexivity.
  - destruct ps as [|pa ps]; [injection Hd as <-; split; reflexivity|].
    simpl in Hd. destruct (isub x (scale (dot x wa) pa)) as [x'| |] eqn:Ei; try discriminate.
    simpl in Hd. apply isub_sub_entries in Ei as [-> Hl]. apply IH in Hd as [-> Hl'].
    split; [reflexivity|]. rewrite Hl'. exact Hl.
Qed.

(** A call of [project] that succeeds has run its in-place subtractions
    on the caller's vector. *)
Lemma project_x_deflated (self : pls F) (x : loc) (A : nat) (h h' : store F)
    (y t d : list F) :
  project self x A h = Ok (Projected y t d, h') ->
  exists xv mu xc xf,
    h !! x = Some (Vec xv) /\ mux self = Some mu
    /\ isub xv mu = Ok xc
    /\ deflated (take A (w self)) (take A (p self)) xc = Ok xf
    /\ h' = <[x := Vec xf]> h.
Proof.
  intros Hp. unfold project in Hp.
  destruct (Nat.ltb (Am self) A); [apply ret_Ok in Hp as [[=] _]|].
  destruct (mux self) as [mu|]; [|discriminate].
  apply bind_Ok in Hp as (xv & h1 & Hg & Hp). apply get_vec_Ok in Hg as [Hx ->].
  apply bind_Ok in Hp as (xc & h1 & Hi & Hp). apply lift_Ok in Hi as [Hi ->].
  apply bind_Ok in Hp as (u & h1 & Hput & Hp). apply put_Ok in Hput as ->.
  apply bind_Ok in Hp as ([[y1 t1] d1] & h1 & Hl & Hp).
  assert (Hlt : x < length h) by (eapply lookup_lt_Some; exact Hx).
  apply (project_loop_x _ _ _ _ _ _ _ _ _ _ xc) in Hl as (xf & Hdef & ->);
    [|apply list_lookup_insert_eq; exact Hlt].
  destruct (muy self); [|discriminate]. apply ret_Ok in Hp as [_ ->].
  exists xv, mu, xc, xf. rewrite !drop_0 in Hdef.
  repeat split; try assumption; try reflexivity.
  apply list_insert_insert_eq.
Qed.

(** C10. A call of [project] that succeeds has updated the caller's vector
    in place.  Where the store held the observation [xv] it now holds,
    entry by entry, [xv[j] - mux[j]], from which each of the first [A] LVs
    in order has taken its loading [p[a][j]] times its score, the dot
    product of what was left of the vector with the weights [w[a]]; the
    vector has kept its length, and nothing else in the store has
    changed. *)
Theorem project_updates_x (self : pls F) (x : loc) (A : nat) (h h' : store F)
    (y t d : list F) :
  project self x A h = Ok (Projected y t d, h') ->
  exists xv mu,
    h !! x = Some (Vec xv) /\ mux self = Some mu
    /\ h' = <[x := Vec (query_residual (take A (w self)) (take A (p self))
                          (sub_entries xv mu))]> h
    /\ length (query_residual (take A (w self)) (take A (p self)) (sub_entries xv mu))
       = length xv.
Proof.
  intros Hp.
  apply project_x_deflated in Hp as (xv & mu & xc & xf & Hx & Hmu & Hc & Hd & ->).
  apply isub_sub_entries in Hc as [-> Hlc].
  apply deflated_residual in Hd as [-> Hld].
  exists xv, mu. repeat split; try assumption. congruence.
Qed.

(** C3 (as amended). On a training set of at least one observation,
    [build(X, Y, targetA=k, targetSSX=0)] with [k >= 1] on a new object
    returns after [k] passes, given fuel for [k] passes: [Am = k], and each
    of the ten per-LV lists has [k] entries.  ([0.0 > 0.0] is false in the
    carrier, as it is in binary64 and in the reals.) *)
Theorem build_targetA_extracts_k (X0 Y0 : loc) (nv : nat) (Xv : list (list F))
    (Yv : list F) (k fuel : nat) (h : store F) :
  fgtb (fzero : F) fzero = false ->
  h !! X0 = Some (Mat nv Xv) -> rect nv Xv -> 0 < length Xv ->
  h !! Y0 = Some (Vec Yv) -> length Yv = length Xv ->
  1 <= k -> k <= fuel ->
  exists m h',
    build __init__ X0 Y0 k fzero fuel h = Ok (m, h')
    /\ Am m = k /\ lv_lengths m k.
Proof.
  intros H0 HX HR Hn HY Hl Hk Hf.
  destruct (build_targetA_run (fun v _ _ => lv_lengths (b_self v) (b_a v))
              __init__ X0 Y0 nv Xv Yv k fuel h H0 HX HR Hn HY Hl Hk Hf)
    as (v' & h' & _ & _ & Hb & Ha & Hlen).
  - unfold build_start, lv_lengths. simpl. repeat split.
  - intros v Xv' Yv' v1 Xv1 Yv1 Hlen E. unfold build_body_of in E.
    destruct (extractLV_of nv Xv' Yv') as [[[t0 p0] w0] c0].
    injection E as <- _ _. simpl. apply lv_lengths_append. exact Hlen.
  - exists (set_Am (b_self v') (b_a v')), h'. split; [exact Hb|].
    split; [exact Ha|]. rewrite <- Ha. exact Hlen.
Qed.

(** C7 (as amended). [build] has no test for a response without variance.
    When the centered response has [Y.Y = 0] (and there is at least one
    observation), [build(targetA=k)] returns as it always does, with
    [Am = k]; the first weight vector it stores is made of the quotients
    by [Y.Y = 0] (NaN or infinities in binary64), divided by their norm. *)
Theorem build_divides_by_zero_variance (X0 Y0 : loc) (nv : nat) (Xv : list (list F))
    (Yv : list F) (k fuel : nat) (h : store F) :
  fgtb (fzero : F) fzero = false ->
  h !! X0 = Some (Mat nv Xv) -> rect nv Xv -> 0 < length Xv ->
  h !! Y0 = Some (Vec Yv) -> length Yv = length Xv ->
  1 <= k -> k <= fuel ->
  dot (centered_Y Yv) (centered_Y Yv) = fzero ->
  exists m h',
    build __init__ X0 Y0 k fzero fuel h = Ok (m, h')
    /\ Am m = k
    /\ head (w m) = Some (weights_over_zero nv (centered_X nv Xv) (centered_Y Yv)).
Proof.
  intros H0 HX HR Hn HY Hl Hk Hf Huu.
  destruct (build_first_weights X0 Y0 nv Xv Yv k fuel h H0 HX HR Hn HY Hl Hk Hf)
    as (m & h' & Hb & Ha & Hw).
  exists m, h'. split; [exact Hb|]. split; [exact Ha|].
  rewrite Hw. f_equal.
  unfold weights_of, extractLV_of, weights_over_zero. rewrite Huu. reflexivity.
Qed.

(** C4. Every fitted model, validated or not, is written by [saveModel]
    and read back by [loadModel] into a new object with every scalar and
    every array of the file as it was: the counters, the means, the ten
    artifacts of each of the [Am] LVs and the three statistics of each of
    the [Av] validated LVs, in order.  (The references to the training
    arrays are not in the file.) *)
Theorem save_load_roundtrip (m : pls F) :
  fitted m ->
  exists file, saveModel m = Ok file /\ loadModel __init__ file = Ok (serialized m).
Proof.
  intros Hf. destruct (fitted_lengths m Hf) as [Hlv Hcv].
  apply roundtrip_of_lengths; assumption.
Qed.

(** X1. Every entry of the [y] that [project] returns is made of one LV: entry
    [a] is [0.0 + t[a]*c[a]], plus [muy]; no entry carries the
    contributions of the LVs before it. *)
Theorem project_y_entries (self : pls F) (x : loc) (A : nat) (h h' : store F)
    (y t d : list F) :
  project self x A h = Ok (Projected y t d, h') ->
  forall a, a < A ->
    exists ta ca mu,
      t !! a = Some ta /\ c self !! a = Some ca /\ muy self = Some mu
      /\ y !! a = Some (fzero + ta * ca + mu)%sc.
Proof.
  intros Hp a Ha. unfold project in Hp.
  destruct (Nat.ltb (Am self) A); [apply ret_Ok in Hp as [[=] _]|].
  destruct (mux self) as [mu0|]; [|discriminate].
  apply bind_Ok in Hp as (xv & h1 & _ & Hp).
  apply bind_Ok in Hp as (xc & h2 & _ & Hp).
  apply bind_Ok in Hp as (u & h3 & _ & Hp).
  apply bind_Ok in Hp as ([[y1 t1] d1] & h4 & Hl & Hp).
  destruct (muy self) as [mu|]; [|discriminate].
  apply ret_Ok in Hp as [[= -> -> ->] _].
  apply project_loop_y in Hl as (_ & _ & _ & Hin).
  destruct (Hin a) as (ta & ca & Et & Ec & Ey);
    [lia|rewrite length_replicate; lia|rewrite length_replicate; lia|].
  exists ta, ca, mu. split; [exact Et|]. split; [exact Ec|]. split; [reflexivity|].
  rewrite list_lookup_fmap, Ey. simpl.
  rewrite nth_lookup, lookup_replicate_2 by lia. reflexivity.
Qed.

(** X2. [validateLOO(A)] on an object that holds training data ends with
    [Av = A], whatever [Am] is, and leaves [Am] as it was. *)
Theorem validateLOO_sets_Av (self : pls F) (X0 Y0 : loc) (A : nat) (h h' : store F)
    (m : pls F) :
  X self = Some X0 -> Y self = Some Y0 ->
  validateLOO self A h = Ok (m, h') ->
  Av m = A /\ Am m = Am self.
Proof.
  intros HX HY Hv. unfold validateLOO in Hv. rewrite HX, HY in Hv.
  apply bind_Ok in Hv as ([nv Xv] & h1 & _ & Hv).
  apply bind_Ok in Hv as (Yv & h2 & _ & Hv).
  apply bind_Ok in Hv as (S0 & h3 & _ & Hv).
  apply bind_Ok in Hv as (SSYv & h4 & _ & Hv).
  apply ret_Ok in Hv as [-> _]. split; reflexivity.
Qed.

End Properties.

(** C8 (as amended). In binary64, every weight vector of a fitted model is
    a vector of raw weights divided, entry by entry, by the square root of
    its dot product with itself as the code computed it.  Read in exact
    arithmetic, every weight vector of a fitted model that has an entry
    other than zero has Euclidean norm 1. *)
Theorem weights_normalised_unit_norm :
  (forall m : pls float, fitted m -> Forall normalised (w m))
  /\ (forall m : pls R, fitted m -> Forall unit_if_nonzero (w m)).
Proof.
  split.
  - intros m. apply fitted_normalised.
  - intros m. apply weights_unit_exact.
Qed.

(** C2 at a new object, which has [Am = 0], asked for one LV. *)
Lemma project_too_many_LV_witness :
  Am (__init__ (F := float)) < 1
  /\ project (F := float) __init__ 0 1 [] = Ok (Failed "Too many LV", []).
Proof.
  split; [vm_compute; lia|].
  apply (project_too_many_LV (F := float) __init__ 0 1 []). vm_compute; lia.
Defined.

(** C9 on the scenario of the specification: [build], then [validateLOO(2)] and
    [validateLOO(1)]. *)
Lemma training_data_kept_witness :
  X (fst ex_validated) = Some 0 /\ Y (fst ex_validated) = Some 1
  /\ snd ex_validated !! 0 = ex_store !! 0
  /\ snd ex_validated !! 1 = ex_store !! 1.
Proof.
  apply (training_data_kept __init__ 0 1 2 0%float 10 ex_store (snd ex_fit)
           (snd ex_validated) (fst ex_fit) (fst ex_validated) [2; 1]).
  - vm_compute. reflexivity.
  - vm_compute. reflexivity.
Defined.

(** C10 on the fitted model of the scenario and its first observation:
    the caller's vector was [[1; 2]], and after [project(x, 2)] it is
    [[-2^-52; -1.375 * 2^-52]]. *)
Lemma project_updates_x_witness :
  (exists xv mu,
     snd ex_fit !! 2 = Some (Vec xv) /\ mux (fst ex_fit) = Some mu
     /\ snd ex_projected
        = <[2 := Vec (query_residual (take 2 (w (fst ex_fit))) (take 2 (p (fst ex_fit)))
                        (sub_entries xv mu))]> (snd ex_fit)
     /\ length (query_residual (take 2 (w (fst ex_fit))) (take 2 (p (fst ex_fit)))
                  (sub_entries xv mu))
        = length xv)
  /\ snd ex_fit !! 2 = Some (Vec [1; 2]%float)
  /\ mux (fst ex_fit) = Some [2.5; 4.25]%float
  /\ snd ex_projected !! 2 = Some (Vec [-0x1p-52; -0x1.6p-52]%float).
Proof.
  split.
  - apply (project_updates_x (fst ex_fit) 2 2 (snd ex_fit) (snd ex_projected)
             (fst (fst (fst ex_projected))) (snd (fst (fst ex_projected)))
             (snd (fst ex_projected))).
    vm_compute. reflexivity.
  - repeat split; vm_compute; reflexivity.
Defined.

(** C1 (the code differs). On the model fitted to the scenario of the
    specification, [project(x, 2)] of the first observation returns
    [y = [y1; y2]] with [y2 = (0 + t2*c2) + muy]: the contribution [t1*c1]
    of the first LV is not in it.  [y2] is above 6, where the cumulative
    value [y1 + t2*c2] is 3 up to rounding. *)
Theorem project_y_not_cumulative :
  exists y1 y2 t1 t2 c1 c2 mu d h',
    project (fst ex_fit) 2 2 (snd ex_fit) = Ok (Projected [y1; y2] [t1; t2] d, h')
    /\ c (fst ex_fit) = [c1; c2] /\ muy (fst ex_fit) = Some mu
    /\ y1 = (0 + t1 * c1 + mu)%float
    /\ y2 = (0 + t2 * c2 + mu)%float
    /\ PrimFloat.eqb y2 (y1 + t2 * c2)%float = false
    /\ PrimFloat.ltb 6 y2 = true
    /\ PrimFloat.ltb (abs (y1 + t2 * c2 - 3)) 0x1p-30 = true.
Proof.
  do 9 eexists.
  split; [vm_compute; reflexivity|].
  split; [vm_compute; reflexivity|].
  split; [vm_compute; reflexivity|].
  repeat split; vm_compute; reflexivity.
Qed.

(** C6 (the code differs). [validateLOO(3)] on a model of two LVs returns
    with [Av = 3] and [Am = 2]: nothing compares [A] with [Am]. *)
Theorem validateLOO_Av_above_Am :
  exists m h',
    validateLOO (fst ex_fit) 3 (snd ex_fit) = Ok (m, h')
    /\ Am m = 2 /\ Av m = 3.
Proof.
  do 2 eexists. split; [vm_compute; reflexivity|].
  split; reflexivity.
Qed.

(** C3 on the scenario of the specification, with [targetA = 2]. *)
Lemma build_targetA_extracts_k_witness :
  exists m h',
    build (F := float) __init__ 0 1 2 fzero 10 ex_store = Ok (m, h')
    /\ Am m = 2 /\ lv_lengths m 2.
Proof.
  apply (build_targetA_extracts_k (F := float) 0 1 2
           [[1; 2]; [2; 3]; [3; 5]; [4; 7]]%float [3; 5; 8; 11]%float 2 10 ex_store).
  - vm_compute. reflexivity.
  - reflexivity.
  - unfold rect. repeat (apply List.Forall_cons; [reflexivity|]). apply List.Forall_nil.
  - simpl. lia.
  - reflexivity.
  - reflexivity.
  - lia.
  - lia.
Defined.

(** C3 (as stated, refuted). With no observation at all the sums of squares
    stay the Python floats [0.0], and [(SSXold-SSXnew)/SSX0] raises
    [ZeroDivisionError] in the first pass: [build] does not return. *)
Lemma build_empty_training_set_raises :
  build (F := float) __init__ 0 1 1 0%float 10 ex_empty = Raise ZeroDivisionError.
Proof. vm_compute. reflexivity. Qed.

(** C7 on two observations with the response [Y = [5, 5]]. *)
Lemma build_divides_by_zero_variance_witness :
  exists m h',
    build (F := float) __init__ 0 1 1 fzero 10 ex_flat = Ok (m, h')
    /\ Am m = 1
    /\ head (w m)
       = Some (weights_over_zero 1 (centered_X 1 [[1]; [2]]%float)
                 (centered_Y [5; 5]%float)).
Proof.
  apply (build_divides_by_zero_variance (F := float) 0 1 1
           [[1]; [2]]%float [5; 5]%float 1 10 ex_flat).
  - vm_compute. reflexivity.
  - reflexivity.
  - unfold rect. repeat (apply List.Forall_cons; [reflexivity|]). apply List.Forall_nil.
  - simpl. lia.
  - reflexivity.
  - reflexivity.
  - lia.
  - lia.
  - vm_compute. reflexivity.
Defined.

(** C7 (as stated, refuted). On [Y = [5, 5]] the call returns a model, not
    a failure, and what it stored for the LV is NaN throughout. *)
Lemma build_zero_variance_returns_nan :
  exists m h',
    build (F := float) __init__ 0 1 1 fzero 10 ex_flat = Ok (m, h')
    /\ w m = [[nan]] /\ t m = [[nan; nan]] /\ p m = [[nan]] /\ c m = [nan]
    /\ SSXac m = [nan] /\ SDEC m = [nan].
Proof.
  do 2 eexists. split; [vm_compute; reflexivity|].
  repeat split.
Qed.

(** C4 on the model of the scenario, validated twice. *)
Lemma save_load_roundtrip_witness :
  exists file,
    saveModel (fst ex_validated) = Ok file
    /\ loadModel __init__ file = Ok (serialized (fst ex_validated)).
Proof.
  apply (save_load_roundtrip (F := float) (fst ex_validated)).
  apply (fitted_validations (fst ex_fit) _ [2; 1] (snd ex_fit) (snd ex_validated)).
  - apply (fitted_build 0 1 2 0%float 10 ex_store _ (snd ex_fit)).
    vm_compute. reflexivity.
  - vm_compute. reflexivity.
Defined.

(** X1 on the second entry of the projection of the scenario. *)
Lemma project_y_entries_witness :
  exists ta ca mu,
    snd (fst (fst ex_projected)) !! 1 = Some ta /\ c (fst ex_fit) !! 1 = Some ca
    /\ muy (fst ex_fit) = Some mu
    /\ fst (fst (fst ex_projected)) !! 1 = Some (fzero + ta * ca + mu)%sc.
Proof.
  apply (project_y_entries (fst ex_fit) 2 2 (snd ex_fit) (snd ex_projected)
           (fst (fst (fst ex_projected))) (snd (fst (fst ex_projected)))
           (snd (fst ex_projected))).
  - vm_compute. reflexivity.
  - lia.
Defined.

(** X2 on the model of the scenario, of two LVs, validated for three. *)
Lemma validateLOO_sets_Av_witness :
  Av (fst (returned (__init__, []) (validateLOO (fst ex_fit) 3 (snd ex_fit)))) = 3
  /\ Am (fst (returned (__init__, []) (validateLOO (fst ex_fit) 3 (snd ex_fit))))
     = Am (fst ex_fit).
Proof.
  apply (validateLOO_sets_Av (fst ex_fit) 0 1 3 (snd ex_fit)
           (snd (returned (__init__, []) (validateLOO (fst ex_fit) 3 (snd ex_fit))))).
  - vm_compute. reflexivity.
  - vm_compute. reflexivity.
  - vm_compute. reflexivity.
Defined.

(** * Exact arithmetic, worked *)

Section ExactWorked.
Local Open Scope R_scope.

Lemma exact_zero_not_positive : fgtb (0 : R) 0 = false.
Proof. simpl. destruct (Rlt_dec 0 0) as [Hlt|_]; [lra|reflexivity]. Qed.

Lemma exact_store_centered :
  centered_X 1 [[-1]; [1]] = [[-1]; [1]] /\ centered_Y [-1; 1] = [-1; 1].
Proof.
  cbv -[Rplus Rminus Rmult Rdiv sqrt INR IZR].
  replace (INR 2) with 2 by (simpl; lra).
  split; repeat f_equal; lra.
Qed.

Lemma exact_store_weights : weights_of 1 [[-1]; [1]] [-1; 1] = [1].
Proof.
  cbv -[Rplus Rminus Rmult Rdiv sqrt INR IZR].
  replace ((0 + -1 * -1 + 1 * 1) / (0 + -1 * -1 + 1 * 1)) with 1 by lra.
  replace (0 + 1 * 1) with 1 by lra. rewrite sqrt_1. f_equal. lra.
Qed.

End ExactWorked.

(** C8 on the model fitted to the scenario of the specification, whose
    two weight vectors have a norm that binary64 computes as 1; and, in
    exact arithmetic, on two observations of one variable, where the
    weight vector is [[1]]. *)
Lemma weights_normalised_unit_norm_witness :
  (Forall normalised (w (fst ex_fit))
   /\ map (fun wa => PrimFloat.sqrt (dot wa wa)) (w (fst ex_fit)) = [1; 1]%float)
  /\ exists m h' wa,
       build (F := R) __init__ 0 1 1 fzero 1 exact_store = Ok (m, h')
       /\ head (w m) = Some wa
       /\ Exists (fun x => x <> 0%R) wa
       /\ sqrt (dot wa wa) = 1%R.
Proof.
  split.
  - split; [|vm_compute; reflexivity].
    apply (proj1 weights_normalised_unit_norm (fst ex_fit)).
    apply (fitted_build 0 1 2 0%float 10 ex_store _ (snd ex_fit)).
    vm_compute. reflexivity.
  - destruct (build_first_weights (F := R) 0 1 1
                [[-1]; [1]]%R [-1; 1]%R 1 1 exact_store)
      as (m & h' & Hb & _ & Hw).
    + exact exact_zero_not_positive.
    + reflexivity.
    + unfold rect. repeat (apply List.Forall_cons; [reflexivity|]). apply List.Forall_nil.
    + simpl. lia.
    + reflexivity.
    + reflexivity.
    + lia.
    + lia.
    + destruct exact_store_centered as [EX EY]. rewrite EX, EY, exact_store_weights in Hw.
      assert (Hnz : Exists (fun x => x <> 0%R) [1%R]) by (constructor; lra).
      exists m, h', [1%R]. split; [exact Hb|]. split; [exact Hw|]. split; [exact Hnz|].
      pose proof (proj2 weights_normalised_unit_norm m
                    (fitted_build 0 1 1 fzero 1 exact_store m h' Hb)) as Hall.
      destruct (w m) as [|w1 ws]; [discriminate|]. injection Hw as ->.
      apply Forall_inv in Hall. exact (Hall Hnz).
Defined.

(** C8 (as stated, refuted).  On [X = [[-1.5 * 2^-299], [1.5 * 2^-299]]],
    [Y = [-2^239, 2^239]] the raw weight that [extractLV] computes is
    [1.5 * 2^-538], not zero.  Its square, [0.5625 * 2^-1074], is rounded
    to the smallest positive number [2^-1074], so the norm [ww] is
    computed as [2^-537] and [w /= ww] stores the weight [0.75]: [build]
    returns a model of finite numbers whose weight vector has norm 0.75,
    not 1. *)
Lemma weights_norm_below_one_binary64 :
  exists m h' raw,
    build (F := float) __init__ 0 1 1 fzero 10 ex_small = Ok (m, h')
    /\ centered_X 1 [[-0x1.8p-299]; [0x1.8p-299]]%float = [[-0x1.8p-299]; [0x1.8p-299]]%float
    /\ centered_Y [-0x1p239; 0x1p239]%float = [-0x1p239; 0x1p239]%float
    /\ raw = [(dot [-0x1p239; 0x1p239] [-0x1.8p-299; 0x1.8p-299]
               / dot [-0x1p239; 0x1p239] [-0x1p239; 0x1p239])%float]
    /\ raw = [0x1.8p-538]%float
    /\ dot raw raw = 0x1p-1074%float
    /\ PrimFloat.sqrt (dot raw raw) = 0x1p-537%float
    /\ w m = [map (fun wj => (wj / PrimFloat.sqrt (dot raw raw))%float) raw]
    /\ w m = [[0.75]]%float
    /\ map (fun wa => PrimFloat.sqrt (dot wa wa)) (w m) = [0.75]%float
    /\ t m = [[-0x1.2p-299; 0x1.2p-299]]%float
    /\ p m = [[0x1.5555555555555p+0]]%float
    /\ c m = [0x1.c71c71c71c71cp+537]%float.
Proof.
  do 3 eexists. split; [vm_compute; reflexivity|].
  split; [vm_compute; reflexivity|].
  split; [vm_compute; reflexivity|].
  split; [reflexivity|].
  repeat split; vm_compute; reflexivity.
Qed.

(** C5 on two observations of one variable, with two LVs asked for. *)
Lemma SSXac_nondecreasing_exact_witness :
  exists m h',
    build (F := R) __init__ 0 1 2 fzero 2 exact_store = Ok (m, h')
    /\ nondecreasing (SSXac m).
Proof.
  destruct (build_targetA_run (F := R) (fun _ _ _ => True) __init__ 0 1 1
              [[-1]; [1]]%R [-1; 1]%R 2 2 exact_store)
    as (v' & h' & _ & _ & Hb & _).
  - exact exact_zero_not_positive.
  - reflexivity.
  - unfold rect. repeat (apply List.Forall_cons; [reflexivity|]). apply List.Forall_nil.
  - simpl. lia.
  - reflexivity.
  - reflexivity.
  - lia.
  - lia.
  - exact I.
  - intros. exact I.
  - exists (set_Am (b_self v') (b_a v')), h'. split; [exact Hb|].
    apply (SSXac_nondecreasing_exact 0 1 1 [[-1]; [1]]%R [-1; 1]%R 2 fzero 2
             exact_store h').
    + reflexivity.
    + unfold rect. repeat (apply List.Forall_cons; [reflexivity|]). apply List.Forall_nil.
    + reflexivity.
    + reflexivity.
    + destruct exact_store_centered as [-> _].
      cbv -[Rplus Rminus Rmult Rdiv sqrt INR IZR Rlt]. lra.
    + exact Hb.
Defined.

(** C5 (as stated, refuted). On data of rank one, [build(targetA=2)]
    returns [SSXac = [1.0; nan]]: the second LV is extracted from residuals
    that are exactly zero, [Y.Y = 0], and [1.0 <= nan] is false. *)
Lemma SSXac_decreases_binary64 :
  exists m h' x y,
    build (F := float) __init__ 0 1 2 fzero 10 ex_rank1 = Ok (m, h')
    /\ SSXac m !! 0 = Some x /\ SSXac m !! 1 = Some y
    /\ x = 1%float /\ y = nan
    /\ PrimFloat.leb x y = false.
Proof.
  do 4 eexists. split; [vm_compute; reflexivity|].
  split; [vm_compute; reflexivity|].
  split; [vm_compute; reflexivity|].
  repeat split.
Qed.

(** * Further properties: runs that return *)

(** One step forward through a run, given what its first call returns. *)
Ltac run_with E := rewrite (bind_run _ _ _ _ _ E); cbv beta iota zeta.

Section Returns.
Context {F : Type} `{Scalar F}.

Lemma bind_ext {S A B} (m : run S A) (f g : A -> run S B) s :
  (forall a s', f a s' = g a s') -> (m ≫= f) s = (m ≫= g) s.
Proof.
  intros Hfg. unfold mbind, run_bind. destruct (m s) as [[a s']| |]; [apply Hfg|reflexivity..].
Qed.

Lemma bind_Raise {S A B} (m : run S A) (f : A -> run S B) s e :
  m s = Raise e -> (m ≫= f) s = Raise e.
Proof. unfold mbind, run_bind. intros ->. reflexivity. Qed.

Lemma get_vec_run l v (h : store F) :
  h !! l = Some (Vec v) -> get_vec l h = Ok (v, h).
Proof. intros Hl. unfold get_vec. rewrite Hl. reflexivity. Qed.

Lemma get_mat_run l nv rows (h : store F) :
  h !! l = Some (Mat nv rows) -> get_mat l h = Ok ((nv, rows), h).
Proof. intros Hl. unfold get_mat. rewrite Hl. reflexivity. Qed.

Lemma item_run {S A} (v : list A) i x (s : S) :
  v !! i = Some x -> item v i s = Ok (x, s).
Proof. intros Hx. unfold item, getitem, lift. rewrite Hx. reflexivity. Qed.

Lemma np_dot_run (a b : list F) (h : store F) :
  length a = length b -> np_dot a b h = Ok (dot a b, h).
Proof. intros Hl. unfold np_dot. rewrite Hl, Nat.eqb_refl. reflexivity. Qed.

Lemma np_dot_mismatch (a b : list F) (h : store F) :
  length a <> length b -> np_dot a b h = Raise ValueError.
Proof.
  intros Hl. unfold np_dot.
  destruct (Nat.eqb (length a) (length b)) eqn:E; [|reflexivity].
  apply Nat.eqb_eq in E. contradiction.
Qed.

Lemma alloc_run (a : ndarray F) (h : store F) : alloc a h = Ok (length h, h ++ [a]).
Proof. reflexivity. Qed.

Lemma put_run l (a : ndarray F) (h : store F) : put l a h = Ok (tt, <[l := a]> h).
Proof. reflexivity. Qed.

Lemma lift_run {S A} (a : A) (s : S) : lift (Ok a) s = Ok (a, s).
Proof. reflexivity. Qed.

Lemma ret_run {S A} (a : A) (s : S) : mret (M := run S) a s = Ok (a, s).
Proof. reflexivity. Qed.

Lemma keeps_weaken k k' (h h' : store F) : k <= k' -> keeps k' h h' -> keeps k h h'.
Proof. intros Hk [L K]. split; [exact L|]. intros l Hl. apply K. lia. Qed.

Lemma scale_length (s : F) (v : list F) : length (scale s v) = length v.
Proof. unfold scale. apply length_map. Qed.

(** The loop of [project] returns when the model has the LVs it is asked
    for and their weights and loadings have the length of the query. *)
Lemma project_loop_run nv (self : pls F) x n :
  Forall (fun wa => length wa = nv) (w self) ->
  Forall (fun pa => length pa = nv) (p self) ->
  forall a y t d xv (h : store F),
    h !! x = Some (Vec xv) -> length xv = nv ->
    a + n <= length (w self) -> a + n <= length (p self) -> a + n <= length (c self) ->
    exists y' t' d' h',
      project_loop n self x a y t d h = Ok ((y', t', d'), h')
      /\ length y' = length y /\ length t' = length t /\ length d' = length d.
Proof.
  intros HW HP. induction n as [|n IH]; intros a y t d xv h Hx Hxv Lw Lp Lc.
  - exists y, t, d, h. repeat split; reflexivity.
  - destruct (lookup_lt_is_Some_2 (w self) a) as [wa Hwa]; [lia|].
    destruct (lookup_lt_is_Some_2 (p self) a) as [pa Hpa]; [lia|].
    destruct (lookup_lt_is_Some_2 (c self) a) as [ca Hca]; [lia|].
    assert (Lwa : length wa = nv) by (eapply (proj1 (Forall_lookup _ _) HW); exact Hwa).
    assert (Lpa : length pa = nv) by (eapply (proj1 (Forall_lookup _ _) HP); exact Hpa).
    set (ta := dot xv wa).
    set (xv' := vsub xv (scale ta pa)).
    assert (Lxv' : length xv' = nv).
    { unfold xv'. rewrite vsub_length; [exact Hxv|]. rewrite scale_length. lia. }
    assert (Hx' : <[x := Vec xv']> h !! x = Some (Vec xv')).
    { apply list_lookup_insert_eq. eapply lookup_lt_Some. exact Hx. }
    destruct (IH (a + 1) (<[a := (nth a y fzero + ta * ca)%sc]> y) (<[a := ta]> t)
                (<[a := fsqrt (dot xv' xv' / of_int (dof_of (nvarx self) a))%sc]> d)
                xv' (<[x := Vec xv']> h) Hx' Lxv')
      as (y' & t' & d' & h' & Hrun & Ly & Lt & Ld); [lia..|].
    exists y', t', d', h'. rewrite !length_insert in *.
    split; [|auto].
    simpl.
    run_with (get_vec_run _ _ _ Hx).
    run_with (item_run (S := store F) _ _ _ h Hwa).
    run_with (np_dot_run xv wa h ltac:(lia)).
    run_with (item_run (S := store F) _ _ _ h Hca).
    run_with (item_run (S := store F) _ _ _ h Hpa).
    rewrite (isub_same_length xv (scale (dot xv wa) pa)) by (rewrite scale_length; lia).
    exact Hrun.
Qed.

Lemma project_loop_ext (m m' : pls F) :
  nvarx m' = nvarx m -> w m' = w m -> p m' = p m -> c m' = c m ->
  forall n x a y t d h,
    project_loop n m' x a y t d h = project_loop n m x a y t d h.
Proof.
  intros Hn Hw Hp Hc. induction n as [|n IH]; intros x a y t d h; [reflexivity|].
  simpl. rewrite Hn, Hw, Hp, Hc.
  repeat (apply bind_ext; intros ? ?). apply IH.
Qed.

(** [project] reads the counter [Am], [nvarx], the two means and the
    weights, loadings and inner relations, and nothing else of the
    object. *)
Lemma project_ext (m m' : pls F) :
  Am m' = Am m -> nvarx m' = nvarx m -> mux m' = mux m -> muy m' = muy m ->
  w m' = w m -> p m' = p m -> c m' = c m ->
  forall x A h, project m' x A h = project m x A h.
Proof.
  intros HA Hn Hmx Hmy Hw Hp Hc x A h. unfold project.
  rewrite HA, Hmx, Hmy. destruct (Nat.ltb (Am m) A); [reflexivity|].
  destruct (mux m); [|reflexivity].
  repeat (apply bind_ext; intros ? ?).
  unfold mbind, run_bind. rewrite (project_loop_ext m m' Hn Hw Hp Hc). reflexivity.
Qed.

(** What [build] stores on a new object has the shapes of the training
    data, and the means are those of the training data as given. *)
Lemma build_shaped X0 Y0 nv Xv Yv tA tS fuel (h h' : store F) m :
  h !! X0 = Some (Mat nv Xv) -> rect nv Xv -> 0 < length Xv ->
  h !! Y0 = Some (Vec Yv) -> length Yv = length Xv ->
  build __init__ X0 Y0 tA tS fuel h = Ok (m, h') ->
  mux m = Some (mean0 nv Xv) /\ muy m = Some (mean Yv)
  /\ shaped m (length Xv) nv.
Proof.
  intros HX HR Hn HY Hl Hb.
  destruct (build_run_inv
              (fun v _ _ =>
                 mux (b_self v) = Some (mean0 nv Xv) /\ muy (b_self v) = Some (mean Yv)
                 /\ shaped (b_self v) (length Xv) nv)
              __init__ X0 Y0 nv Xv Yv tA tS fuel h h' m HX HR Hn HY Hl)
    as (v' & Xf & Yf & -> & Hmx & Hmy & Hs); [| |exact Hb|].
  - unfold build_start, shaped. simpl. repeat split; constructor.
  - intros v Xv' Yv' v1 Xv1 Yv1 (Hmx & Hmy & Hno & Hnv & Hw & Hp & Ht & Hd) HR' HL' HLY' E.
    unfold build_body_of in E.
    destruct (extractLV_of nv Xv' Yv') as [[[t0 p0] w0] c0] eqn:EL.
    destruct (extractLV_of_lengths _ _ _ _ _ _ _ EL) as (Lt & Lp & Lw).
    injection E as <- _ _. unfold shaped. simpl.
    split; [exact Hmx|]. split; [exact Hmy|]. split; [exact Hno|]. split; [exact Hnv|].
    split; [apply Forall_app; split; [exact Hw|constructor; [exact Lw|constructor]]|].
    split; [apply Forall_app; split; [exact Hp|constructor; [exact Lp|constructor]]|].
    split; [apply Forall_app; split; [exact Ht|constructor; [lia|constructor]]|].
    apply Forall_app. split; [exact Hd|]. constructor; [|constructor].
    rewrite !length_map. unfold deflated_X. rewrite zip_with_length_same; lia.
  - simpl. split; [exact Hmx|]. split; [exact Hmy|]. exact Hs.
Qed.

End Returns.

(** * Further properties of [build] *)

Section BuildFurther.
Context {F : Type} `{Scalar F}.

Lemma build_body_SSXac nobj nv SSX0 SSY0 v v' (h h' : store F) :
  build_body nobj nv SSX0 SSY0 v h = Ok (v', h') ->
  SSXac (b_self v') = SSXac (b_self v) ++ [val (b_SSXac v')]
  /\ b_a v' = b_a v + 1.
Proof.
  intros Hb. unfold build_body in Hb.
  apply bind_Ok in Hb as ([[[t0 p0] w0] c0] & h1 & _ & Hb).
  apply bind_Ok in Hb as ([X1 Y1] & h2 & _ & Hb).
  apply bind_Ok in Hb as ([[SSXnew SSYnew] d] & h3 & _ & Hb).
  apply bind_Ok in Hb as (SSXex & h4 & _ & Hb).
  apply bind_Ok in Hb as (SSYex & h5 & _ & Hb).
  apply bind_Ok in Hb as (q & h6 & _ & Hb).
  apply ret_Ok in Hb as [-> _]. simpl. split; reflexivity.
Qed.

(** How the loop of [build] is left: after the first pass at which one of
    the two tests holds. *)
Lemma build_loop_exit nobj nv tA tS SSX0 SSY0 fuel :
  forall v (h : store F) v' h',
    (0 < tA -> b_a v < tA) ->
    build_loop fuel nobj nv tA tS SSX0 SSY0 v h = Ok (v', h') ->
    exists l x,
      SSXac (b_self v') = SSXac (b_self v) ++ l ++ [x]
      /\ b_a v' = b_a v + S (length l)
      /\ ((0 < tA /\ b_a v' = tA) \/ (fgtb tS fzero = true /\ fgtb x tS = true))
      /\ (0 < tA -> b_a v' <= tA)
      /\ (fgtb tS fzero = true -> Forall (fun z => fgtb z tS = false) l).
Proof.
  induction fuel as [|fuel IH]; intros v h v' h' Ha Hl; [discriminate|].
  simpl in Hl. apply bind_Ok in Hl as (v1 & h1 & Hb & Hl).
  apply build_body_SSXac in Hb as (HS & Ha1).
  destruct (build_break tA tS v1) eqn:Ebr.
  - apply ret_Ok in Hl as [-> ->]. exists [], (val (b_SSXac v1)).
    split; [exact HS|]. split; [simpl; lia|].
    split.
    + unfold build_break in Ebr. apply orb_true_iff in Ebr as [E|E];
        apply andb_true_iff in E as [E1 E2].
      * left. apply Nat.ltb_lt in E1. apply Nat.eqb_eq in E2. split; assumption.
      * right. split; assumption.
    + split; [intros Hpos; specialize (Ha Hpos); lia|]. intros _. constructor.
  - unfold build_break in Ebr. apply orb_false_iff in Ebr as [E1 E2].
    apply IH in Hl as (l & x & HS' & Ha' & Hwhy & Hle & Hall).
    + exists (val (b_SSXac v1) :: l), x.
      split; [rewrite HS', HS, <- app_assoc; reflexivity|].
      split; [simpl; lia|]. split; [exact Hwhy|]. split; [exact Hle|].
      intros HtS. constructor; [|apply Hall; exact HtS].
      rewrite HtS in E2. exact E2.
    + intros Hpos. specialize (Ha Hpos).
      apply andb_false_iff in E1 as [E1|E1].
      * apply Nat.ltb_ge in E1. lia.
      * apply Nat.eqb_neq in E1. lia.
Qed.

(** With neither test on, the loop goes on for as long as it is given
    fuel. *)
Lemma build_loop_no_criterion nobj nv tS sx0 sy0 fuel :
  fgtb tS fzero = false -> 0 < nobj ->
  forall v (h : store F) Xv Yv,
    working nobj nv v h Xv Yv ->
    build_loop fuel nobj nv 0 tS (NpFloat64 sx0) (NpFloat64 sy0) v h = OutOfFuel.
Proof.
  intros HtS Hn. induction fuel as [|fuel IH]; intros v h Xv Yv Hw; [reflexivity|].
  simpl.
  pose proof (build_body_run _ _ sx0 sy0 _ _ _ _ Hw Hn) as Hb.
  destruct (build_body_of nobj nv sx0 sy0 v Xv Yv) as [[v1 Xv1] Yv1] eqn:E.
  destruct (build_body_of_working _ _ _ _ _ _ _ _ _ _ _ Hw E) as (Hw1 & _).
  run_with Hb. unfold build_break. rewrite HtS. simpl.
  eapply IH. exact Hw1.
Qed.

Lemma computeSS_loop_short (Xv : list (list F)) (Yv : list F) sx sy d :
  length Yv < length Xv -> computeSS_loop Xv Yv sx sy d = Raise IndexError.
Proof.
  revert Yv sx sy d. induction Xv as [|row Xv IH]; intros Yv sx sy d Hl; simpl in Hl; [lia|].
  destruct Yv as [|Yi Yv]; [reflexivity|].
  rewrite computeSS_loop_step. apply IH. simpl in Hl. lia.
Qed.

Lemma computeSS_loop_long (Xv : list (list F)) (Yv : list F) sx sy d :
  length Xv <= length Yv -> exists r, computeSS_loop Xv Yv sx sy d = Ok r.
Proof.
  revert Yv sx sy d. induction Xv as [|row Xv IH]; intros Yv sx sy d Hl.
  - eexists. reflexivity.
  - destruct Yv as [|Yi Yv]; [simpl in Hl; lia|].
    rewrite computeSS_loop_step. apply IH. simpl in Hl. lia.
Qed.

Lemma extractLV_mismatch X0 Y0 nv Xv Yv (h : store F) :
  h !! X0 = Some (Mat nv Xv) -> h !! Y0 = Some (Vec Yv) ->
  length Yv <> length Xv ->
  extractLV X0 Y0 h = Raise ValueError.
Proof.
  intros HX HY Hl. unfold extractLV.
  run_with (get_mat_run _ _ _ _ HX). run_with (get_vec_run _ _ _ HY).
  destruct (Nat.eqb (length Yv) (length Xv)) eqn:E; [|reflexivity].
  apply Nat.eqb_eq in E. contradiction.
Qed.

End BuildFurther.

(** * Further properties of the engine *)

Section ProjectBuild.
Context {F : Type} `{Scalar F}.

(** X3. What [build] stores on a new object has the shapes of the training
    data: [nobj] and [nvarx] are its dimensions, [mux] and [muy] are the
    means of the data as given, every weight and loading vector has
    [nvarx] entries, and every score and distance vector has [nobj]. *)
Theorem build_stores_shapes (X0 Y0 : loc) (nv : nat) (Xv : list (list F)) (Yv : list F)
    (targetA : nat) (targetSSX : F) (fuel : nat) (h h' : store F) (m : pls F) :
  h !! X0 = Some (Mat nv Xv) -> rect nv Xv -> 0 < length Xv ->
  h !! Y0 = Some (Vec Yv) -> length Yv = length Xv ->
  build __init__ X0 Y0 targetA targetSSX fuel h = Ok (m, h') ->
  mux m = Some (mean0 nv Xv) /\ muy m = Some (mean Yv)
  /\ shaped m (length Xv) nv.
Proof. apply build_shaped. Qed.

(** [project] on a model that [build] returned and a query of [nvarx]
    entries. *)
Lemma project_returns_total (X0 Y0 : loc) (nv : nat) (Xv : list (list F))
    (Yv : list F) (targetA : nat) (targetSSX : F) (fuel : nat) (h h1 h2 : store F)
    (m : pls F) (x : loc) (xv : list F) (A : nat) :
  h !! X0 = Some (Mat nv Xv) -> rect nv Xv -> 0 < length Xv ->
  h !! Y0 = Some (Vec Yv) -> length Yv = length Xv ->
  build __init__ X0 Y0 targetA targetSSX fuel h = Ok (m, h1) ->
  h2 !! x = Some (Vec xv) -> length xv = nv -> A <= Am m ->
  exists y t d h',
    project m x A h2 = Ok (Projected y t d, h')
    /\ length y = A /\ length t = A /\ length d = A.
Proof.
  intros HX HR Hn HY Hl Hb Hx Hxv HA.
  destruct (build_shaped _ _ _ _ _ _ _ _ _ _ _ HX HR Hn HY Hl Hb)
    as (Hmx & Hmy & _ & _ & HW & HP & _ & _).
  destruct (build_lengths _ _ _ _ _ _ _ _ Hb) as ((_ & Lp & Lw & Lc & _) & _).
  assert (Lmu : length (mean0 nv Xv) = length xv).
  { unfold mean0. rewrite length_map, length_seq. lia. }
  set (xc := vsub xv (mean0 nv Xv)).
  assert (Hxc : <[x := Vec xc]> h2 !! x = Some (Vec xc)).
  { apply list_lookup_insert_eq. eapply lookup_lt_Some. exact Hx. }
  assert (Lxc : length xc = nv) by (unfold xc; rewrite vsub_length; lia).
  destruct (project_loop_run nv m x A HW HP 0 (replicate A fzero) (replicate A fzero)
              (replicate A fzero) xc _ Hxc Lxc)
    as (y & t0 & d & h' & Hrun & Ly & Lt & Ld); [simpl; lia..|].
  rewrite length_replicate in Ly, Lt, Ld.
  exists (map (fun yi => (yi + mean Yv)%sc) y), t0, d, h'.
  rewrite length_map. split; [|auto].
  unfold project. replace (Nat.ltb (Am m) A) with false by (symmetry; apply Nat.ltb_ge; lia).
  rewrite Hmx, Hmy.
  run_with (get_vec_run _ _ _ Hx).
  rewrite (isub_same_length xv (mean0 nv Xv) Lmu).
  unfold lift at 1, put at 1. unfold mbind at 1 2, run_bind at 1 2. fold xc.
  run_with Hrun. reflexivity.
Qed.

(** X4. On a model that [build] returned, [project(x, A)] with [A <= Am]
    and a query of [nvarx] entries returns: it raises nothing, and the
    three sequences it returns have [A] entries each. *)
Theorem project_returns_A_entries (X0 Y0 : loc) (nv : nat) (Xv : list (list F))
    (Yv : list F) (targetA : nat) (targetSSX : F) (fuel : nat) (h h1 h2 : store F)
    (m : pls F) (x : loc) (xv : list F) (A : nat) :
  h !! X0 = Some (Mat nv Xv) -> rect nv Xv -> 0 < length Xv ->
  h !! Y0 = Some (Vec Yv) -> length Yv = length Xv ->
  build __init__ X0 Y0 targetA targetSSX fuel h = Ok (m, h1) ->
  h2 !! x = Some (Vec xv) -> length xv = nv -> A <= Am m ->
  exists y t d h',
    project m x A h2 = Ok (Projected y t d, h')
    /\ length y = A /\ length t = A /\ length d = A.
Proof. apply project_returns_total. Qed.

(** X5. On a model that [build] returned, [project(x, A)] with
    [1 <= A <= Am] and a query whose length is not [nvarx] raises
    [ValueError]: it returns no prediction.  (When [nvarx = 1] the
    centering broadcasts, and it is [np.dot] with the first weight vector
    that raises.) *)
Theorem project_wrong_length_raises (X0 Y0 : loc) (nv : nat) (Xv : list (list F))
    (Yv : list F) (targetA : nat) (targetSSX : F) (fuel : nat) (h h1 h2 : store F)
    (m : pls F) (x : loc) (xv : list F) (A : nat) :
  h !! X0 = Some (Mat nv Xv) -> rect nv Xv -> 0 < length Xv ->
  h !! Y0 = Some (Vec Yv) -> length Yv = length Xv ->
  build __init__ X0 Y0 targetA targetSSX fuel h = Ok (m, h1) ->
  h2 !! x = Some (Vec xv) -> length xv <> nv -> 1 <= A -> A <= Am m ->
  project m x A h2 = Raise ValueError.
Proof.
  intros HX HR Hn HY Hl Hb Hx Hxv HA1 HA.
  destruct (build_shaped _ _ _ _ _ _ _ _ _ _ _ HX HR Hn HY Hl Hb)
    as (Hmx & Hmy & _ & _ & HW & _).
  destruct (build_lengths _ _ _ _ _ _ _ _ Hb) as ((_ & _ & Lw & _) & _).
  assert (Lmu : length (mean0 nv Xv) = nv).
  { unfold mean0. rewrite length_map, length_seq. reflexivity. }
  unfold project. replace (Nat.ltb (Am m) A) with false by (symmetry; apply Nat.ltb_ge; lia).
  rewrite Hmx.
  run_with (get_vec_run _ _ _ Hx).
  unfold isub.
  replace (Nat.eqb (length (mean0 nv Xv)) (length xv)) with false
    by (symmetry; apply Nat.eqb_neq; lia).
  destruct (mean0 nv Xv) as [|s [|s' mu]] eqn:Emu; [reflexivity| |reflexivity].
  simpl in Lmu. subst nv.
  unfold lift at 1, put at 1. unfold mbind at 1 2, run_bind at 1 2.
  set (xc := map (fun xi => (xi - s)%sc) xv).
  assert (Hxc : <[x := Vec xc]> h2 !! x = Some (Vec xc)).
  { apply list_lookup_insert_eq. eapply lookup_lt_Some. exact Hx. }
  destruct (lookup_lt_is_Some_2 (w m) 0) as [wa Hwa]; [lia|].
  assert (Lwa : length wa = 1) by (eapply (proj1 (Forall_lookup _ _) HW); exact Hwa).
  destruct A as [|A]; [lia|]. apply bind_Raise. simpl.
  run_with (get_vec_run _ _ _ Hxc).
  run_with (item_run (S := store F) _ _ _ (<[x := Vec xc]> h2) Hwa).
  apply bind_Raise. apply np_dot_mismatch.
  unfold xc. rewrite length_map. lia.
Qed.

(** X6. [build] empties nothing: on an object whose ten per-LV lists have
    [n] entries, [build(X, Y, targetA=k)] returns with [Am = k] and lists
    of [n + k] entries, the [n] entries the object had coming first, where
    [project] and [saveModel] read LVs [0], ..., [Am - 1]. *)
Theorem build_appends_to_lists (self : pls F) (X0 Y0 : loc) (nv : nat)
    (Xv : list (list F)) (Yv : list F) (k fuel : nat) (h : store F) (n : nat) :
  fgtb (fzero : F) fzero = false ->
  h !! X0 = Some (Mat nv Xv) -> rect nv Xv -> 0 < length Xv ->
  h !! Y0 = Some (Vec Yv) -> length Yv = length Xv ->
  1 <= k -> k <= fuel ->
  lv_lengths self n ->
  exists m h',
    build self X0 Y0 k fzero fuel h = Ok (m, h')
    /\ Am m = k /\ lv_lengths m (n + k)
    /\ take n (t m) = t self /\ take n (p m) = p self
    /\ take n (w m) = w self /\ take n (c m) = c self.
Proof.
  intros H0 HX HR Hn HY Hl Hk Hf Hlen.
  destruct (build_targetA_run
              (fun v _ _ =>
                 lv_lengths (b_self v) (n + b_a v)
                 /\ take n (t (b_self v)) = t self /\ take n (p (b_self v)) = p self
                 /\ take n (w (b_self v)) = w self /\ take n (c (b_self v)) = c self)
              self X0 Y0 nv Xv Yv k fuel h H0 HX HR Hn HY Hl Hk Hf)
    as (v' & h' & _ & _ & Hb & Ha & HJ).
  - unfold build_start. simpl. rewrite Nat.add_0_r.
    pose proof Hlen as (L1 & L2 & L3 & L4 & _).
    split; [exact Hlen|].
    repeat split;
      [rewrite <- L1|rewrite <- L2|rewrite <- L3|rewrite <- L4]; apply firstn_all.
  - intros v Xv' Yv' v1 Xv1 Yv1 (Hlv & Ht & Hp & Hw & Hc) E. unfold build_body_of in E.
    destruct (extractLV_of nv Xv' Yv') as [[[t0 p0] w0] c0].
    injection E as <- _ _. simpl.
    split; [rewrite Nat.add_assoc; apply lv_lengths_append; exact Hlv|].
    destruct Hlv as (L1 & L2 & L3 & L4 & _).
    rewrite !take_app_le by lia. auto.
  - exists (set_Am (b_self v') (b_a v')), h'. split; [exact Hb|].
    split; [exact Ha|]. rewrite <- Ha. exact HJ.
Qed.

(** X7. How [build] leaves its loop, whenever it returns: at the first pass
    whose count [a] is [targetA] (when [targetA > 0]) or whose accumulated
    [SSXac] is above [targetSSX] (when [targetSSX > 0]).  So [Am >= 1],
    [Am <= targetA] when [targetA > 0], and under the variance test no
    earlier [SSXac] was above the target. *)
Theorem build_stops_at_first_break (self : pls F) (X0 Y0 : loc) (targetA : nat)
    (targetSSX : F) (fuel : nat) (h h' : store F) (m : pls F) :
  build self X0 Y0 targetA targetSSX fuel h = Ok (m, h') ->
  exists l x,
    SSXac m = SSXac self ++ l ++ [x]
    /\ Am m = S (length l)
    /\ ((0 < targetA /\ Am m = targetA)
        \/ (fgtb targetSSX fzero = true /\ fgtb x targetSSX = true))
    /\ (0 < targetA -> Am m <= targetA)
    /\ (fgtb targetSSX fzero = true -> Forall (fun z => fgtb z targetSSX = false) l).
Proof.
  intros Hb. unfold build in Hb.
  apply bind_Ok in Hb as ([nv Xv] & h1 & _ & Hb).
  apply bind_Ok in Hb as ([Xc mu] & h2 & _ & Hb).
  apply bind_Ok in Hb as ([Yc mu1] & h3 & _ & Hb).
  apply bind_Ok in Hb as ([[SSX0 SSY0] d] & h4 & _ & Hb).
  apply bind_Ok in Hb as (v & h5 & Hloop & Hb).
  apply ret_Ok in Hb as [-> _].
  apply build_loop_exit in Hloop; [|simpl; lia].
  simpl in Hloop. exact Hloop.
Qed.

(** X8. With [targetA = 0] and [targetSSX <= 0] nothing ends the loop: on
    well-shaped training data of at least one observation [build] neither
    returns nor raises, whatever the fuel. *)
Theorem build_without_criterion_loops (self : pls F) (X0 Y0 : loc) (nv : nat)
    (Xv : list (list F)) (Yv : list F) (targetSSX : F) (fuel : nat) (h : store F) :
  fgtb targetSSX fzero = false ->
  h !! X0 = Some (Mat nv Xv) -> rect nv Xv -> 0 < length Xv ->
  h !! Y0 = Some (Vec Yv) -> length Yv = length Xv ->
  build self X0 Y0 0 targetSSX fuel h = OutOfFuel.
Proof.
  intros HtS HX HR Hn HY Hl.
  destruct (build_enters self X0 Y0 nv Xv Yv 0 targetSSX fuel h HX HR Hn HY Hl)
    as (Hrun & Hw).
  rewrite Hrun. unfold mbind, run_bind.
  rewrite (build_loop_no_criterion _ _ _ _ _ _ HtS Hn _ _ _ _ Hw). reflexivity.
Qed.

(** X9. [build] on a response whose length is not the number of
    observations raises: [IndexError] when [Y] is too short ([computeSS]
    reads [Y[i]] for every observation), [ValueError] when it is too long
    ([np.dot] in [extractLV], in the first pass). *)
Theorem build_wrong_length_Y_raises (self : pls F) (X0 Y0 : loc) (nv : nat)
    (Xv : list (list F)) (Yv : list F) (targetA : nat) (targetSSX : F) (fuel : nat)
    (h : store F) :
  h !! X0 = Some (Mat nv Xv) -> h !! Y0 = Some (Vec Yv) ->
  length Yv <> length Xv -> 1 <= fuel ->
  build self X0 Y0 targetA targetSSX fuel h
  = Raise (if Nat.ltb (length Yv) (length Xv) then IndexError else ValueError).
Proof.
  intros HX HY Hl Hf.
  set (Xc := map (fun row => vsub row (mean0 nv Xv)) Xv).
  set (Yc := map (fun y => (y - mean Yv)%sc) Yv).
  set (h1 := h ++ [Mat nv Xc]). set (h2 := h1 ++ [Vec Yc]).
  assert (HY1 : h1 !! Y0 = Some (Vec Yv)).
  { unfold h1. rewrite lookup_app_l; [exact HY|]. eapply lookup_lt_Some; exact HY. }
  assert (L1 : length h1 = length h + 1) by (unfold h1; rewrite length_app; simpl; lia).
  assert (HXc : h2 !! length h = Some (Mat nv Xc)).
  { unfold h2, h1. rewrite lookup_app_l by (rewrite length_app; simpl; lia).
    apply list_lookup_middle. reflexivity. }
  assert (HYc : h2 !! length h1 = Some (Vec Yc)).
  { unfold h2. apply list_lookup_middle. reflexivity. }
  assert (LXc : length Xc = length Xv) by (unfold Xc; apply length_map).
  assert (LYc : length Yc = length Yv) by (unfold Yc; apply length_map).
  unfold build.
  run_with (get_mat_run _ _ _ _ HX).
  run_with (center_run _ _ _ _ HX). fold Xc. fold h1.
  run_with (center1_run _ _ _ HY1). fold Yc. fold h2.
  destruct (Nat.ltb (length Yv) (length Xv)) eqn:E.
  - apply Nat.ltb_lt in E. apply bind_Raise. unfold computeSS.
    run_with (get_mat_run _ _ _ _ HXc). run_with (get_vec_run _ _ _ HYc).
    rewrite computeSS_loop_short by lia. reflexivity.
  - apply Nat.ltb_ge in E.
    destruct (computeSS_loop_long Xc Yc (PyFloat fzero) (PyFloat fzero) [])
      as ([[sx sy] d] & Hss); [lia|].
    assert (Hrun : computeSS (length h) (length h1) h2 = Ok ((sx, sy, d), h2)).
    { unfold computeSS. run_with (get_mat_run _ _ _ _ HXc). run_with (get_vec_run _ _ _ HYc).
      rewrite Hss. reflexivity. }
    run_with Hrun.
    destruct fuel as [|fuel]; [lia|]. apply bind_Raise. simpl.
    apply bind_Raise. unfold build_body. simpl. apply bind_Raise.
    apply (extractLV_mismatch _ _ nv Xc Yc); [exact HXc|exact HYc|lia].
Qed.

End ProjectBuild.

(** * Further properties of the cross-validation *)

Section LOOFurther.
Context {F : Type} `{Scalar F}.

Lemma last_nth_pred (l : list F) d : List.last l d = nth (length l - 1) l d.
Proof.
  induction l as [|x l IH]; [reflexivity|].
  destruct l as [|y l]; [reflexivity|].
  change (List.last (x :: y :: l) d) with (List.last (y :: l) d). rewrite IH.
  simpl. rewrite Nat.sub_0_r. reflexivity.
Qed.

(** The two assignments to [y[a]] in one pass of [getLOO], on a [y] whose
    entries from [a] on are still zero. *)
Lemma getLOO_y_step (pre : list F) n s :
  let a := length pre in
  let y := pre ++ replicate (S n) fzero in
  let y1 := if Nat.ltb 0 a then <[a := nth (a - 1) y fzero]> y else y in
  <[a := (nth a y1 fzero + s)%sc]> y1
  = (pre ++ [(List.last pre fzero + s)%sc]) ++ replicate n fzero.
Proof.
  intros a y y1.
  assert (Hy1 : y1 = pre ++ List.last pre fzero :: replicate n fzero).
  { unfold y1, y, a. destruct pre as [|z pre]; [reflexivity|].
    replace (Nat.ltb 0 (length (z :: pre))) with true by (symmetry; apply Nat.ltb_lt; simpl; lia).
    rewrite last_nth_pred.
    rewrite (app_nth1 (z :: pre)) by (simpl; lia).
    replace (length (z :: pre)) with (length (z :: pre) + 0) at 1 by lia.
    rewrite insert_app_r. reflexivity. }
  rewrite Hy1. unfold a. rewrite nth_middle.
  replace (length pre) with (length pre + 0) at 1 by lia.
  rewrite insert_app_r. simpl. rewrite <- app_assoc. reflexivity.
Qed.

Lemma contributions_S n nv (Xv : list (list F)) (Yv xv : list F) :
  contributions (S n) nv Xv Yv xv
  = let '(t, p, w, c) := extractLV_of nv Xv Yv in
    (dot xv w * c)%sc
      :: contributions n nv (deflated_X Xv t p) (deflated_Y Yv t c)
           (vsub xv (scale (dot xv w) p)).
Proof. reflexivity. Qed.

(** [getLOO] on a centered matrix, a response of its length and a query of
    its width: it returns, and the predictions are the running sums of the
    contributions of the LVs. *)
Lemma getLOO_loop_run nv n :
  forall X0 Y0 x Xv Yv xv pre (h : store F),
    h !! X0 = Some (Mat nv Xv) -> h !! Y0 = Some (Vec Yv) -> h !! x = Some (Vec xv) ->
    Y0 <> x ->
    rect nv Xv -> length Yv = length Xv -> length xv = nv ->
    exists h',
      getLOO_loop n X0 Y0 x (length pre) (pre ++ replicate n fzero) h
      = Ok (pre ++ cumulative (List.last pre fzero) (contributions n nv Xv Yv xv), h').
Proof.
  induction n as [|n IH]; intros X0 Y0 x Xv Yv xv pre h HX HY Hx Hne HR Hl Hxv.
  - exists h. reflexivity.
  - assert (HXY : X0 <> Y0) by (intros e; rewrite e in HX; congruence).
    assert (HXx : X0 <> x) by (intros e; rewrite e in HX; congruence).
    assert (LX : X0 < length h) by (eapply lookup_lt_Some; exact HX).
    assert (LY : Y0 < length h) by (eapply lookup_lt_Some; exact HY).
    assert (Lx : x < length h) by (eapply lookup_lt_Some; exact Hx).
    rewrite contributions_S.
    destruct (extractLV_of nv Xv Yv) as [[[t0 p0] w0] c0] eqn:E.
    destruct (extractLV_of_lengths _ _ _ _ _ _ _ E) as (Lt & Lp & Lw).
    set (tt := dot xv w0).
    set (xv' := vsub xv (scale tt p0)).
    set (h1 := <[x := Vec xv']> h).
    set (h2 := <[Y0 := Vec (deflated_Y Yv t0 c0)]> (<[X0 := Mat nv (deflated_X Xv t0 p0)]> h1)).
    assert (HX1 : h1 !! X0 = Some (Mat nv Xv)).
    { unfold h1. rewrite list_lookup_insert_ne by congruence. exact HX. }
    assert (HY1 : h1 !! Y0 = Some (Vec Yv)).
    { unfold h1. rewrite list_lookup_insert_ne by congruence. exact HY. }
    assert (L1 : length h1 = length h) by (unfold h1; apply length_insert).
    destruct (IH X0 Y0 x (deflated_X Xv t0 p0) (deflated_Y Yv t0 c0) xv'
                (pre ++ [(List.last pre fzero + tt * c0)%sc]) h2)
      as (h' & Hrun).
    + unfold h2. rewrite list_lookup_insert_ne by congruence.
      apply list_lookup_insert_eq. lia.
    + unfold h2. apply list_lookup_insert_eq. rewrite length_insert. lia.
    + unfold h2. rewrite !list_lookup_insert_ne by congruence.
      unfold h1. apply list_lookup_insert_eq. exact Lx.
    + exact Hne.
    + apply deflated_X_rect; assumption.
    + unfold deflated_X, deflated_Y. rewrite !zip_with_length_same; lia.
    + unfold xv'. rewrite vsub_length; [exact Hxv|]. rewrite scale_length. lia.
    + exists h'. rewrite last_last in Hrun. rewrite length_app in Hrun. simpl in Hrun.
      change (getLOO_loop (S n) X0 Y0 x (length pre) (pre ++ replicate (S n) fzero) h)
        with (('(t, p, w, c) ← extractLV X0 Y0;
               let y := if Nat.ltb 0 (length pre)
                        then <[length pre := nth (length pre - 1)
                                               (pre ++ replicate (S n) fzero) fzero]>
                               (pre ++ replicate (S n) fzero)
                        else pre ++ replicate (S n) fzero in
               xv ← get_vec x;
               tt ← np_dot xv w;
               let y := <[length pre := (nth (length pre) y fzero + tt * c)%sc]> y in
               xv' ← lift (isub xv (scale tt p));
               put x (Vec xv');;
               '(X, Y) ← deflateLV X0 Y0 t p c;
               getLOO_loop n X Y x (length pre + 1) y) h).
      run_with (extractLV_run _ _ _ _ _ _ HX HY Hl). rewrite E. cbv beta iota zeta.
      run_with (get_vec_run _ _ _ Hx).
      run_with (np_dot_run xv w0 h ltac:(lia)).
      rewrite (getLOO_y_step pre n (dot xv w0 * c0)%sc).
      rewrite (isub_same_length xv (scale (dot xv w0) p0)) by (rewrite scale_length; lia).
      unfold lift at 1, put at 1. unfold mbind at 1 2, run_bind at 1 2.
      fold tt. fold xv'. fold h1.
      run_with (deflateLV_run _ _ nv Xv Yv t0 p0 c0 h1 HX1 HY1 HR Lp Lt Hl).
      fold h2. rewrite Hrun, <- app_assoc. reflexivity.
Qed.

Lemma SSY0_loop_run (Yv : list F) n :
  forall i acc (h : store F),
    i + n <= length Yv ->
    SSY0_loop Yv n i acc h
    = Ok (SS_vec acc (map (fun y => (y - mean Yv)%sc) (take n (drop i Yv))), h).
Proof.
  induction n as [|n IH]; intros i acc h Hi; [reflexivity|].
  destruct (lookup_lt_is_Some_2 Yv i) as [Yi HYi]; [lia|].
  simpl SSY0_loop. run_with (item_run (S := store F) _ _ _ h HYi).
  rewrite IH by lia. rewrite (take_S_drop _ _ _ _ HYi). reflexivity.
Qed.

Lemma append5_lookups (h : store F) a1 a2 a3 a4 a5 :
  let h5 := ((((h ++ [a1]) ++ [a2]) ++ [a3]) ++ [a4]) ++ [a5] in
  h5 !! length h = Some a1
  /\ h5 !! length (h ++ [a1]) = Some a2
  /\ h5 !! length ((h ++ [a1]) ++ [a2]) = Some a3
  /\ h5 !! length (((h ++ [a1]) ++ [a2]) ++ [a3]) = Some a4
  /\ h5 !! length ((((h ++ [a1]) ++ [a2]) ++ [a3]) ++ [a4]) = Some a5
  /\ forall l, l < length h -> h5 !! l = h !! l.
Proof.
  intros h5. unfold h5. rewrite <- !app_assoc. simpl.
  rewrite !length_app. simpl.
  assert (E : forall k, length h + k - length h = k) by (intros k; lia).
  repeat split; try (rewrite lookup_app_r by lia; rewrite ?Nat.sub_diag, ?E; reflexivity).
  - intros l Hl. apply lookup_app_l. exact Hl.
Qed.

(** The loop of [validateLOO] over well-shaped training data returns, and
    every fold is a fit of the other observations alone: what one fold
    deflates is not what the next one reads. *)
Lemma validateLOO_loop_run nv Xv Yv X0 Y0 A n :
  rect nv Xv -> length Yv = length Xv ->
  forall i SSYv (h : store F),
    h !! X0 = Some (Mat nv Xv) -> h !! Y0 = Some (Vec Yv) ->
    i + n <= length Xv ->
    exists h',
      validateLOO_loop n X0 Y0 A i SSYv h = Ok (LOO_SSY nv Xv Yv A n i SSYv, h')
      /\ keeps (length h) h h'.
Proof.
  intros HR Hl. induction n as [|n IH]; intros i SSYv h HX HY Hi.
  - exists h. split; [reflexivity|apply keeps_refl].
  - destruct (lookup_lt_is_Some_2 Xv i) as [Xi HXi]; [lia|].
    destruct (lookup_lt_is_Some_2 Yv i) as [Yi HYi]; [lia|].
    assert (LXi : length Xi = nv) by (eapply (proj1 (Forall_lookup _ _) HR); exact HXi).
    set (Xr := delete i Xv). set (Yr := delete i Yv).
    set (Xc := centered_X nv Xr). set (Yc := centered_Y Yr).
    set (xpv := vsub Xi (mean0 nv Xr)).
    set (h1 := h ++ [Mat nv Xr]). set (h2 := h1 ++ [Vec Yr]).
    set (h3 := h2 ++ [Mat nv Xc]). set (h4 := h3 ++ [Vec Yc]).
    set (h5 := h4 ++ [Vec xpv]).
    destruct (append5_lookups h (Mat nv Xr) (Vec Yr) (Mat nv Xc) (Vec Yc) (Vec xpv))
      as (K1 & K2 & K3 & K4 & K5 & Kold).
    fold h1 in K2. fold h1 h2 in K3. fold h1 h2 h3 in K4. fold h1 h2 h3 h4 in K5.
    fold h1 h2 h3 h4 h5 in K1, K2, K3, K4, K5, Kold.
    assert (LXr : length Xr = length Xv - 1).
    { unfold Xr. rewrite length_delete by (exists Xi; exact HXi). lia. }
    assert (LYr : length Yr = length Xv - 1).
    { unfold Yr. rewrite length_delete by (exists Yi; exact HYi). lia. }
    assert (RXr : rect nv Xr) by (unfold Xr; apply Forall_delete; exact HR).
    assert (Lmu : length (mean0 nv Xr) = length Xi).
    { unfold mean0. rewrite length_map, length_seq. lia. }
    destruct (getLOO_loop_run nv A (length h2) (length h3) (length h4) Xc Yc xpv [] h5)
      as (h6 & Hg).
    + exact K3.
    + exact K4.
    + exact K5.
    + unfold h4. rewrite length_app. simpl. lia.
    + unfold Xc. apply centered_X_rect. exact RXr.
    + unfold Yc, Xc, centered_Y, centered_X. rewrite !length_map. lia.
    + unfold xpv. rewrite vsub_length; lia.
    + simpl in Hg.
      assert (L5 : length h <= length h5).
      { unfold h5, h4, h3, h2, h1. rewrite !length_app. simpl. lia. }
      assert (K6 : keeps (length h) h5 h6).
      { eapply (getLOO_loop_keeps (length h)); [| | |exact Hg];
          unfold h4, h3, h2, h1; rewrite ?length_app; simpl; lia. }
      assert (K56 : keeps (length h) h h6).
      { eapply keeps_trans; [|exact K6]. split; [exact L5|exact Kold]. }
      assert (LX : X0 < length h) by (eapply lookup_lt_Some; exact HX).
      assert (LY : Y0 < length h) by (eapply lookup_lt_Some; exact HY).
      assert (Epred : LOO_prediction nv Xv Yv A i
                      = map (fun y => (y + mean Yr)%sc)
                          (cumulative fzero (contributions A nv Xc Yc xpv))).
      { unfold LOO_prediction, getLOO_of. rewrite (nth_lookup_Some _ _ _ _ HXi).
        reflexivity. }
      assert (EYi : nth i Yv fzero = Yi) by (apply (nth_lookup_Some _ _ _ _ HYi)).
      destruct (IH (i + 1)
                  (SSY_update A 0 SSYv (LOO_prediction nv Xv Yv A i) (nth i Yv fzero)) h6)
        as (h' & Hrun & K7).
      * destruct K56 as [_ K]. rewrite K by exact LX. exact HX.
      * destruct K56 as [_ K]. rewrite K by exact LY. exact HY.
      * lia.
      * exists h'. split.
        -- simpl validateLOO_loop. simpl LOO_SSY.
           run_with (get_mat_run _ _ _ _ HX). run_with (get_vec_run _ _ _ HY).
           run_with (alloc_run (Mat nv (delete i Xv)) h). fold Xr. fold h1.
           replace (Nat.ltb i (length Yv)) with true by (symmetry; apply Nat.ltb_lt; lia).
           run_with (ret_run tt h1).
           run_with (alloc_run (Vec (delete i Yv)) h1). fold Yr. fold h2.
           assert (HXr2 : h2 !! length h = Some (Mat nv Xr)).
           { unfold h2, h1. rewrite lookup_app_l by (rewrite length_app; simpl; lia).
             apply list_lookup_middle. reflexivity. }
           run_with (center_run _ _ _ _ HXr2). fold Xc. fold h3.
           assert (HYr3 : h3 !! length h1 = Some (Vec Yr)).
           { unfold h3, h2. rewrite lookup_app_l by (rewrite length_app; simpl; lia).
             apply list_lookup_middle. reflexivity. }
           run_with (center1_run _ _ _ HYr3). fold Yc. fold h4.
           run_with (item_run (S := store F) _ _ _ h4 HXi).
           run_with (alloc_run (Vec Xi) h4).
           rewrite (isub_same_length Xi (mean0 nv Xr) Lmu). fold xpv.
           run_with (lift_run xpv (h4 ++ [Vec Xi])).
           run_with (put_run (length h4) (Vec xpv) (h4 ++ [Vec Xi])).
           replace (<[length h4 := Vec xpv]> (h4 ++ [Vec Xi])) with h5
             by (unfold h5; replace (length h4) with (length h4 + 0) at 1 by lia;
                 rewrite insert_app_r; reflexivity).
           unfold getLOO. run_with Hg.
           run_with (item_run (S := store F) _ _ _ h6 HYi).
           rewrite <- Epred, <- EYi. exact Hrun.
        -- eapply keeps_trans; [exact K56|].
           eapply keeps_weaken; [|exact K7]. destruct K56; lia.
Qed.

End LOOFurther.

(** * Further properties of the persistence *)

Section SaveLoadFurther.
Context {F : Type} `{Scalar F}.

Lemma reads_ret {A} (a : A) : reads (F := F) (mret a) [] a.
Proof. split; [reflexivity|]. intros n Hn. simpl in Hn. lia. Qed.

Lemma reads_bind {A B} (r : run (list (npy F)) A) (f : A -> run (list (npy F)) B)
    recs1 recs2 a b :
  reads r recs1 a -> reads (f a) recs2 b -> reads (r ≫= f) (recs1 ++ recs2) b.
Proof.
  intros [R1 E1] [R2 E2]. split.
  - intros rest. rewrite <- app_assoc. rewrite (bind_run _ _ _ _ _ (R1 _)). apply R2.
  - intros n Hn. rewrite length_app in Hn.
    destruct (decide (n < length recs1)) as [Hlt|Hge].
    + rewrite take_app_le by lia. apply bind_Raise. apply E1. exact Hlt.
    + rewrite take_app_ge by lia. rewrite (bind_run _ _ _ _ _ (R1 _)).
      apply E2. lia.
Qed.

Lemma refuses_bind {A B} (r : run (list (npy F)) A) (f : A -> run (list (npy F)) B)
    recs1 recs2 a e :
  reads r recs1 a -> refuses (f a) recs2 e -> refuses (r ≫= f) (recs1 ++ recs2) e.
Proof.
  intros [R1 E1] [R2 E2]. split.
  - intros rest. rewrite <- app_assoc. rewrite (bind_run _ _ _ _ _ (R1 _)). apply R2.
  - intros n Hn. rewrite length_app in Hn.
    destruct (decide (n < length recs1)) as [Hlt|Hge].
    + rewrite take_app_le by lia. apply bind_Raise. apply E1. exact Hlt.
    + rewrite take_app_ge by lia. rewrite (bind_run _ _ _ _ _ (R1 _)).
      apply E2. lia.
Qed.

Lemma reads_one {A} (r : run (list (npy F)) A) rec a :
  (forall rest, r (rec :: rest) = Ok (a, rest)) -> r [] = Raise IOError ->
  reads r [rec] a.
Proof.
  intros Hr He. split; [exact Hr|].
  intros n Hn. simpl in Hn. replace n with 0 by lia. exact He.
Qed.

Lemma reads_load_int n : reads (F := F) load_int [NpyInt n] n.
Proof. apply reads_one; reflexivity. Qed.

Lemma reads_load_float (x : F) : reads load_float [NpyFloat x] x.
Proof. apply reads_one; reflexivity. Qed.

Lemma reads_load_array (v : list F) : reads load_array [NpyArray v] v.
Proof. apply reads_one; reflexivity. Qed.

Lemma reads_load_mux (mu : option (list F)) :
  reads load_mux [match mu with Some v => NpyArray v | None => NpyNone end] mu.
Proof. destruct mu; apply reads_one; reflexivity. Qed.

Lemma reads_load_muy (mu : option F) :
  reads load_muy [match mu with Some x => NpyFloat x | None => NpyNone end] mu.
Proof. destruct mu; apply reads_one; reflexivity. Qed.

Lemma reads_eq {A} (r : run (list (npy F)) A) recs a a' :
  a = a' -> reads r recs a -> reads r recs a'.
Proof. intros -> Hr. exact Hr. Qed.

(** The ten records of each LV are read back by the first loop of
    [loadModel], which raises [IOError] if the file ends among them. *)
Lemma lvs_reads (m : pls F) k :
  lv_lengths m k ->
  forall n a self,
    a + n <= k ->
    exists recs,
      save_range (save_lv m) a n = Ok recs
      /\ length recs = 10 * n
      /\ reads (load_lvs n self) recs (loaded_lvs self m a n).
Proof.
  intros (L1 & L2 & L3 & L4 & L5 & L6 & L7 & L8 & L9 & L10).
  induction n as [|n IH]; intros a self Ha.
  - exists []. split; [reflexivity|]. split; [reflexivity|].
    eapply reads_eq; [|apply reads_ret].
    unfold loaded_lvs. simpl. rewrite !app_nil_r. destruct self; reflexivity.
  - destruct (getitem_lt (t m) a) as (x1 & E1 & G1); [lia|].
    destruct (getitem_lt (p m) a) as (x2 & E2 & G2); [lia|].
    destruct (getitem_lt (w m) a) as (x3 & E3 & G3); [lia|].
    destruct (getitem_lt (c m) a) as (x4 & E4 & G4); [lia|].
    destruct (getitem_lt (SSXex m) a) as (x5 & E5 & G5); [lia|].
    destruct (getitem_lt (SSXac m) a) as (x6 & E6 & G6); [lia|].
    destruct (getitem_lt (SSYex m) a) as (x7 & E7 & G7); [lia|].
    destruct (getitem_lt (SSYac m) a) as (x8 & E8 & G8); [lia|].
    destruct (getitem_lt (SDEC m) a) as (x9 & E9 & G9); [lia|].
    destruct (getitem_lt (dmodx m) a) as (x10 & E10 & G10); [lia|].
    destruct (IH (a + 1) (append_ss (append_lv self x1 x2 x3 x4) x5 x6 x7 x8 x9 x10))
      as (recs & Hs & Hlen & Hrd); [lia|].
    assert (Hrec : save_lv m a
                   = Ok [NpyArray x1; NpyArray x2; NpyArray x3; NpyFloat x4;
                         NpyFloat x5; NpyFloat x6; NpyFloat x7; NpyFloat x8;
                         NpyFloat x9; NpyArray x10]).
    { unfold save_lv. rewrite G1, G2, G3, G4, G5, G6, G7, G8, G9, G10. reflexivity. }
    eexists. split; [|split].
    + change (save_range (save_lv m) a (S n))
        with (here ← save_lv m a; rest0 ← save_range (save_lv m) (a + 1) n;
              Ok (here ++ rest0)).
      rewrite Hrec, Hs. reflexivity.
    + rewrite length_app, Hlen. simpl. lia.
    + change (load_lvs (S n) self)
        with (ta ← load_array; pa ← load_array; wa ← load_array; ca ← load_float;
              SSXex_a ← load_float; SSXac_a ← load_float; SSYex_a ← load_float;
              SSYac_a ← load_float; SDEC_a ← load_float; dmodx_a ← load_array;
              load_lvs n (append_ss (append_lv self ta pa wa ca)
                            SSXex_a SSXac_a SSYex_a SSYac_a SDEC_a dmodx_a)).
      apply (reads_bind _ _ [_] _ _ _ (reads_load_array x1)).
      apply (reads_bind _ _ [_] _ _ _ (reads_load_array x2)).
      apply (reads_bind _ _ [_] _ _ _ (reads_load_array x3)).
      apply (reads_bind _ _ [_] _ _ _ (reads_load_float x4)).
      apply (reads_bind _ _ [_] _ _ _ (reads_load_float x5)).
      apply (reads_bind _ _ [_] _ _ _ (reads_load_float x6)).
      apply (reads_bind _ _ [_] _ _ _ (reads_load_float x7)).
      apply (reads_bind _ _ [_] _ _ _ (reads_load_float x8)).
      apply (reads_bind _ _ [_] _ _ _ (reads_load_float x9)).
      apply (reads_bind _ _ [_] _ _ _ (reads_load_array x10)).
      eapply reads_eq; [|exact Hrd].
      unfold loaded_lvs. simpl.
      rewrite (app_take_S_drop _ _ _ _ _ E1), (app_take_S_drop _ _ _ _ _ E2),
        (app_take_S_drop _ _ _ _ _ E3), (app_take_S_drop _ _ _ _ _ E4),
        (app_take_S_drop _ _ _ _ _ E5), (app_take_S_drop _ _ _ _ _ E6),
        (app_take_S_drop _ _ _ _ _ E7), (app_take_S_drop _ _ _ _ _ E8),
        (app_take_S_drop _ _ _ _ _ E9), (app_take_S_drop _ _ _ _ _ E10).
      reflexivity.
Qed.

(** On an object whose [SSY] is a list the second loop reads the three
    records of each validated LV back. *)
Lemma cvs_reads (m : pls F) k :
  cv_lengths m k ->
  forall n a self,
    a + n <= k -> SSY_type self = PyList ->
    exists recs,
      save_range (save_cv m) a n = Ok recs
      /\ length recs = 3 * n
      /\ reads (load_cvs n self) recs (loaded_cvs self m a n).
Proof.
  intros (L1 & L2 & L3).
  induction n as [|n IH]; intros a self Ha Hty.
  - exists []. split; [reflexivity|]. split; [reflexivity|].
    eapply reads_eq; [|apply reads_ret].
    unfold loaded_cvs. simpl. rewrite !app_nil_r. destruct self; reflexivity.
  - destruct (getitem_lt (SSY m) a) as (x1 & E1 & G1); [lia|].
    destruct (getitem_lt (SDEP m) a) as (x2 & E2 & G2); [lia|].
    destruct (getitem_lt (Q2 m) a) as (x3 & E3 & G3); [lia|].
    destruct (IH (a + 1) (append_cv self x1 x2 x3)) as (recs & Hs & Hlen & Hrd);
      [lia|exact Hty|].
    assert (Hrec : save_cv m a = Ok [NpyFloat x1; NpyFloat x2; NpyFloat x3]).
    { unfold save_cv. rewrite G1, G2, G3. reflexivity. }
    eexists. split; [|split].
    + change (save_range (save_cv m) a (S n))
        with (here ← save_cv m a; rest0 ← save_range (save_cv m) (a + 1) n;
              Ok (here ++ rest0)).
      rewrite Hrec, Hs. reflexivity.
    + rewrite length_app, Hlen. simpl. lia.
    + replace (load_cvs (S n) self)
        with (SSY_a ← load_float; SDEP_a ← load_float; Q2_a ← load_float;
              load_cvs n (append_cv self SSY_a SDEP_a Q2_a))
        by (simpl; rewrite Hty; reflexivity).
      apply (reads_bind _ _ [_] _ _ _ (reads_load_float x1)).
      apply (reads_bind _ _ [_] _ _ _ (reads_load_float x2)).
      apply (reads_bind _ _ [_] _ _ _ (reads_load_float x3)).
      eapply reads_eq; [|exact Hrd].
      unfold loaded_cvs. simpl.
      rewrite (app_take_S_drop _ _ _ _ _ E1), (app_take_S_drop _ _ _ _ _ E2),
        (app_take_S_drop _ _ _ _ _ E3).
      reflexivity.
Qed.

Lemma loaded_cvs_0 (self m : pls F) a : loaded_cvs self m a 0 = self.
Proof. unfold loaded_cvs. simpl. rewrite !app_nil_r. destruct self; reflexivity. Qed.

(** On an object whose [SSY] is an array the second loop raises before it
    reads anything. *)
Lemma cvs_refuses (self : pls F) n :
  SSY_type self = NdArray -> refuses (load_cvs (S n) self) [] AttributeError.
Proof.
  intros Hty. split.
  - intros rest. simpl. rewrite Hty. reflexivity.
  - intros k Hk. simpl in Hk. lia.
Qed.

Lemma save_cv_records (m : pls F) k :
  cv_lengths m k ->
  forall n a, a + n <= k ->
    exists recs, save_range (save_cv m) a n = Ok recs /\ length recs = 3 * n.
Proof.
  intros Hcv n a Ha.
  destruct (cvs_reads m k Hcv n a __init__ Ha eq_refl) as (recs & Hs & Hl & _).
  exists recs. auto.
Qed.

(** The file of an object whose lists have the lengths its counters say,
    and how [loadModel] reads it into any object: whole, with or without
    records after it, or cut short. *)
Lemma loadModel_reads (m self : pls F) :
  lv_lengths m (Am m) -> cv_lengths m (Av m) ->
  exists file,
    saveModel m = Ok file
    /\ length file = 6 + 10 * Am m + 3 * Av m
    /\ (forall rest,
          loadModel self (file ++ rest)
          = match SSY_type self, Av m with
            | NdArray, S _ => Raise AttributeError
            | _, _ => Ok (loaded self m)
            end)
    /\ (forall n, n < length file ->
          loadModel self (take n file)
          = Raise (match SSY_type self with
                   | NdArray => if 6 + 10 * Am m <=? n then AttributeError else IOError
                   | PyList => IOError
                   end)).
Proof.
  intros Hlv Hcv.
  set (self0 := set_header self (Am m) (Av m) (nobj m) (nvarx m) (mux m) (muy m)).
  set (self1 := loaded_lvs self0 m 0 (Am m)).
  destruct (lvs_reads m _ Hlv (Am m) 0 self0) as (lvs & Hsl & Ll & Hrl); [lia|].
  fold self1 in Hrl.
  destruct (save_cv_records m _ Hcv (Av m) 0) as (cvs & Hsc & Lc); [lia|].
  exists (header_of m ++ lvs ++ cvs). split; [|split].
  { unfold saveModel. rewrite Hsl, Hsc. reflexivity. }
  { rewrite !length_app, Ll, Lc. simpl. lia. }
  assert (Hhead : forall recs a,
             reads (load_cvs (Av m) self1) recs a ->
             reads (Am' ← load_int;
                    Av' ← load_int;
                    nobj' ← load_int;
                    nvarx' ← load_int;
                    mux' ← load_mux;
                    muy' ← load_muy;
                    let self := set_header self Am' Av' nobj' nvarx' mux' muy' in
                    self ← load_lvs Am' self;
                    load_cvs Av' self)
                   (header_of m ++ lvs ++ recs) a).
  { intros recs a Hk. unfold header_of.
    apply (reads_bind _ _ [_] _ _ _ (reads_load_int (Am m))).
    apply (reads_bind _ _ [_] _ _ _ (reads_load_int (Av m))).
    apply (reads_bind _ _ [_] _ _ _ (reads_load_int (nobj m))).
    apply (reads_bind _ _ [_] _ _ _ (reads_load_int (nvarx m))).
    apply (reads_bind _ _ [_] _ _ _ (reads_load_mux (mux m))).
    apply (reads_bind _ _ [_] _ _ _ (reads_load_muy (muy m))).
    cbv zeta. fold self0. simpl app.
    apply (reads_bind _ _ _ _ _ _ Hrl). exact Hk. }
  assert (Hstop : forall recs e,
             refuses (load_cvs (Av m) self1) recs e ->
             refuses (Am' ← load_int;
                      Av' ← load_int;
                      nobj' ← load_int;
                      nvarx' ← load_int;
                      mux' ← load_mux;
                      muy' ← load_muy;
                      let self := set_header self Am' Av' nobj' nvarx' mux' muy' in
                      self ← load_lvs Am' self;
                      load_cvs Av' self)
                     (header_of m ++ lvs ++ recs) e).
  { intros recs e Hk. unfold header_of.
    apply (refuses_bind _ _ [_] _ _ _ (reads_load_int (Am m))).
    apply (refuses_bind _ _ [_] _ _ _ (reads_load_int (Av m))).
    apply (refuses_bind _ _ [_] _ _ _ (reads_load_int (nobj m))).
    apply (refuses_bind _ _ [_] _ _ _ (reads_load_int (nvarx m))).
    apply (refuses_bind _ _ [_] _ _ _ (reads_load_mux (mux m))).
    apply (refuses_bind _ _ [_] _ _ _ (reads_load_muy (muy m))).
    cbv zeta. fold self0. simpl app.
    apply (refuses_bind _ _ _ _ _ _ Hrl). exact Hk. }
  assert (Hloaded : loaded_cvs self1 m 0 (Av m) = loaded self m).
  { destruct Hlv as (L1 & L2 & L3 & L4 & L5 & L6 & L7 & L8 & L9 & L10).
    destruct Hcv as (K1 & K2 & K3).
    unfold loaded_cvs, self1, loaded_lvs, loaded, self0. simpl.
    rewrite !drop_0, !take_ge by lia. reflexivity. }
  assert (Hty : SSY_type self1 = SSY_type self) by reflexivity.
  assert (Hall : forall a,
             reads (load_cvs (Av m) self1) cvs a ->
             (forall rest, loadModel self ((header_of m ++ lvs ++ cvs) ++ rest) = Ok a)
             /\ (forall n, n < length (header_of m ++ lvs ++ cvs) ->
                   loadModel self (take n (header_of m ++ lvs ++ cvs)) = Raise IOError)).
  { intros a Ha. destruct (Hhead _ _ Ha) as [Hw Hc]. split.
    - intros rest. unfold loadModel. rewrite Hw. reflexivity.
    - intros n Hn. unfold loadModel. rewrite Hc by exact Hn. reflexivity. }
  destruct (SSY_type self) eqn:Ety.
  - (* a list *)
    destruct (cvs_reads m _ Hcv (Av m) 0 self1) as (cvs' & Hsc' & _ & Hrc);
      [lia|exact Hty|].
    rewrite Hsc in Hsc'. injection Hsc' as <-. rewrite Hloaded in Hrc.
    destruct (Hall _ Hrc) as [Hw Hc]. split; [|exact Hc].
    intros rest. rewrite Hw. destruct (Av m); reflexivity.
  - (* an array *)
    destruct (Av m) as [|k] eqn:EAv.
    + destruct cvs; [|simpl in Lc; lia].
      assert (Hrc : reads (load_cvs 0 self1) [] (loaded self m)).
      { eapply reads_eq; [|apply reads_ret]. rewrite <- Hloaded.
        symmetry. apply loaded_cvs_0. }
      destruct (Hall _ Hrc) as [Hw Hc]. split; [exact Hw|].
      intros n Hn. rewrite Hc by exact Hn.
      rewrite !length_app, Ll in Hn. simpl in Hn.
      destruct (Nat.leb_spec (6 + 10 * Am m) n); [lia|reflexivity].
    + destruct (Hstop [] AttributeError (cvs_refuses self1 k Hty)) as [Hw Hc].
      assert (Hlen : length (header_of m ++ lvs ++ []) = 6 + 10 * Am m).
      { rewrite !length_app, Ll. simpl. lia. }
      assert (Hfile : header_of m ++ lvs ++ cvs = (header_of m ++ lvs ++ []) ++ cvs).
      { rewrite app_nil_r, <- app_assoc. reflexivity. }
      split.
      * intros rest. rewrite Hfile, <- app_assoc. unfold loadModel.
        rewrite Hw. reflexivity.
      * intros n Hn. rewrite Hfile. unfold loadModel.
        destruct (Nat.leb_spec (6 + 10 * Am m) n) as [Hge|Hlt].
        -- rewrite take_app_ge by lia. rewrite Hw. reflexivity.
        -- rewrite take_app_le by lia. rewrite Hc by lia. reflexivity.
Qed.

Lemma save_range_length (f : nat -> outcome (list (npy F))) k :
  (forall a recs, f a = Ok recs -> length recs = k) ->
  forall n a recs, save_range f a n = Ok recs -> length recs = k * n.
Proof.
  intros Hf. induction n as [|n IH]; intros a recs Hs.
  - injection Hs as <-. simpl. lia.
  - change (save_range f a (S n))
      with (here ← f a; rest0 ← save_range f (a + 1) n; Ok (here ++ rest0)) in Hs.
    destruct (f a) as [here| |] eqn:Ef; try discriminate.
    simpl in Hs. destruct (save_range f (a + 1) n) as [rest0| |] eqn:Er; try discriminate.
    injection Hs as <-. rewrite length_app, (Hf _ _ Ef), (IH _ _ Er). lia.
Qed.

Lemma save_lv_length (m : pls F) a recs : save_lv m a = Ok recs -> length recs = 10.
Proof.
  unfold save_lv. intros Hs.
  repeat match type of Hs with
         | (getitem ?l ?i ≫= _) = _ => destruct (getitem l i); try discriminate; simpl in Hs
         end.
  injection Hs as <-. reflexivity.
Qed.

Lemma save_cv_length (m : pls F) a recs : save_cv m a = Ok recs -> length recs = 3.
Proof.
  unfold save_cv. intros Hs.
  repeat match type of Hs with
         | (getitem ?l ?i ≫= _) = _ => destruct (getitem l i); try discriminate; simpl in Hs
         end.
  injection Hs as <-. reflexivity.
Qed.

End SaveLoadFurther.

(** * Further properties of validation and persistence *)

Section ValidationPersistence.
Context {F : Type} `{Scalar F}.

Lemma LOO_SSY_length nv (Xv : list (list F)) (Yv : list F) A n :
  forall i SSYv, length (LOO_SSY nv Xv Yv A n i SSYv) = length SSYv.
Proof.
  induction n as [|n IH]; intros i SSYv; simpl; [reflexivity|].
  rewrite IH. apply SSY_update_length.
Qed.

(** [validateLOO] on an object that holds well-shaped training data. *)
Lemma validateLOO_run (self : pls F) X0 Y0 nv Xv Yv A (h : store F) :
  X self = Some X0 -> Y self = Some Y0 ->
  h !! X0 = Some (Mat nv Xv) -> rect nv Xv ->
  h !! Y0 = Some (Vec Yv) -> length Yv = length Xv ->
  exists h',
    validateLOO self A h
    = Ok (set_cv self (LOO_SSY nv Xv Yv A (length Xv) 0 (replicate A fzero))
            (map (fun s => fsqrt (s / of_int (length Xv))%sc)
               (LOO_SSY nv Xv Yv A (length Xv) 0 (replicate A fzero)))
            (map (fun s => (fone - s / SS_vec fzero (centered_Y Yv))%sc)
               (LOO_SSY nv Xv Yv A (length Xv) 0 (replicate A fzero)))
            A, h').
Proof.
  intros EX EY HX HR HY Hl.
  destruct (validateLOO_loop_run nv Xv Yv X0 Y0 A (length Xv) HR Hl 0
              (replicate A fzero) h HX HY) as (h' & Hrun & _); [lia|].
  exists h'. unfold validateLOO. rewrite EX, EY.
  run_with (get_mat_run _ _ _ _ HX). run_with (get_vec_run _ _ _ HY).
  rewrite (bind_run _ _ _ _ _ (SSY0_loop_run Yv (length Xv) 0 fzero h ltac:(lia))).
  cbv beta iota zeta.
  run_with Hrun.
  rewrite drop_0, <- Hl, firstn_all. reflexivity.
Qed.

(** X10. [getLOO] on a matrix of [nvarx] columns, a response of as many
    entries as the matrix has rows and a query of [nvarx] entries returns,
    and its predictions are cumulative: entry [a] is the sum, from the
    left, of the contributions [tt*c] of the LVs [0], ..., [a]. *)
Theorem getLOO_predictions_cumulative (X0 Y0 x : loc) (nv : nat) (Xv : list (list F))
    (Yv xv : list F) (A : nat) (h : store F) :
  h !! X0 = Some (Mat nv Xv) -> h !! Y0 = Some (Vec Yv) -> h !! x = Some (Vec xv) ->
  Y0 <> x ->
  rect nv Xv -> length Yv = length Xv -> length xv = nv ->
  exists h',
    getLOO X0 Y0 x A h = Ok (cumulative fzero (contributions A nv Xv Yv xv), h').
Proof.
  intros HX HY Hx Hne HR Hl Hxv.
  destruct (getLOO_loop_run nv A X0 Y0 x Xv Yv xv [] h HX HY Hx Hne HR Hl Hxv)
    as (h' & Hrun).
  exists h'. exact Hrun.
Qed.

(** X11. [validateLOO(A)] on an object that holds well-shaped training
    data returns, whatever [A] is and however few the observations: it
    raises nothing, [Av = A], and the three lists of statistics have [A]
    entries each (they are replaced, not appended to). *)
Theorem validateLOO_returns (self : pls F) (X0 Y0 : loc) (nv : nat)
    (Xv : list (list F)) (Yv : list F) (A : nat) (h : store F) :
  X self = Some X0 -> Y self = Some Y0 ->
  h !! X0 = Some (Mat nv Xv) -> rect nv Xv ->
  h !! Y0 = Some (Vec Yv) -> length Yv = length Xv ->
  exists m h',
    validateLOO self A h = Ok (m, h') /\ Av m = A /\ cv_lengths m A.
Proof.
  intros EX EY HX HR HY Hl.
  destruct (validateLOO_run self X0 Y0 nv Xv Yv A h EX EY HX HR HY Hl) as (h' & Hrun).
  eexists _, h'. split; [exact Hrun|]. split; [reflexivity|].
  unfold cv_lengths. simpl. rewrite !length_map, LOO_SSY_length, length_replicate.
  auto.
Qed.

(** X12. What [validateLOO] stores.  [SSY[a]] is the sum over the
    observations [i] of the squared error of the prediction of [Y[i]] with
    [a+1] LVs by a model of the other observations alone, centered by
    their own means: the in-place deflations of one fold reach neither the
    training data nor the next fold.  [SDEP] is [sqrt(SSY/nobj)], and [Q2]
    is [1 - SSY/SSY0] with [SSY0] the sum of squares of the centered
    response, the number [build] divides by. *)
Theorem validateLOO_folds (self : pls F) (X0 Y0 : loc) (nv : nat)
    (Xv : list (list F)) (Yv : list F) (A : nat) (h h' : store F) (m : pls F) :
  X self = Some X0 -> Y self = Some Y0 ->
  h !! X0 = Some (Mat nv Xv) -> rect nv Xv ->
  h !! Y0 = Some (Vec Yv) -> length Yv = length Xv ->
  validateLOO self A h = Ok (m, h') ->
  SSY m = LOO_SSY nv Xv Yv A (length Xv) 0 (replicate A fzero)
  /\ SDEP m = map (fun s => fsqrt (s / of_int (length Xv))%sc) (SSY m)
  /\ Q2 m = map (fun s => (fone - s / SS_vec fzero (centered_Y Yv))%sc) (SSY m).
Proof.
  intros EX EY HX HR HY Hl Hv.
  destruct (validateLOO_run self X0 Y0 nv Xv Yv A h EX EY HX HR HY Hl) as (h1 & Hrun).
  rewrite Hrun in Hv. injection Hv as <- _. simpl. auto.
Qed.

(** X13. The file [saveModel] writes is positional: six records of header
    ([Am], [Av], [nobj], [nvarx], [mux], [muy]), then ten records for each
    of the [Am] LVs, then three for each of the [Av] validated LVs. *)
Theorem saveModel_layout (m : pls F) (file : list (npy F)) :
  saveModel m = Ok file ->
  take 6 file = header_of m /\ length file = 6 + 10 * Am m + 3 * Av m.
Proof.
  unfold saveModel. intros Hs.
  destruct (save_range (save_lv m) 0 (Am m)) as [lvs| |] eqn:El; try discriminate.
  destruct (save_range (save_cv m) 0 (Av m)) as [cvs| |] eqn:Ec; try discriminate.
  injection Hs as <-. split; [reflexivity|].
  apply (save_range_length _ 10 (save_lv_length m)) in El.
  apply (save_range_length _ 3 (save_cv_length m)) in Ec.
  simpl. rewrite length_app. lia.
Qed.

(** X14. On a file of a fitted model that was cut short, at any record,
    [loadModel] raises.  The exception is the [IOError] of [np.load] at
    the end of the file; unless the object it is called on was left by
    [validateLOO] with an array in [SSY] and the cut falls after the
    records of the LVs: then [self.SSY.append] raises [AttributeError]
    before the file is read further.  (What the object holds by then,
    assigned and appended record by record, is not described here.) *)
Theorem loadModel_truncated_raises (m self : pls F) (file : list (npy F)) (n : nat) :
  fitted m -> saveModel m = Ok file -> n < length file ->
  loadModel self (take n file)
  = Raise (match SSY_type self with
           | NdArray => if 6 + 10 * Am m <=? n then AttributeError else IOError
           | PyList => IOError
           end).
Proof.
  intros Hf Hs Hn. destruct (fitted_lengths m Hf) as [Hlv Hcv].
  destruct (loadModel_reads m self Hlv Hcv) as (file' & Hs' & _ & _ & Hcut).
  rewrite Hs in Hs'. injection Hs' as <-. apply Hcut. exact Hn.
Qed.

(** X15. [loadModel] resets no list.  Called on an object whose [SSY] is
    a list (a new object, one that [build] or [loadModel] has filled), it
    overwrites the counters and the means and appends the artifacts of
    the file to the lists the object already has; the references to
    training arrays stay, and records after those of the model are not
    read.  Called on an object that [validateLOO] has left with an array
    in [SSY], it does the same when the file has no validated LV, and
    otherwise raises [AttributeError] at the first [self.SSY.append]. *)
Theorem loadModel_appends (m self : pls F) (file rest : list (npy F)) :
  fitted m -> saveModel m = Ok file ->
  loadModel self (file ++ rest)
  = match SSY_type self, Av m with
    | NdArray, S _ => Raise AttributeError
    | _, _ => Ok (loaded self m)
    end.
Proof.
  intros Hf Hs. destruct (fitted_lengths m Hf) as [Hlv Hcv].
  destruct (loadModel_reads m self Hlv Hcv) as (file' & Hs' & _ & Hall & _).
  rewrite Hs in Hs'. injection Hs' as <-. apply Hall.
Qed.

(** X16. A fitted model saved and loaded into a new object projects as
    the model itself: for every query, every [A] and every store,
    [project] on the loaded object is [project] on the original. *)
Theorem loaded_model_projects_alike (m : pls F) (file : list (npy F)) :
  fitted m -> saveModel m = Ok file ->
  exists m',
    loadModel __init__ file = Ok m'
    /\ forall x A h, project m' x A h = project m x A h.
Proof.
  intros Hf Hs. destruct (fitted_lengths m Hf) as [Hlv Hcv].
  destruct (roundtrip_of_lengths m Hlv Hcv) as (file' & Hs' & Hld).
  rewrite Hs in Hs'. injection Hs' as <-.
  exists (serialized m). split; [exact Hld|].
  apply project_ext; reflexivity.
Qed.

(** X17. [validateLOO] changes nothing a projection reads: on the object
    it returns, [project] gives what it gave before, for every query,
    every [A] and every store; the fitted artifacts are those of the
    object it was called on. *)
Theorem validateLOO_keeps_projection (m m' : pls F) (A : nat) (h h' : store F) :
  validateLOO m A h = Ok (m', h') ->
  (forall x A' h2, project m' x A' h2 = project m x A' h2)
  /\ Am m' = Am m /\ t m' = t m /\ p m' = p m /\ w m' = w m /\ c m' = c m
  /\ mux m' = mux m /\ muy m' = muy m.
Proof.
  intros Hv.
  assert (Hm : m' = m \/ exists s1 s2 s3 a, m' = set_cv m s1 s2 s3 a).
  { unfold validateLOO in Hv.
    destruct (X m) as [X0|]; [destruct (Y m) as [Y0|]|];
      try (apply ret_Ok in Hv as [-> _]; left; reflexivity).
    apply bind_Ok in Hv as ([nv Xv] & h1 & _ & Hv).
    apply bind_Ok in Hv as (Yv & h2 & _ & Hv).
    apply bind_Ok in Hv as (S0 & h3 & _ & Hv).
    apply bind_Ok in Hv as (SSYv & h4 & _ & Hv).
    apply ret_Ok in Hv as [-> _]. right. do 4 eexists. reflexivity. }
  destruct Hm as [->|(s1 & s2 & s3 & a & ->)].
  - repeat split.
  - split; [apply project_ext; reflexivity|]. simpl. repeat split.
Qed.

End ValidationPersistence.

(** * Properties of [readData] *)

Section ReadDataProofs.
Context {F : Type} `{Scalar F}.
Variable py_int : string -> outcome Z.
Variable py_float : string -> outcome F.

(** Line [k] of the file, the empty string past its end. *)
Lemma readline_drop (file : list string) k :
  readline (drop k file) = Ok (nth k file EmptyString, drop (S k) file).
Proof.
  unfold readline. destruct (file !! k) as [line|] eqn:E.
  - rewrite (drop_S _ _ _ E). rewrite (nth_lookup_Some _ _ _ _ E). reflexivity.
  - apply lookup_ge_None in E. rewrite !drop_ge by lia.
    rewrite nth_overflow by lia. reflexivity.
Qed.

Lemma readData_row_Ok (file : list string) n :
  forall k row rest,
    readData_row py_float n (drop k file) = Ok (row, rest) ->
    length row = n /\ rest = drop (k + n) file
    /\ forall j x, row !! j = Some x ->
         py_float (nth (k + j) file EmptyString) = Ok x.
Proof.
  induction n as [|n IH]; intros k row rest Hr.
  - apply ret_Ok in Hr as [-> ->]. rewrite Nat.add_0_r.
    repeat split. intros j x Hj. rewrite lookup_nil in Hj. discriminate.
  - simpl in Hr. rewrite (bind_run _ _ _ _ _ (readline_drop file k)) in Hr.
    apply bind_Ok in Hr as (x0 & f1 & Hx & Hr). apply lift_Ok in Hx as [Hx ->].
    apply bind_Ok in Hr as (row' & f2 & Hrow & Hr).
    apply ret_Ok in Hr as [-> ->].
    apply IH in Hrow as (Ll & -> & Hent).
    split; [simpl; lia|]. split; [f_equal; lia|].
    intros [|j] x Hj; simpl in Hj.
    + injection Hj as <-. rewrite Nat.add_0_r. exact Hx.
    + replace (k + S j) with (S k + j) by lia. apply Hent. exact Hj.
Qed.

Lemma readData_loop_Ok (file : list string) ncols n :
  forall k Xv Yv rest,
    readData_loop py_float n ncols (drop k file) = Ok ((Xv, Yv), rest) ->
    length Xv = n /\ length Yv = n /\ rect ncols Xv
    /\ rest = drop (k + n * (ncols + 3)) file
    /\ (forall i row j x, Xv !! i = Some row -> row !! j = Some x ->
          py_float (nth (k + i * (ncols + 3) + 2 + j) file EmptyString) = Ok x)
    /\ (forall i y, Yv !! i = Some y ->
          py_float (nth (k + i * (ncols + 3) + 2 + ncols) file EmptyString) = Ok y).
Proof.
  induction n as [|n IH]; intros k Xv Yv rest Hr.
  - apply ret_Ok in Hr as [[= -> ->] ->]. rewrite Nat.add_0_r.
    repeat split; try constructor.
    + intros i row j x Hi. rewrite lookup_nil in Hi. discriminate.
    + intros i y Hi. rewrite lookup_nil in Hi. discriminate.
  - simpl in Hr.
    rewrite (bind_run _ _ _ _ _ (readline_drop file k)) in Hr.
    rewrite (bind_run _ _ _ _ _ (readline_drop file (S k))) in Hr.
    apply bind_Ok in Hr as (row & f1 & Hrow & Hr).
    apply readData_row_Ok in Hrow as (Lrow & -> & Hent).
    rewrite (bind_run _ _ _ _ _ (readline_drop file (S (S k) + ncols))) in Hr.
    apply bind_Ok in Hr as (y0 & f2 & Hy & Hr). apply lift_Ok in Hy as [Hy ->].
    apply bind_Ok in Hr as ([Xv' Yv'] & f3 & Hloop & Hr).
    apply ret_Ok in Hr as [[= -> ->] ->].
    apply IH in Hloop as (LX & LY & HR & -> & HXe & HYe).
    split; [simpl; lia|]. split; [simpl; lia|].
    split; [constructor; assumption|].
    split; [f_equal; lia|]. split.
    + intros [|i] row' j x Hi Hj; simpl in Hi.
      * injection Hi as <-. specialize (Hent j x Hj).
        replace (k + 0 * (ncols + 3) + 2 + j) with (S (S k) + j) by lia. exact Hent.
      * specialize (HXe i row' j x Hi Hj).
        replace (k + S i * (ncols + 3) + 2 + j)
          with (S (S (S k) + ncols) + i * (ncols + 3) + 2 + j) by lia.
        exact HXe.
    + intros [|i] y Hi; simpl in Hi.
      * injection Hi as <-.
        replace (k + 0 * (ncols + 3) + 2 + ncols) with (S (S k) + ncols) by lia. exact Hy.
      * specialize (HYe i y Hi).
        replace (k + S i * (ncols + 3) + 2 + ncols)
          with (S (S (S k) + ncols) + i * (ncols + 3) + 2 + ncols) by lia.
        exact HYe.
Qed.

(** What [readData] makes of the lines of a file, when it returns. *)
Lemma readData_lines_Ok (file : list string) ncols Xv Yv rest :
  readData_lines py_int py_float file = Ok ((ncols, Xv, Yv), rest) ->
  py_int (nth 1 file EmptyString) = Ok (Z.of_nat ncols + 1)%Z
  /\ py_int (nth 2 file EmptyString) = Ok (Z.of_nat (length Xv))
  /\ rect ncols Xv /\ length Yv = length Xv
  /\ (forall i row j x, Xv !! i = Some row -> row !! j = Some x ->
        py_float (nth (line_of_X ncols i j) file EmptyString) = Ok x)
  /\ (forall i y, Yv !! i = Some y ->
        py_float (nth (line_of_Y ncols i) file EmptyString) = Ok y)
  /\ rest = drop (3 + length Xv * (ncols + 3)) file.
Proof.
  intros Hr. unfold readData_lines in Hr.
  rewrite <- (drop_0 file) in Hr at 1.
  rewrite (bind_run _ _ _ _ _ (readline_drop file 0)) in Hr.
  rewrite (bind_run _ _ _ _ _ (readline_drop file 1)) in Hr.
  apply bind_Ok in Hr as (nvar & f1 & Hnvar & Hr). apply lift_Ok in Hnvar as [Hnvar ->].
  rewrite (bind_run _ _ _ _ _ (readline_drop file 2)) in Hr.
  apply bind_Ok in Hr as (nobj' & f2 & Hnobj & Hr). apply lift_Ok in Hnobj as [Hnobj ->].
  destruct ((nobj' <? 0)%Z || (nvar - 1 <? 0)%Z) eqn:Eneg; [discriminate|].
  apply orb_false_iff in Eneg as [En1 En2].
  apply Z.ltb_ge in En1, En2.
  cbv zeta in Hr.
  apply bind_Ok in Hr as ([Xv' Yv'] & f3 & Hloop & Hr).
  apply ret_Ok in Hr as [[= -> -> ->] ->].
  apply readData_loop_Ok in Hloop as (LX & LY & HR & -> & HXe & HYe).
  split; [rewrite Hnvar; f_equal; lia|].
  split; [rewrite Hnobj, LX; f_equal; lia|].
  split; [exact HR|]. split; [lia|].
  split; [exact HXe|]. split; [exact HYe|].
  rewrite LX. reflexivity.
Qed.

End ReadDataProofs.

(** * Further properties of the kernels *)

Section KernelsFurther.
Context {F : Type} `{Scalar F}.

Lemma val_py_add (a b : pyfloat F) : val (py_add a b) = (val a + val b)%sc.
Proof. destruct a, b; reflexivity. Qed.

Lemma computeSS_loop_sum (Xv : list (list F)) :
  forall (Yv : list F) sx sy d sx' sy' d',
    computeSS_loop Xv Yv sx sy d = Ok (sx', sy', d') ->
    val sx = fold_left fadd d fzero ->
    val sx' = fold_left fadd d' fzero /\ length d' = length d + length Xv.
Proof.
  induction Xv as [|row Xv IH]; intros Yv sx sy d sx' sy' d' Hs Hsum.
  - injection Hs as <- _ <-. split; [exact Hsum|simpl; lia].
  - destruct Yv as [|Yi Yv]; [discriminate|].
    rewrite computeSS_loop_step in Hs. apply IH in Hs as [Hs Hlen].
    + split; [exact Hs|]. rewrite length_app in Hlen. simpl in *. lia.
    + rewrite val_py_add, fold_left_app, Hsum. reflexivity.
Qed.

Lemma last_cons_default (l : list F) :
  forall a d, List.last (a :: l) d = List.last l a.
Proof.
  induction l as [|y l IH]; intros a d; [reflexivity|].
  change (List.last (a :: y :: l) d) with (List.last (y :: l) d).
  rewrite !IH. reflexivity.
Qed.

Lemma cumulative_snoc (l : list F) :
  forall acc s,
    cumulative acc (l ++ [s])
    = cumulative acc l ++ [(List.last (cumulative acc l) acc + s)%sc].
Proof.
  induction l as [|x l IH]; intros acc s; [reflexivity|].
  change (cumulative acc ((x :: l) ++ [s]))
    with ((acc + x)%sc :: cumulative (acc + x)%sc (l ++ [s])).
  change (cumulative acc (x :: l)) with ((acc + x)%sc :: cumulative (acc + x)%sc l).
  rewrite IH, last_cons_default. reflexivity.
Qed.

(** What one pass of [build] appends to the four lists of explained
    variance. *)
Lemma build_body_explained nobj nv SSX0 SSY0 v v' (h h' : store F) :
  build_body nobj nv SSX0 SSY0 v h = Ok (v', h') ->
  exists ex ey,
    SSXex (b_self v') = SSXex (b_self v) ++ [ex]
    /\ SSXac (b_self v') = SSXac (b_self v) ++ [(val (b_SSXac v) + ex)%sc]
    /\ val (b_SSXac v') = (val (b_SSXac v) + ex)%sc
    /\ SSYex (b_self v') = SSYex (b_self v) ++ [ey]
    /\ SSYac (b_self v') = SSYac (b_self v) ++ [(val (b_SSYac v) + ey)%sc]
    /\ val (b_SSYac v') = (val (b_SSYac v) + ey)%sc.
Proof.
  intros Hb. unfold build_body in Hb.
  apply bind_Ok in Hb as ([[[t0 p0] w0] c0] & h1 & _ & Hb).
  apply bind_Ok in Hb as ([X1 Y1] & h2 & _ & Hb).
  apply bind_Ok in Hb as ([[SSXnew SSYnew] d] & h3 & _ & Hb).
  apply bind_Ok in Hb as (SSXex' & h4 & _ & Hb).
  apply bind_Ok in Hb as (SSYex' & h5 & _ & Hb).
  apply bind_Ok in Hb as (q & h6 & _ & Hb).
  apply ret_Ok in Hb as [-> _]. simpl.
  exists (val SSXex'), (val SSYex'). rewrite !val_py_add. repeat split.
Qed.

End KernelsFurther.

Section KernelsReadData.
Context {F : Type} `{Scalar F}.

(** X18. [extractLV] applies no deflation: it leaves the store as it is,
    and returns scores of [nobj] entries and loadings and weights of
    [nvarx] entries. *)
Theorem extractLV_reads_only (X0 Y0 : loc) (nv : nat) (Xv : list (list F))
    (h h' : store F) (t0 p0 w0 : list F) (c0 : F) :
  h !! X0 = Some (Mat nv Xv) ->
  extractLV X0 Y0 h = Ok ((t0, p0, w0, c0), h') ->
  h' = h /\ length t0 = length Xv /\ length p0 = nv /\ length w0 = nv.
Proof.
  intros HX He. pose proof (extractLV_reads _ _ _ _ _ He) as ->.
  split; [reflexivity|].
  unfold extractLV in He.
  rewrite (bind_run _ _ _ _ _ (get_mat_run _ _ _ _ HX)) in He. cbv beta iota zeta in He.
  apply bind_Ok in He as (Yv & h1 & _ & He).
  destruct (Nat.eqb (length Yv) (length Xv)); [|discriminate].
  apply ret_Ok in He as [He _]. symmetry in He.
  apply extractLV_of_lengths in He. exact He.
Qed.

(** X19. [computeSS] reads only, returns one distance per observation, and
    its [SSX] is the sum, from the left, of those distances. *)
Theorem computeSS_sums_distances (X0 Y0 : loc) (nv : nat) (Xv : list (list F))
    (h h' : store F) (SSX1 SSY1 : pyfloat F) (d : list F) :
  h !! X0 = Some (Mat nv Xv) ->
  computeSS X0 Y0 h = Ok ((SSX1, SSY1, d), h') ->
  h' = h /\ length d = length Xv /\ val SSX1 = fold_left fadd d fzero.
Proof.
  intros HX Hc. pose proof (computeSS_reads _ _ _ _ _ Hc) as ->.
  split; [reflexivity|].
  unfold computeSS in Hc.
  rewrite (bind_run _ _ _ _ _ (get_mat_run _ _ _ _ HX)) in Hc. cbv beta iota zeta in Hc.
  apply bind_Ok in Hc as (Yv & h1 & _ & Hc). apply lift_Ok in Hc as [Hc _].
  apply computeSS_loop_sum in Hc as [Hs Hl]; [|reflexivity].
  split; [exact Hl|exact Hs].
Qed.

(** X20. [deflateLV] works in place: it returns the two references it was
    given, allocates nothing, and changes no array but those two. *)
Theorem deflateLV_in_place (X0 Y0 : loc) (t0 p0 : list F) (c0 : F) (h h' : store F)
    (r : loc * loc) :
  deflateLV X0 Y0 t0 p0 c0 h = Ok (r, h') ->
  r = (X0, Y0) /\ length h' = length h
  /\ forall l, l <> X0 -> l <> Y0 -> h' !! l = h !! l.
Proof.
  intros Hd. unfold deflateLV in Hd. run_inv.
  split; [reflexivity|]. split; [rewrite !length_insert; reflexivity|].
  intros k HkX HkY. rewrite !list_lookup_insert_ne by congruence. reflexivity.
Qed.

(** X21. The accumulated variances [build] stores on a new object are the
    running sums of the explained ones, each added from the left to the
    sum before it, from [0.0]: [SSXac[a] = SSXac[a-1] + SSXex[a]], and the
    same for [SSYac] and [SSYex]. *)
Theorem build_accumulates_explained (X0 Y0 : loc) (targetA : nat) (targetSSX : F)
    (fuel : nat) (h h' : store F) (m : pls F) :
  build __init__ X0 Y0 targetA targetSSX fuel h = Ok (m, h') ->
  SSXac m = cumulative fzero (SSXex m) /\ SSYac m = cumulative fzero (SSYex m).
Proof.
  intros Hb. unfold build in Hb.
  apply bind_Ok in Hb as ([nv Xv] & h1 & _ & Hb).
  apply bind_Ok in Hb as ([Xc mu] & h2 & _ & Hb).
  apply bind_Ok in Hb as ([Yc mu1] & h3 & _ & Hb).
  apply bind_Ok in Hb as ([[SSX0 SSY0] d] & h4 & _ & Hb).
  apply bind_Ok in Hb as (v & h5 & Hl & Hb).
  apply ret_Ok in Hb as [-> _].
  apply (build_loop_inv
           (fun v _ =>
              SSXac (b_self v) = cumulative fzero (SSXex (b_self v))
              /\ val (b_SSXac v) = List.last (SSXac (b_self v)) fzero
              /\ SSYac (b_self v) = cumulative fzero (SSYex (b_self v))
              /\ val (b_SSYac v) = List.last (SSYac (b_self v)) fzero)) in Hl.
  - destruct Hl as (HX & _ & HY & _). simpl. split; assumption.
  - intros v0 hh v1 h1' (HX & HXl & HY & HYl) Hbody.
    apply build_body_explained in Hbody as (ex & ey & E1 & E2 & E3 & E4 & E5 & E6).
    rewrite E1, E2, E3, E4, E5, E6, !cumulative_snoc, !last_last.
    rewrite <- HX, <- HY, <- HXl, <- HYl. repeat split.
  - simpl. repeat split.
Qed.

(** X22. What [readData] returns, when it returns: two new arrays, [X] of
    [nvar - 1] columns and [nobj] rows and [Y] of [nobj] entries, [nvar]
    and [nobj] being the numbers on lines 1 and 2 of the file; entry
    [X[i,j]] is the number on line [3 + i*(nvar+2) + 2 + j] and [Y[i]] the
    number on the line after those of [X[i,:]].  Line 0 and the two lines
    before the values of each object are not parsed. *)
Theorem readData_positional (py_int : string -> outcome Z)
    (py_float : string -> outcome F) (file : list string) (h h' : store F)
    (X0 Y0 : loc) :
  readData py_int py_float file h = Ok ((X0, Y0), h') ->
  exists ncols Xv Yv,
    X0 = length h /\ Y0 = length h + 1
    /\ h' = h ++ [Mat ncols Xv; Vec Yv]
    /\ py_int (nth 1 file EmptyString) = Ok (Z.of_nat ncols + 1)%Z
    /\ py_int (nth 2 file EmptyString) = Ok (Z.of_nat (length Xv))
    /\ rect ncols Xv /\ length Yv = length Xv
    /\ (forall i row j x, Xv !! i = Some row -> row !! j = Some x ->
          py_float (nth (line_of_X ncols i j) file EmptyString) = Ok x)
    /\ (forall i y, Yv !! i = Some y ->
          py_float (nth (line_of_Y ncols i) file EmptyString) = Ok y).
Proof.
  intros Hr. unfold readData in Hr.
  apply bind_Ok in Hr as ([[[ncols Xv] Yv] rest] & h1 & Hl & Hr).
  apply lift_Ok in Hl as [Hl ->].
  apply readData_lines_Ok in Hl as (H1 & H2 & HR & HL & HXe & HYe & _).
  cbv beta iota zeta in Hr. run_inv.
  exists ncols, Xv, Yv. rewrite length_app. simpl.
  split; [reflexivity|]. split; [reflexivity|].
  split; [rewrite <- app_assoc; reflexivity|].
  repeat split; assumption.
Qed.

(** X23. [readData] returns only when the file has every line its header
    announces ([int('')] and [float('')] raise): a file cut short is not
    read as a smaller data set. *)
Theorem readData_needs_every_line (py_int : string -> outcome Z)
    (py_float : string -> outcome F) (file : list string) (h h' : store F)
    (X0 Y0 : loc) :
  py_int EmptyString = Raise ValueError ->
  py_float EmptyString = Raise ValueError ->
  readData py_int py_float file h = Ok ((X0, Y0), h') ->
  exists ncols Xv,
    h' !! X0 = Some (Mat ncols Xv)
    /\ 3 + length Xv * (ncols + 3) <= length file.
Proof.
  intros Hi Hf Hr. unfold readData in Hr.
  apply bind_Ok in Hr as ([[[ncols Xv] Yv] rest] & h1 & Hl & Hr).
  apply lift_Ok in Hl as [Hl ->].
  apply readData_lines_Ok in Hl as (_ & H2 & _ & HL & _ & HYe & _).
  cbv beta iota zeta in Hr. run_inv.
  exists ncols, Xv. split.
  - rewrite lookup_app_l by (rewrite length_app; simpl; lia).
    apply list_lookup_middle. reflexivity.
  - destruct (decide (3 + length Xv * (ncols + 3) <= length file)) as [Hle|Hgt];
      [exact Hle|exfalso].
    destruct (length Xv) as [|n] eqn:En.
    + rewrite nth_overflow in H2 by lia. congruence.
    + destruct (lookup_lt_is_Some_2 Yv n) as [y Hy]; [lia|].
      specialize (HYe n y Hy). unfold line_of_Y in HYe.
      rewrite nth_overflow in HYe by lia. congruence.
Qed.

(** X24. What [readData] returns is training data [build] accepts: when
    the file holds at least one object, [build(X, Y, targetA=k)] on a new
    object returns with [Am = k], [nobj] and [nvarx] being those of the
    file. *)
Theorem readData_then_build (py_int : string -> outcome Z)
    (py_float : string -> outcome F) (file : list string) (h h1 : store F)
    (X0 Y0 : loc) (nv : nat) (Xv : list (list F)) (k fuel : nat) :
  fgtb (fzero : F) fzero = false ->
  readData py_int py_float file h = Ok ((X0, Y0), h1) ->
  h1 !! X0 = Some (Mat nv Xv) -> 0 < length Xv ->
  1 <= k -> k <= fuel ->
  exists m h',
    build __init__ X0 Y0 k fzero fuel h1 = Ok (m, h')
    /\ Am m = k /\ lv_lengths m k /\ nobj m = length Xv /\ nvarx m = nv.
Proof.
  intros H0 Hr HX Hn Hk Hf. unfold readData in Hr.
  apply bind_Ok in Hr as ([[[ncols Xv'] Yv] rest] & h2 & Hl & Hr).
  apply lift_Ok in Hl as [Hl ->].
  apply readData_lines_Ok in Hl as (_ & _ & HR & HL & _).
  cbv beta iota zeta in Hr. run_inv.
  assert (HX' : ((h ++ [Mat ncols Xv']) ++ [Vec Yv]) !! length h = Some (Mat ncols Xv')).
  { rewrite lookup_app_l by (rewrite length_app; simpl; lia).
    apply list_lookup_middle. reflexivity. }
  pose proof (eq_trans (eq_sym HX') HX) as E. injection E as -> ->.
  assert (HY : ((h ++ [Mat nv Xv]) ++ [Vec Yv]) !! length (h ++ [Mat nv Xv])
               = Some (Vec Yv)) by (apply list_lookup_middle; reflexivity).
  destruct (build_targetA_run
              (fun v _ _ =>
                 lv_lengths (b_self v) (b_a v)
                 /\ nobj (b_self v) = length Xv /\ nvarx (b_self v) = nv)
              __init__ _ _ nv Xv Yv k fuel _ H0 HX' HR Hn HY HL Hk Hf)
    as (v' & h' & _ & _ & Hb & Ha & Hlen & Hno & Hnv).
  - unfold build_start, lv_lengths. simpl. repeat split.
  - intros v Xv1 Yv1 v1 Xv2 Yv2 (Hlen & Hno & Hnv) E. unfold build_body_of in E.
    destruct (extractLV_of nv Xv1 Yv1) as [[[t0 p0] w0] c0].
    injection E as <- _ _. simpl.
    split; [apply lv_lengths_append; exact Hlen|]. split; assumption.
  - exists (set_Am (b_self v') (b_a v')), h'. split; [exact Hb|].
    split; [exact Ha|]. split; [rewrite <- Ha; exact Hlen|]. split; assumption.
Qed.

End KernelsReadData.

(** * Further properties in exact arithmetic *)

Section ExactFurther.
Local Open Scope R_scope.

Lemma nth_vsub (a b : list R) j :
  length a = length b -> nth j (vsub a b) 0 = nth j a 0 - nth j b 0.
Proof.
  revert b j. induction a as [|x a IH]; intros [|y b] j Hl; try discriminate.
  - destruct j; simpl; lra.
  - destruct j as [|j]; simpl; [reflexivity|]. apply IH. simpl in Hl. lia.
Qed.

Lemma nth_scale (s : R) (v : list R) j : nth j (scale s v) 0 = nth j v 0 * s.
Proof.
  revert j. induction v as [|x v IH]; intros [|j]; simpl; try lra. apply IH.
Qed.

Lemma nth_map_seq (f : nat -> R) n j :
  (j < n)%nat -> nth j (map f (seq 0 n)) 0 = f j.
Proof.
  intros Hj. rewrite (nth_indep _ 0 (f 0%nat)) by (rewrite length_map, length_seq; exact Hj).
  rewrite (map_nth f (seq 0 n) 0%nat j), seq_nth by exact Hj. reflexivity.
Qed.

(** Column [j] of a deflated matrix. *)
Lemma column_deflated nv (Xv : list (list R)) (t0 p0 : list R) j :
  rect nv Xv -> length p0 = nv -> length t0 = length Xv ->
  column (deflated_X Xv t0 p0) j
  = zip_with (fun x ti => x - ti * nth j p0 0) (column Xv j) t0.
Proof.
  intros HR Hp. revert t0. induction HR as [|row Xv Hrow HR IH]; intros [|ti t0] Ht;
    try discriminate; [reflexivity|].
  change (deflated_X (row :: Xv) (ti :: t0) p0)
    with (vsub row (scale ti p0) :: deflated_X Xv t0 p0).
  unfold column at 1 2. rewrite !map_cons. fold (column (deflated_X Xv t0 p0) j).
  fold (column Xv j). rewrite IH by (simpl in Ht; lia).
  rewrite nth_vsub by (rewrite scale_length; lia). rewrite nth_scale.
  simpl. f_equal. lra.
Qed.

Lemma dot_zip_sub (col t0 : list R) (pj : R) :
  length col = length t0 ->
  forall ta,
    dot ta (zip_with (fun x ti => x - ti * pj) col t0)
    = dot ta col - pj * dot ta t0.
Proof.
  revert t0. induction col as [|x col IH]; intros [|ti t0] Hl ta; try discriminate.
  - simpl. rewrite !dot_nil_r. lra.
  - destruct ta as [|a ta]; [rewrite !dot_nil_l; lra|].
    simpl zip_with. rewrite !dot_cons, IH by (simpl in Hl; lia). lra.
Qed.

(** The dot product of a vector with the scores [X w]. *)
Lemma dot_scores nv (Xv : list (list R)) (ta w0 : list R) :
  rect nv Xv -> length ta = length Xv ->
  dot ta (map (fun row => dot w0 row) Xv)
  = dot (map (fun j => dot ta (column Xv j)) (seq 0 nv)) w0.
Proof.
  intros HR Hl. rewrite <- (dot_rows_columns nv Xv ta w0 HR Hl).
  f_equal. apply map_ext. intros row. apply dot_comm.
Qed.

Lemma pairwise_orthogonal_snoc (ts : list (list R)) (t0 : list R) :
  pairwise_orthogonal ts -> Forall (fun ta => dot ta t0 = 0) ts ->
  pairwise_orthogonal (ts ++ [t0]).
Proof.
  intros Hts Hnew a b ta tb Hab Ha Hb.
  assert (Hblt : (b < length (ts ++ [t0]))%nat) by (eapply lookup_lt_Some; exact Hb).
  rewrite length_app in Hblt. simpl in Hblt.
  rewrite lookup_app_l in Ha by lia.
  destruct (decide (b < length ts)%nat) as [Hlt|Hge].
  - rewrite lookup_app_l in Hb by lia. exact (Hts a b ta tb Hab Ha Hb).
  - rewrite lookup_app_r in Hb by lia.
    replace (b - length ts)%nat with 0%nat in Hb by lia. injection Hb as <-.
    rewrite Forall_forall in Hnew. apply Hnew. apply list_elem_of_lookup. exists a. exact Ha.
Qed.

(** One pass of [build] in exact arithmetic: the new scores are orthogonal
    to every vector that is orthogonal to the columns of the working
    matrix, and the columns of the deflated matrix are orthogonal to the
    new scores and to those vectors. *)
Lemma deflation_orthogonal nv (Xv : list (list R)) (Yv : list R) t0 p0 w0 c0 :
  rect nv Xv ->
  extractLV_of nv Xv Yv = (t0, p0, w0, c0) ->
  (forall ta,
     length ta = length Xv ->
     (forall j, (j < nv)%nat -> dot ta (column Xv j) = 0) ->
     dot ta t0 = 0
     /\ forall j, (j < nv)%nat -> dot ta (column (deflated_X Xv t0 p0) j) = 0)
  /\ forall j, (j < nv)%nat -> dot t0 (column (deflated_X Xv t0 p0) j) = 0.
Proof.
  intros HR EL.
  destruct (extractLV_of_lengths _ _ _ _ _ _ _ EL) as (Lt & Lp & Lw).
  assert (Ht : t0 = map (fun row => dot w0 row) Xv).
  { unfold extractLV_of in EL. injection EL as <- _ <- _. reflexivity. }
  assert (Hp : p0 = map (fun j => dot t0 (column Xv j) / dot t0 t0) (seq 0 nv)).
  { unfold extractLV_of in EL. injection EL as <- <- _ _. reflexivity. }
  assert (Lcol : forall j, length (column Xv j) = length t0).
  { intros j. unfold column. rewrite length_map. lia. }
  split.
  - intros ta Lta Hcols.
    assert (Hta0 : dot ta t0 = 0).
    { rewrite Ht, (dot_scores nv) by assumption. apply dot_zero_l.
      rewrite Forall_map. apply Forall_forall. intros j Hj.
      apply Hcols. apply list_elem_of_In, in_seq in Hj. lia. }
    split; [exact Hta0|]. intros j Hj.
    rewrite (column_deflated nv) by assumption.
    rewrite dot_zip_sub by apply Lcol. rewrite Hta0, (Hcols j Hj). lra.
  - intros j Hj. rewrite (column_deflated nv) by assumption.
    rewrite dot_zip_sub by apply Lcol.
    destruct (Req_dec (dot t0 t0) 0) as [E|NE].
    + rewrite E. rewrite (dot_zero_l t0) by (apply dot_self_zero; exact E). lra.
    + rewrite Hp, nth_map_seq by exact Hj. field. exact NE.
Qed.

Lemma column_centered nv (Xv : list (list R)) (mu : list R) j :
  rect nv Xv -> length mu = nv ->
  column (map (fun row => vsub row mu) Xv) j
  = map (fun y => y - nth j mu 0) (column Xv j).
Proof.
  intros HR Hmu. induction HR as [|row Xv Hrow HR IH]; [reflexivity|].
  unfold column in *. rewrite !map_cons. f_equal; [|exact IH].
  apply nth_vsub. lia.
Qed.

Lemma fsum_acc (l : list R) (acc : R) : fold_left Rplus l acc = acc + fsum l.
Proof.
  unfold fsum. revert acc. induction l as [|x l IH]; intros acc; simpl; [lra|].
  rewrite IH, (IH (0 + x)). lra.
Qed.

Lemma fsum_cons (x : R) (l : list R) : fsum (x :: l) = x + fsum l.
Proof. unfold fsum at 1. simpl. rewrite fsum_acc. lra. Qed.

Lemma fsum_map_sub (l : list R) (mu : R) :
  fsum (map (fun y => y - mu) l) = fsum l - INR (length l) * mu.
Proof.
  induction l as [|x l IH]; [unfold fsum; simpl; lra|].
  rewrite map_cons, !fsum_cons, IH.
  change (length (x :: l)) with (S (length l)). rewrite S_INR. lra.
Qed.

Lemma fsum_centered (l : list R) :
  (0 < length l)%nat -> fsum (map (fun y => y - fsum l / INR (length l)) l) = 0.
Proof.
  intros Hn. rewrite fsum_map_sub. field. apply not_0_INR. lia.
Qed.

(** X25. Read in exact arithmetic, the scores of a model that [build]
    returned are orthogonal to one another: [t[a] . t[b] = 0] for
    [a <> b]. *)
Theorem scores_orthogonal_exact (X0 Y0 : loc) (nv : nat) (Xv : list (list R))
    (Yv : list R) (targetA : nat) (targetSSX : R) (fuel : nat) (h h' : store R)
    (m : pls R) :
  h !! X0 = Some (Mat nv Xv) -> rect nv Xv -> (0 < length Xv)%nat ->
  h !! Y0 = Some (Vec Yv) -> length Yv = length Xv ->
  build __init__ X0 Y0 targetA targetSSX fuel h = Ok (m, h') ->
  pairwise_orthogonal (t m).
Proof.
  intros HX HR Hn HY Hl Hb.
  destruct (build_run_inv
              (fun v Xv' _ =>
                 Forall (fun ta => length ta = length Xv
                                   /\ forall j, (j < nv)%nat -> dot ta (column Xv' j) = 0)
                   (t (b_self v))
                 /\ pairwise_orthogonal (t (b_self v)))
              __init__ X0 Y0 nv Xv Yv targetA targetSSX fuel h h' m HX HR Hn HY Hl)
    as (v' & Xf & Yf & -> & _ & Hort); [| |exact Hb|exact Hort].
  - unfold build_start. simpl. split; [constructor|].
    intros a b ta tb _ Ha. rewrite lookup_nil in Ha. discriminate.
  - intros v Xv' Yv' v1 Xv1 Yv1 (Hall & Hort) HR' HL' _ E.
    unfold build_body_of in E.
    destruct (extractLV_of nv Xv' Yv') as [[[t0 p0] w0] c0] eqn:EL.
    destruct (extractLV_of_lengths _ _ _ _ _ _ _ EL) as (Lt & _).
    destruct (deflation_orthogonal nv Xv' Yv' t0 p0 w0 c0 HR' EL) as (Hold & Hnew).
    injection E as <- <- _. simpl. split.
    + apply Forall_app. split.
      * eapply Forall_impl; [exact Hall|]. intros ta (Lta & Hcols).
        split; [exact Lta|]. apply Hold; [lia|exact Hcols].
      * constructor; [|constructor]. split; [lia|exact Hnew].
    + apply pairwise_orthogonal_snoc; [exact Hort|].
      eapply Forall_impl; [exact Hall|]. intros ta (Lta & Hcols).
      apply Hold; [lia|exact Hcols].
Qed.

(** X26. Read in exact arithmetic, [center] on a matrix of at least one
    row returns a new matrix each of whose columns sums to zero, and the
    matrix it was given is what it was. *)
Theorem center_columns_sum_zero_exact (X0 : loc) (nv : nat) (Xv : list (list R))
    (h h' : store R) (Xc : loc) (mu : list R) :
  h !! X0 = Some (Mat nv Xv) -> rect nv Xv -> (0 < length Xv)%nat ->
  center X0 h = Ok ((Xc, mu), h') ->
  h' !! X0 = Some (Mat nv Xv)
  /\ exists Xcv,
       h' !! Xc = Some (Mat nv Xcv)
       /\ forall j, (j < nv)%nat -> fsum (column Xcv j) = 0.
Proof.
  intros HX HR Hn Hc. rewrite (center_run _ _ _ _ HX) in Hc.
  injection Hc as <- <- <-.
  split; [rewrite lookup_app_l; [exact HX|eapply lookup_lt_Some; exact HX]|].
  eexists. split; [apply list_lookup_middle; reflexivity|].
  intros j Hj.
  assert (Lmu : length (mean0 nv Xv) = nv)
    by (unfold mean0; rewrite length_map, length_seq; reflexivity).
  rewrite (column_centered nv Xv _ j HR Lmu).
  unfold mean0. rewrite (nth_map_seq _ nv j Hj).
  replace (length Xv) with (length (column Xv j)) by (unfold column; apply length_map).
  apply fsum_centered. unfold column. rewrite length_map. exact Hn.
Qed.

(** X27. Read in exact arithmetic, [center] on a vector of at least one
    entry (the response) returns a new vector that sums to zero, and the
    vector it was given is what it was. *)
Theorem center_response_sums_zero_exact (Y0 : loc) (Yv : list R) (h h' : store R)
    (Yc : loc) (mu : R) :
  h !! Y0 = Some (Vec Yv) -> (0 < length Yv)%nat ->
  center1 Y0 h = Ok ((Yc, mu), h') ->
  h' !! Y0 = Some (Vec Yv)
  /\ exists Ycv, h' !! Yc = Some (Vec Ycv) /\ fsum Ycv = 0.
Proof.
  intros HY Hn Hc. rewrite (center1_run _ _ _ HY) in Hc.
  injection Hc as <- <- <-.
  split; [rewrite lookup_app_l; [exact HY|eapply lookup_lt_Some; exact HY]|].
  eexists. split; [apply list_lookup_middle; reflexivity|].
  unfold mean. apply fsum_centered. exact Hn.
Qed.

End ExactFurther.

(** * The fit as a function of the data, and projections of training
      observations *)

Section Consistency.
Context {F : Type} `{Scalar F}.

Lemma residual_S a nv (Xc : list (list F)) (Yc : list F) :
  residual (a + 1) nv Xc Yc = deflate_once nv (residual a nv Xc Yc).
Proof. rewrite Nat.add_1_r. reflexivity. Qed.

Lemma residual_shape nv (Xc : list (list F)) (Yc : list F) a :
  rect nv Xc -> length Yc = length Xc ->
  rect nv (fst (residual a nv Xc Yc))
  /\ length (fst (residual a nv Xc Yc)) = length Xc
  /\ length (snd (residual a nv Xc Yc)) = length Xc.
Proof.
  intros HR Hl. induction a as [|a (IR & IX & IY)]; [simpl; auto|].
  change (residual (S a) nv Xc Yc) with (deflate_once nv (residual a nv Xc Yc)).
  unfold deflate_once.
  destruct (extractLV_of nv (fst (residual a nv Xc Yc)) (snd (residual a nv Xc Yc)))
    as [[[t0 p0] w0] c0] eqn:EL.
  destruct (extractLV_of_lengths _ _ _ _ _ _ _ EL) as (Lt & Lp & Lw).
  simpl. split; [apply deflated_X_rect; assumption|].
  unfold deflated_X, deflated_Y. rewrite !zip_with_length_same; lia.
Qed.

(** What [build] stores on a new object, LV by LV. *)
Lemma build_lvs X0 Y0 nv Xv Yv tA tS fuel (h h' : store F) m :
  h !! X0 = Some (Mat nv Xv) -> rect nv Xv -> 0 < length Xv ->
  h !! Y0 = Some (Vec Yv) -> length Yv = length Xv ->
  build __init__ X0 Y0 tA tS fuel h = Ok (m, h') ->
  forall a, a < Am m -> stores_lv m a nv (centered_X nv Xv) (centered_Y Yv).
Proof.
  intros HX HR Hn HY Hl Hb.
  set (Xc := centered_X nv Xv). set (Yc := centered_Y Yv).
  destruct (build_run_inv
              (fun v Xv' Yv' =>
                 residual (b_a v) nv Xc Yc = (Xv', Yv')
                 /\ lv_lengths (b_self v) (b_a v)
                 /\ forall a, a < b_a v -> stores_lv (b_self v) a nv Xc Yc)
              __init__ X0 Y0 nv Xv Yv tA tS fuel h h' m HX HR Hn HY Hl)
    as (v' & Xf & Yf & -> & _ & _ & Hall); [| |exact Hb|].
  - unfold build_start. simpl. split; [reflexivity|].
    split; [unfold lv_lengths; simpl; repeat split|]. intros a Ha. lia.
  - intros v Xv' Yv' v1 Xv1 Yv1 (Hres & Hlen & Hall) _ _ _ E.
    unfold build_body_of in E.
    destruct (extractLV_of nv Xv' Yv') as [[[t0 p0] w0] c0] eqn:EL.
    injection E as <- <- <-. simpl b_a. simpl b_self.
    assert (Hres1 : residual (b_a v + 1) nv Xc Yc
                    = (deflated_X Xv' t0 p0, deflated_Y Yv' t0 c0)).
    { rewrite residual_S, Hres. unfold deflate_once. cbn [fst snd]. rewrite EL.
      reflexivity. }
    split; [exact Hres1|]. split; [apply lv_lengths_append; exact Hlen|].
    destruct Hlen as (L1 & L2 & L3 & L4 & _ & _ & _ & _ & _ & L10).
    intros a Ha. destruct (decide (a < b_a v)) as [Hlt|Hge].
    + destruct (Hall a Hlt) as (ta & pa & wa & ca & Elv & Et & Ep & Ew & Ec & Ed).
      exists ta, pa, wa, ca. simpl.
      rewrite !lookup_app_l by lia. repeat split; assumption.
    + assert (a = b_a v) as -> by lia.
      exists t0, p0, w0, c0. simpl.
      split; [unfold lv_of; rewrite Hres; exact EL|].
      rewrite Hres1. simpl fst.
      repeat split; apply list_lookup_middle; symmetry; assumption.
  - intros a Ha. simpl in Ha. destruct (Hall a Ha) as (ta & pa & wa & ca & Hlv).
    exists ta, pa, wa, ca. exact Hlv.
Qed.

(** The scores and the distances the loop of [project] computes. *)
Lemma project_loop_td (self : pls F) x n :
  forall a y t d xv y' t' d' (h h' : store F),
    h !! x = Some (Vec xv) ->
    project_loop n self x a y t d h = Ok ((y', t', d'), h') ->
    a + n <= length t -> a + n <= length d ->
    (forall i, i < a -> t' !! i = t !! i /\ d' !! i = d !! i)
    /\ forall i, a <= i < a + n ->
         exists wi pi xi xi',
           w self !! i = Some wi /\ p self !! i = Some pi
           /\ deflated (take (i - a) (drop a (w self))) (take (i - a) (drop a (p self))) xv
              = Ok xi
           /\ isub xi (scale (dot xi wi) pi) = Ok xi'
           /\ t' !! i = Some (dot xi wi)
           /\ d' !! i = Some (fsqrt (dot xi' xi' / of_int (dof_of (nvarx self) i))%sc).
Proof.
  induction n as [|n IH]; intros a y t d xv y' t' d' h h' Hx Hl Lt Ld.
  - apply ret_Ok in Hl as [[= -> -> ->] _]. split; [auto|]. intros i Hi. lia.
  - simpl in Hl.
    apply bind_Ok in Hl as (xv0 & h1 & Hg & Hl). apply get_vec_Ok in Hg as [Hx' ->].
    assert (xv0 = xv) as -> by congruence. clear Hx'.
    apply bind_Ok in Hl as (wa & h1 & Hw & Hl). apply item_Ok in Hw as [Hw ->].
    apply bind_Ok in Hl as (ta & h1 & Hd & Hl). apply np_dot_Ok in Hd as (_ & -> & ->).
    apply bind_Ok in Hl as (ca & h1 & Hc & Hl). apply item_Ok in Hc as [_ ->].
    apply bind_Ok in Hl as (pa & h1 & Hp & Hl). apply item_Ok in Hp as [Hp ->].
    apply bind_Ok in Hl as (xv' & h1 & Hi & Hl). apply lift_Ok in Hi as [Hi ->].
    apply bind_Ok in Hl as (u & h1 & Hput & Hl). apply put_Ok in Hput as ->.
    assert (Hlt : x < length h) by (eapply lookup_lt_Some; exact Hx).
    apply (IH _ _ _ _ xv') in Hl as (Hold & Hnew);
      [|apply list_lookup_insert_eq; exact Hlt|rewrite length_insert; lia..].
    split.
    + intros i Hi'. destruct (Hold i) as [Et Ed]; [lia|].
      rewrite Et, Ed, !list_lookup_insert_ne by lia. split; reflexivity.
    + intros i Hi'. destruct (decide (i = a)) as [->|Hne].
      * destruct (Hold a) as [Et Ed]; [lia|].
        exists wa, pa, xv, xv'. rewrite Nat.sub_diag. simpl.
        split; [exact Hw|]. split; [exact Hp|]. split; [reflexivity|].
        split; [exact Hi|].
        rewrite Et, Ed, !list_lookup_insert_eq by lia. split; reflexivity.
      * destruct (Hnew i) as (wi & pi & xi & xi' & Ewi & Epi & Edef & Eis & Et & Ed); [lia|].
        exists wi, pi, xi, xi'.
        split; [exact Ewi|]. split; [exact Epi|]. split; [|auto].
        replace (i - a) with (S (i - (a + 1))) by lia.
        rewrite (drop_S _ _ _ Hw), (drop_S _ _ _ Hp). simpl. rewrite Hi. simpl.
        replace (S a) with (a + 1) by lia. exact Edef.
Qed.

Lemma deflated_snoc (ws ps : list (list F)) (wa pa : list F) :
  length ws = length ps ->
  forall x,
    deflated (ws ++ [wa]) (ps ++ [pa]) x
    = x' ← deflated ws ps x; isub x' (scale (dot x' wa) pa).
Proof.
  revert ps. induction ws as [|w0 ws IH]; intros [|p0 ps] Hl x; try discriminate.
  - simpl. destruct (isub x (scale (dot x wa) pa)); reflexivity.
  - simpl. destruct (isub x (scale (dot x w0) p0)) as [x1| |]; try reflexivity.
    simpl. apply IH. simpl in Hl. lia.
Qed.

Section Commutative.
Hypothesis fmul_comm : forall a b : F, (a * b)%sc = (b * a)%sc.

Lemma dot_from_comm (u v : list F) : forall acc, dot_from acc u v = dot_from acc v u.
Proof.
  revert v. induction u as [|a u IH]; intros [|b v] acc; try reflexivity.
  simpl. rewrite (fmul_comm a b). apply IH.
Qed.

Lemma dot_comm_carrier (u v : list F) : dot u v = dot v u.
Proof. apply dot_from_comm. Qed.

(** Row [i] of the data once [a] LVs have been taken off is the centered
    observation [i] deflated by those LVs, as [project] deflates a
    query. *)
Lemma residual_row nv (Xc : list (list F)) (Yc : list F) (ws ps : list (list F)) i xc :
  rect nv Xc -> length Yc = length Xc ->
  Xc !! i = Some xc ->
  forall a,
    (forall b, b < a ->
       exists tb pb wb cb,
         lv_of b nv Xc Yc = (tb, pb, wb, cb) /\ ws !! b = Some wb /\ ps !! b = Some pb) ->
    exists r,
      fst (residual a nv Xc Yc) !! i = Some r
      /\ deflated (take a ws) (take a ps) xc = Ok r.
Proof.
  intros HR Hl Hxc. induction a as [|a IH]; intros Hlv.
  - exists xc. split; [exact Hxc|reflexivity].
  - destruct IH as (r & Hr & Hdef); [intros b Hb; apply Hlv; lia|].
    destruct (Hlv a) as (ta & pa & wa & ca & Elv & Ewa & Epa); [lia|].
    destruct (residual_shape nv Xc Yc a HR Hl) as (RXa & LXa & LYa).
    unfold lv_of in Elv.
    destruct (extractLV_of_lengths _ _ _ _ _ _ _ Elv) as (Lt & Lp & Lw).
    assert (Ht : ta = map (fun row => dot wa row) (fst (residual a nv Xc Yc))).
    { unfold extractLV_of in Elv. injection Elv as <- _ <- _. reflexivity. }
    assert (Lr : length r = nv) by (eapply (proj1 (Forall_lookup _ _) RXa); exact Hr).
    exists (vsub r (scale (dot r wa) pa)). split.
    + change (residual (S a) nv Xc Yc) with (deflate_once nv (residual a nv Xc Yc)).
      unfold deflate_once. rewrite Elv. simpl fst. unfold deflated_X.
      rewrite lookup_zip_with, Hr. simpl.
      rewrite Ht, list_lookup_fmap, Hr. simpl.
      rewrite (dot_comm_carrier wa r). reflexivity.
    + rewrite (take_S_r _ _ _ Ewa), (take_S_r _ _ _ Epa).
      rewrite deflated_snoc.
      * rewrite Hdef. simpl. apply isub_same_length. rewrite scale_length. lia.
      * rewrite !length_take.
        apply lookup_lt_Some in Ewa. apply lookup_lt_Some in Epa. lia.
Qed.

End Commutative.

(** X28. What [build] stores on a new object is a function of the centered
    training data: for every [a < Am], the scores, loadings, weights and
    inner relation at index [a] are what [extractLV] makes of the centered
    data once the LVs [0], ..., [a-1] have been taken off by [deflateLV],
    and [dmodx[a]] holds [sqrt(d/dof)] for the sums of squares [d] of the
    rows once LV [a] is taken off too, with [dof = nvarx - a] (1 when that
    is not positive). *)
Theorem build_extracts_successive_LVs (X0 Y0 : loc) (nv : nat) (Xv : list (list F))
    (Yv : list F) (targetA : nat) (targetSSX : F) (fuel : nat) (h h' : store F)
    (m : pls F) (a : nat) :
  h !! X0 = Some (Mat nv Xv) -> rect nv Xv -> 0 < length Xv ->
  h !! Y0 = Some (Vec Yv) -> length Yv = length Xv ->
  build __init__ X0 Y0 targetA targetSSX fuel h = Ok (m, h') ->
  a < Am m ->
  stores_lv m a nv (centered_X nv Xv) (centered_Y Yv).
Proof.
  intros HX HR Hn HY Hl Hb Ha. eapply build_lvs; eassumption.
Qed.

(** X29. The scores and the distances [project] returns: [t[a]] is the dot
    product of [w[a]] with the query centered by [mux] and deflated by the
    LVs [0], ..., [a-1], and [d[a]] is [sqrt(x.x/dof)] for the query
    deflated by LV [a] too, with [dof = nvarx - a] (1 when that is not
    positive).  The centered and deflated query is the one written out
    entry by entry by [sub_entries] and [query_residual]. *)
Theorem project_scores_and_distances (self : pls F) (x : loc) (A : nat)
    (h h' : store F) (y t d : list F) (a : nat) :
  project self x A h = Ok (Projected y t d, h') ->
  a < A ->
  exists xv mu xc wa pa xa xa',
    h !! x = Some (Vec xv) /\ mux self = Some mu /\ isub xv mu = Ok xc
    /\ w self !! a = Some wa /\ p self !! a = Some pa
    /\ deflated (take a (w self)) (take a (p self)) xc = Ok xa
    /\ isub xa (scale (dot xa wa) pa) = Ok xa'
    /\ t !! a = Some (dot xa wa)
    /\ d !! a = Some (fsqrt (dot xa' xa' / of_int (dof_of (nvarx self) a))%sc)
    /\ xa = query_residual (take a (w self)) (take a (p self)) (sub_entries xv mu)
    /\ xa' = sub_entries xa (map (fun pj => (pj * dot xa wa)%sc) pa).
Proof.
  intros Hp Ha. unfold project in Hp.
  destruct (Nat.ltb (Am self) A); [apply ret_Ok in Hp as [[=] _]|].
  destruct (mux self) as [mu|]; [|discriminate].
  apply bind_Ok in Hp as (xv & h1 & Hg & Hp). apply get_vec_Ok in Hg as [Hx ->].
  apply bind_Ok in Hp as (xc & h1 & Hi & Hp). apply lift_Ok in Hi as [Hi ->].
  apply bind_Ok in Hp as (u & h1 & Hput & Hp). apply put_Ok in Hput as ->.
  apply bind_Ok in Hp as ([[y1 t1] d1] & h1 & Hloop & Hp).
  destruct (muy self); [|discriminate]. apply ret_Ok in Hp as [[= -> -> ->] _].
  assert (Hlt : x < length h) by (eapply lookup_lt_Some; exact Hx).
  apply (project_loop_td _ _ _ _ _ _ _ xc) in Hloop as (_ & Hnew);
    [|apply list_lookup_insert_eq; exact Hlt|rewrite length_replicate; lia..].
  destruct (Hnew a) as (wa & pa & xa & xa' & Ew & Ep & Edef & Eis & Et & Ed); [lia|].
  rewrite Nat.sub_0_r, !drop_0 in Edef.
  exists xv, mu, xc, wa, pa, xa, xa'.
  pose proof (isub_sub_entries _ _ _ Hi) as [Exc _].
  pose proof (deflated_residual _ _ _ _ Edef) as [Exa _].
  pose proof (isub_sub_entries _ _ _ Eis) as [Exa' _].
  repeat split; try assumption.
  rewrite Exa, Exc. reflexivity.
Qed.

(** X30. Projecting a training observation gives back what [build] stored
    for it: on a model that [build] returned on a new object, [project] of
    a copy of row [i] of the training matrix, with [A <= Am], returns, and
    for every [a < A] its score [t[a]] is the stored [t[a][i]] and its
    distance [d[a]] is the stored [dmodx[a][i]].  (Multiplication
    commutes in the carrier: [build] computes [w.x] and [project]
    [x.w].) *)
Theorem project_reproduces_training_scores (X0 Y0 : loc) (nv : nat)
    (Xv : list (list F)) (Yv : list F) (targetA : nat) (targetSSX : F) (fuel : nat)
    (h h1 h2 : store F) (m : pls F) (x : loc) (i : nat) (row : list F) (A a : nat) :
  (forall u v : F, (u * v)%sc = (v * u)%sc) ->
  h !! X0 = Some (Mat nv Xv) -> rect nv Xv -> 0 < length Xv ->
  h !! Y0 = Some (Vec Yv) -> length Yv = length Xv ->
  build __init__ X0 Y0 targetA targetSSX fuel h = Ok (m, h1) ->
  Xv !! i = Some row -> h2 !! x = Some (Vec row) ->
  A <= Am m -> a < A ->
  exists yq tq dq h' ta da s e,
    project m x A h2 = Ok (Projected yq tq dq, h')
    /\ t m !! a = Some ta /\ dmodx m !! a = Some da
    /\ ta !! i = Some s /\ tq !! a = Some s
    /\ da !! i = Some e /\ dq !! a = Some e.
Proof.
  intros Hcomm HX HR Hn HY Hl Hb Hrow Hx HA Ha.
  set (Xc := centered_X nv Xv). set (Yc := centered_Y Yv).
  assert (Lrow : length row = nv) by (eapply (proj1 (Forall_lookup _ _) HR); exact Hrow).
  destruct (build_shaped _ _ _ _ _ _ _ _ _ _ _ HX HR Hn HY Hl Hb)
    as (Hmx & Hmy & _ & Hnv & _).
  pose proof (build_lvs _ _ _ _ _ _ _ _ _ _ _ HX HR Hn HY Hl Hb) as Hlvs.
  fold Xc Yc in Hlvs.
  assert (HRc : rect nv Xc) by (apply centered_X_rect; exact HR).
  assert (HLc : length Yc = length Xc).
  { unfold Yc, Xc, centered_Y, centered_X. rewrite !length_map. exact Hl. }
  assert (Hxc : Xc !! i = Some (vsub row (mean0 nv Xv))).
  { unfold Xc, centered_X. rewrite list_lookup_fmap, Hrow. reflexivity. }
  assert (Hws : forall b, b < Am m ->
            exists tb pb wb cb,
              lv_of b nv Xc Yc = (tb, pb, wb, cb)
              /\ w m !! b = Some wb /\ p m !! b = Some pb).
  { intros b Hb'. destruct (Hlvs b Hb') as (tb & pb & wb & cb & E1 & _ & E3 & E4 & _).
    exists tb, pb, wb, cb. auto. }
  destruct (project_returns_total X0 Y0 nv Xv Yv targetA targetSSX fuel h h1 h2 m x row A
              HX HR Hn HY Hl Hb Hx Lrow HA) as (y & t0 & d & h' & Hp & _).
  destruct (Hlvs a) as (ta & pa & wa & ca & Elv & Et & Ep & Ew & _ & Ed); [lia|].
  destruct (residual_row Hcomm nv Xc Yc (w m) (p m) i _ HRc HLc Hxc a)
    as (r & Hr & Hdef); [intros b Hb'; apply Hws; lia|].
  destruct (residual_row Hcomm nv Xc Yc (w m) (p m) i _ HRc HLc Hxc (S a))
    as (r' & Hr' & Hdef'); [intros b Hb'; apply Hws; lia|].
  assert (Hta : ta = map (fun row => dot wa row) (fst (residual a nv Xc Yc))).
  { unfold lv_of, extractLV_of in Elv. injection Elv as <- _ <- _. reflexivity. }
  (* what project computed *)
  pose proof Hp as Hp'. unfold project in Hp'.
  replace (Nat.ltb (Am m) A) with false in Hp' by (symmetry; apply Nat.ltb_ge; lia).
  rewrite Hmx in Hp'.
  apply bind_Ok in Hp' as (xv & h3 & Hg & Hp'). apply get_vec_Ok in Hg as [Hx' ->].
  assert (xv = row) as -> by congruence.
  apply bind_Ok in Hp' as (xc & h3 & Hi & Hp'). apply lift_Ok in Hi as [Hi ->].
  rewrite isub_same_length in Hi
    by (unfold mean0; rewrite length_map, length_seq; lia).
  injection Hi as <-.
  apply bind_Ok in Hp' as (u & h3 & Hput & Hp'). apply put_Ok in Hput as ->.
  apply bind_Ok in Hp' as ([[y1 t1] d1] & h3 & Hloop & Hp').
  rewrite Hmy in Hp'. apply ret_Ok in Hp' as [[= -> -> ->] _].
  assert (Hlt : x < length h2) by (eapply lookup_lt_Some; exact Hx).
  apply (project_loop_td _ _ _ _ _ _ _ (vsub row (mean0 nv Xv))) in Hloop as (_ & Hnew);
    [|apply list_lookup_insert_eq; exact Hlt|rewrite length_replicate; lia..].
  destruct (Hnew a) as (wa' & pa' & xa & xa' & Ew' & Ep' & Edef & Eis & Etp & Edp); [lia|].
  rewrite Nat.sub_0_r, !drop_0 in Edef.
  assert (wa' = wa) as -> by congruence. assert (pa' = pa) as -> by congruence.
  assert (xa = r) as -> by congruence.
  rewrite (take_S_r _ _ _ Ew), (take_S_r _ _ _ Ep) in Hdef'.
  rewrite deflated_snoc, Hdef in Hdef'
    by (rewrite !length_take; apply lookup_lt_Some in Ew; apply lookup_lt_Some in Ep; lia).
  simpl in Hdef'. assert (xa' = r') as -> by congruence.
  exists (map (fun yi => (yi + mean Yv)%sc) y1), t1, d1, h', ta,
    (map (fun d0 => fsqrt (d0 / of_int (dof_of nv a))%sc)
       (map (fun row0 => dot row0 row0) (fst (residual (a + 1) nv Xc Yc)))),
    (dot r wa), (fsqrt (dot r' r' / of_int (dof_of nv a))%sc).
  split; [exact Hp|]. split; [exact Et|]. split; [exact Ed|].
  split; [rewrite Hta, list_lookup_fmap, Hr; simpl; rewrite (dot_comm_carrier Hcomm wa r); reflexivity|].
  split; [exact Etp|].
  split; [rewrite !list_lookup_fmap, Nat.add_1_r, Hr'; reflexivity|].
  rewrite <- Hnv. exact Edp.
Qed.

End Consistency.

(** * The further properties, worked *)

Lemma ex_X_rect : rect 2 ex_X.
Proof.
  unfold rect, ex_X. repeat (apply List.Forall_cons; [reflexivity|]). apply List.Forall_nil.
Qed.

Lemma ex_fit_built :
  build (F := float) __init__ 0 1 2 fzero 10 ex_store = Ok (fst ex_fit, snd ex_fit).
Proof. vm_compute. reflexivity. Qed.

Lemma ex_validated_fitted : fitted (fst ex_validated).
Proof.
  apply (fitted_validations (fst ex_fit) _ [2; 1] (snd ex_fit) (snd ex_validated)).
  - apply (fitted_build 0 1 2 0%float 10 ex_store _ (snd ex_fit)).
    vm_compute. reflexivity.
  - vm_compute. reflexivity.
Qed.

Lemma ex_file_saved : saveModel (fst ex_validated) = Ok ex_file.
Proof. vm_compute. reflexivity. Qed.

(** X3 on the scenario of the specification. *)
Lemma build_stores_shapes_witness :
  mux (fst ex_fit) = Some (mean0 2 ex_X) /\ muy (fst ex_fit) = Some (mean ex_Y)
  /\ shaped (fst ex_fit) (length ex_X) 2.
Proof.
  apply (build_stores_shapes (F := float) 0 1 2 ex_X ex_Y 2 fzero 10 ex_store
           (snd ex_fit) (fst ex_fit)).
  - reflexivity.
  - exact ex_X_rect.
  - simpl. lia.
  - reflexivity.
  - reflexivity.
  - exact ex_fit_built.
Defined.

(** X4 on the fitted model of the scenario and its first observation. *)
Lemma project_returns_A_entries_witness :
  exists y t d h',
    project (fst ex_fit) 2 2 (snd ex_fit) = Ok (Projected y t d, h')
    /\ length y = 2 /\ length t = 2 /\ length d = 2.
Proof.
  apply (project_returns_A_entries (F := float) 0 1 2 ex_X ex_Y 2 fzero 10 ex_store
           (snd ex_fit) (snd ex_fit) (fst ex_fit) 2 [1; 2]%float 2).
  - reflexivity.
  - exact ex_X_rect.
  - simpl. lia.
  - reflexivity.
  - reflexivity.
  - exact ex_fit_built.
  - vm_compute. reflexivity.
  - reflexivity.
  - vm_compute. lia.
Defined.

(** X5 on the fitted model of the scenario and a query of three entries. *)
Lemma project_wrong_length_raises_witness :
  project (fst ex_fit) 5 1 ex_query3 = Raise ValueError.
Proof.
  apply (project_wrong_length_raises (F := float) 0 1 2 ex_X ex_Y 2 fzero 10 ex_store
           (snd ex_fit) ex_query3 (fst ex_fit) 5 [1; 2; 3]%float 1).
  - reflexivity.
  - exact ex_X_rect.
  - simpl. lia.
  - reflexivity.
  - reflexivity.
  - exact ex_fit_built.
  - vm_compute. reflexivity.
  - simpl. lia.
  - lia.
  - vm_compute. lia.
Defined.

(** X6: a second [build], of one LV, on the fitted model of the
    scenario. *)
Lemma build_appends_to_lists_witness :
  exists m h',
    build (fst ex_fit) 0 1 1 fzero 10 ex_store = Ok (m, h')
    /\ Am m = 1 /\ lv_lengths m (2 + 1)
    /\ take 2 (t m) = t (fst ex_fit) /\ take 2 (p m) = p (fst ex_fit)
    /\ take 2 (w m) = w (fst ex_fit) /\ take 2 (c m) = c (fst ex_fit).
Proof.
  apply (build_appends_to_lists (F := float) (fst ex_fit) 0 1 2 ex_X ex_Y 1 10
           ex_store 2).
  - vm_compute. reflexivity.
  - reflexivity.
  - exact ex_X_rect.
  - simpl. lia.
  - reflexivity.
  - reflexivity.
  - lia.
  - lia.
  - vm_compute. repeat split.
Defined.

(** X7 on the scenario, with the variance test alone: [SSXac] is above
    511/512 at the second LV and not at the first. *)
Lemma build_stops_at_first_break_witness :
  exists l x,
    SSXac (fst ex_fit_SSX) = SSXac (__init__ (F := float)) ++ l ++ [x]
    /\ Am (fst ex_fit_SSX) = S (length l)
    /\ ((0 < 0 /\ Am (fst ex_fit_SSX) = 0)
        \/ (fgtb 0.998046875%float fzero = true /\ fgtb x 0.998046875%float = true))
    /\ (0 < 0 -> Am (fst ex_fit_SSX) <= 0)
    /\ (fgtb 0.998046875%float fzero = true
        -> Forall (fun z => fgtb z 0.998046875%float = false) l).
Proof.
  apply (build_stops_at_first_break (F := float) __init__ 0 1 0 0.998046875%float 10
           ex_store (snd ex_fit_SSX) (fst ex_fit_SSX)).
  vm_compute. reflexivity.
Defined.

(** X8 on the scenario, with seven passes of fuel. *)
Lemma build_without_criterion_loops_witness :
  build (F := float) __init__ 0 1 0 fzero 7 ex_store = OutOfFuel.
Proof.
  apply (build_without_criterion_loops (F := float) __init__ 0 1 2 ex_X ex_Y fzero 7
           ex_store).
  - vm_compute. reflexivity.
  - reflexivity.
  - exact ex_X_rect.
  - simpl. lia.
  - reflexivity.
  - reflexivity.
Defined.

(** X9 on the matrix of the scenario and a response of three entries. *)
Lemma build_wrong_length_Y_raises_witness :
  build (F := float) __init__ 0 1 2 fzero 10 ex_short
  = Raise (if Nat.ltb (length [3; 5; 8]%float) (length ex_X)
           then IndexError else ValueError).
Proof.
  apply (build_wrong_length_Y_raises (F := float) __init__ 0 1 2 ex_X
           [3; 5; 8]%float 2 fzero 10 ex_short).
  - reflexivity.
  - reflexivity.
  - simpl. lia.
  - lia.
Defined.

(** X10 on three centered observations of two variables. *)
Lemma getLOO_predictions_cumulative_witness :
  exists h',
    getLOO 0 1 2 2 ex_loo
    = Ok (cumulative fzero
            (contributions 2 2 [[-1; 0]; [0; 1]; [1; -1]]%float [-1; 0; 1]%float
               [1; 1]%float), h').
Proof.
  apply (getLOO_predictions_cumulative (F := float) 0 1 2 2
           [[-1; 0]; [0; 1]; [1; -1]]%float [-1; 0; 1]%float [1; 1]%float 2 ex_loo).
  - reflexivity.
  - reflexivity.
  - reflexivity.
  - lia.
  - unfold rect. repeat (apply List.Forall_cons; [reflexivity|]). apply List.Forall_nil.
  - reflexivity.
  - reflexivity.
Defined.

(** X11 on the fitted model of the scenario, validated for five LVs. *)
Lemma validateLOO_returns_witness :
  exists m h',
    validateLOO (fst ex_fit) 5 (snd ex_fit) = Ok (m, h') /\ Av m = 5 /\ cv_lengths m 5.
Proof.
  apply (validateLOO_returns (F := float) (fst ex_fit) 0 1 2 ex_X ex_Y 5 (snd ex_fit)).
  - vm_compute. reflexivity.
  - vm_compute. reflexivity.
  - vm_compute. reflexivity.
  - exact ex_X_rect.
  - vm_compute. reflexivity.
  - reflexivity.
Defined.

(** X12 on the fitted model of the scenario, validated for two LVs. *)
Lemma validateLOO_folds_witness :
  SSY (fst ex_cv) = LOO_SSY 2 ex_X ex_Y 2 (length ex_X) 0 (replicate 2 fzero)
  /\ SDEP (fst ex_cv)
     = map (fun s => fsqrt (s / of_int (length ex_X))%sc) (SSY (fst ex_cv))
  /\ Q2 (fst ex_cv)
     = map (fun s => (fone - s / SS_vec fzero (centered_Y ex_Y))%sc) (SSY (fst ex_cv)).
Proof.
  apply (validateLOO_folds (F := float) (fst ex_fit) 0 1 2 ex_X ex_Y 2 (snd ex_fit)
           (snd ex_cv) (fst ex_cv)).
  - vm_compute. reflexivity.
  - vm_compute. reflexivity.
  - vm_compute. reflexivity.
  - exact ex_X_rect.
  - vm_compute. reflexivity.
  - reflexivity.
  - vm_compute. reflexivity.
Defined.

(** X13 on the file of the validated model of the scenario. *)
Lemma saveModel_layout_witness :
  take 6 ex_file = header_of (fst ex_validated)
  /\ length ex_file = 6 + 10 * Am (fst ex_validated) + 3 * Av (fst ex_validated).
Proof.
  apply (saveModel_layout (F := float) (fst ex_validated) ex_file).
  exact ex_file_saved.
Defined.

(** X14: the file of the scenario, of 29 records (26 of header and LVs),
    cut after ten records and read into a new object; and cut after 27
    records and read into the validated model itself. *)
Lemma loadModel_truncated_raises_witness :
  loadModel (F := float) __init__ (take 10 ex_file) = Raise IOError
  /\ loadModel (fst ex_validated) (take 27 ex_file) = Raise AttributeError.
Proof.
  split.
  - apply (loadModel_truncated_raises (F := float) (fst ex_validated) __init__ ex_file 10).
    + exact ex_validated_fitted.
    + exact ex_file_saved.
    + vm_compute. lia.
  - apply (loadModel_truncated_raises (F := float) (fst ex_validated) (fst ex_validated)
             ex_file 27).
    + exact ex_validated_fitted.
    + exact ex_file_saved.
    + vm_compute. lia.
Defined.

(** X15: the file of the scenario loaded into the fitted model, before
    and after [validateLOO]. *)
Lemma loadModel_appends_witness :
  loadModel (fst ex_fit) (ex_file ++ []) = Ok (loaded (fst ex_fit) (fst ex_validated))
  /\ loadModel (fst ex_validated) (ex_file ++ []) = Raise AttributeError.
Proof.
  split.
  - apply (loadModel_appends (F := float) (fst ex_validated) (fst ex_fit) ex_file []).
    + exact ex_validated_fitted.
    + exact ex_file_saved.
  - apply (loadModel_appends (F := float) (fst ex_validated) (fst ex_validated) ex_file []).
    + exact ex_validated_fitted.
    + exact ex_file_saved.
Defined.

(** X16 on the validated model of the scenario. *)
Lemma loaded_model_projects_alike_witness :
  exists m',
    loadModel __init__ ex_file = Ok m'
    /\ forall x A h, project m' x A h = project (fst ex_validated) x A h.
Proof.
  apply (loaded_model_projects_alike (F := float) (fst ex_validated) ex_file).
  - exact ex_validated_fitted.
  - exact ex_file_saved.
Defined.

(** X17 on the fitted model of the scenario, validated for two LVs. *)
Lemma validateLOO_keeps_projection_witness :
  (forall x A' h2, project (fst ex_cv) x A' h2 = project (fst ex_fit) x A' h2)
  /\ Am (fst ex_cv) = Am (fst ex_fit) /\ t (fst ex_cv) = t (fst ex_fit)
  /\ p (fst ex_cv) = p (fst ex_fit) /\ w (fst ex_cv) = w (fst ex_fit)
  /\ c (fst ex_cv) = c (fst ex_fit)
  /\ mux (fst ex_cv) = mux (fst ex_fit) /\ muy (fst ex_cv) = muy (fst ex_fit).
Proof.
  apply (validateLOO_keeps_projection (F := float) (fst ex_fit) (fst ex_cv) 2
           (snd ex_fit) (snd ex_cv)).
  vm_compute. reflexivity.
Defined.

(** X18 on three centered observations of two variables. *)
Lemma extractLV_reads_only_witness :
  snd ex_lv = ex_loo
  /\ length (fst (fst (fst (fst ex_lv)))) = length [[-1; 0]; [0; 1]; [1; -1]]%float
  /\ length (snd (fst (fst (fst ex_lv)))) = 2
  /\ length (snd (fst (fst ex_lv))) = 2.
Proof.
  apply (extractLV_reads_only (F := float) 0 1 2 [[-1; 0]; [0; 1]; [1; -1]]%float
           ex_loo (snd ex_lv) (fst (fst (fst (fst ex_lv)))) (snd (fst (fst (fst ex_lv))))
           (snd (fst (fst ex_lv))) (snd (fst ex_lv))).
  - reflexivity.
  - vm_compute. reflexivity.
Defined.

(** X19 on the same data. *)
Lemma computeSS_sums_distances_witness :
  snd ex_ss = ex_loo
  /\ length (snd (fst ex_ss)) = length [[-1; 0]; [0; 1]; [1; -1]]%float
  /\ val (fst (fst (fst ex_ss))) = fold_left fadd (snd (fst ex_ss)) fzero.
Proof.
  apply (computeSS_sums_distances (F := float) 0 1 2 [[-1; 0]; [0; 1]; [1; -1]]%float
           ex_loo (snd ex_ss) (fst (fst (fst ex_ss))) (snd (fst (fst ex_ss)))
           (snd (fst ex_ss))).
  - reflexivity.
  - vm_compute. reflexivity.
Defined.

(** X20 on the same data, deflated by [t = [1, 0, 1]], [p = [1, 1]] and
    [c = 1]. *)
Lemma deflateLV_in_place_witness :
  fst ex_deflated = (0, 1) /\ length (snd ex_deflated) = length ex_loo
  /\ forall l, l <> 0 -> l <> 1 -> snd ex_deflated !! l = ex_loo !! l.
Proof.
  apply (deflateLV_in_place (F := float) 0 1 [1; 0; 1]%float [1; 1]%float 1%float
           ex_loo (snd ex_deflated) (fst ex_deflated)).
  vm_compute. reflexivity.
Defined.

(** X21 on the scenario of the specification. *)
Lemma build_accumulates_explained_witness :
  SSXac (fst ex_fit) = cumulative fzero (SSXex (fst ex_fit))
  /\ SSYac (fst ex_fit) = cumulative fzero (SSYex (fst ex_fit)).
Proof.
  apply (build_accumulates_explained (F := float) 0 1 2 fzero 10 ex_store (snd ex_fit)
           (fst ex_fit)).
  exact ex_fit_built.
Defined.

Lemma ex_read_returned :
  readData ex_int ex_float ex_lines []
  = Ok ((fst (fst ex_read), snd (fst ex_read)), snd ex_read).
Proof. vm_compute. reflexivity. Qed.

(** X22 on a file of two objects of three variables. *)
Lemma readData_positional_witness :
  exists ncols Xv Yv,
    fst (fst ex_read) = length ([] : store float)
    /\ snd (fst ex_read) = length ([] : store float) + 1
    /\ snd ex_read = [] ++ [Mat ncols Xv; Vec Yv]
    /\ ex_int (nth 1 ex_lines EmptyString) = Ok (Z.of_nat ncols + 1)%Z
    /\ ex_int (nth 2 ex_lines EmptyString) = Ok (Z.of_nat (length Xv))
    /\ rect ncols Xv /\ length Yv = length Xv
    /\ (forall i row j x, Xv !! i = Some row -> row !! j = Some x ->
          ex_float (nth (line_of_X ncols i j) ex_lines EmptyString) = Ok x)
    /\ (forall i y, Yv !! i = Some y ->
          ex_float (nth (line_of_Y ncols i) ex_lines EmptyString) = Ok y).
Proof.
  apply (readData_positional (F := float) ex_int ex_float ex_lines [] (snd ex_read)
           (fst (fst ex_read)) (snd (fst ex_read))).
  exact ex_read_returned.
Defined.

(** X23 on the same file: its thirteen lines are all there. *)
Lemma readData_needs_every_line_witness :
  exists ncols Xv,
    snd ex_read !! fst (fst ex_read) = Some (Mat ncols Xv)
    /\ 3 + length Xv * (ncols + 3) <= length ex_lines.
Proof.
  apply (readData_needs_every_line (F := float) ex_int ex_float ex_lines []
           (snd ex_read) (fst (fst ex_read)) (snd (fst ex_read))).
  - reflexivity.
  - reflexivity.
  - exact ex_read_returned.
Defined.

(** X24 on the same file, and one LV. *)
Lemma readData_then_build_witness :
  exists m h',
    build __init__ (fst (fst ex_read)) (snd (fst ex_read)) 1 fzero 5 (snd ex_read)
    = Ok (m, h')
    /\ Am m = 1 /\ lv_lengths m 1
    /\ nobj m = length [[1; 2]; [2; 3]]%float /\ nvarx m = 2.
Proof.
  apply (readData_then_build (F := float) ex_int ex_float ex_lines [] (snd ex_read)
           (fst (fst ex_read)) (snd (fst ex_read)) 2 [[1; 2]; [2; 3]]%float 1 5).
  - vm_compute. reflexivity.
  - exact ex_read_returned.
  - vm_compute. reflexivity.
  - simpl. lia.
  - lia.
  - lia.
Defined.

Lemma exact_store_rect : rect 1 [[-1]; [1]]%R.
Proof.
  unfold rect. repeat (apply List.Forall_cons; [reflexivity|]). apply List.Forall_nil.
Qed.

(** X25 on two observations of one variable, with two LVs asked for. *)
Lemma scores_orthogonal_exact_witness :
  exists m h',
    build (F := R) __init__ 0 1 2 fzero 2 exact_store = Ok (m, h')
    /\ pairwise_orthogonal (t m).
Proof.
  destruct (build_targetA_run (F := R) (fun _ _ _ => True) __init__ 0 1 1
              [[-1]; [1]]%R [-1; 1]%R 2 2 exact_store)
    as (v' & h' & _ & _ & Hb & _).
  - exact exact_zero_not_positive.
  - reflexivity.
  - exact exact_store_rect.
  - simpl. lia.
  - reflexivity.
  - reflexivity.
  - lia.
  - lia.
  - exact I.
  - intros. exact I.
  - exists (set_Am (b_self v') (b_a v')), h'. split; [exact Hb|].
    apply (scores_orthogonal_exact 0 1 1 [[-1]; [1]]%R [-1; 1]%R 2 fzero 2
             exact_store h').
    + reflexivity.
    + exact exact_store_rect.
    + simpl. lia.
    + reflexivity.
    + reflexivity.
    + exact Hb.
Defined.

(** X26 on the same two observations. *)
Lemma center_columns_sum_zero_exact_witness :
  exists Xc mu h',
    center (F := R) 0 exact_store = Ok ((Xc, mu), h')
    /\ h' !! 0 = Some (Mat 1 [[-1]; [1]]%R)
    /\ exists Xcv,
         h' !! Xc = Some (Mat 1 Xcv)
         /\ forall j, j < 1 -> fsum (column Xcv j) = 0%R.
Proof.
  eexists _, _, _. split; [apply (center_run (F := R) 0 1 [[-1]; [1]]%R); reflexivity|].
  eapply (center_columns_sum_zero_exact 0 1 [[-1]; [1]]%R exact_store).
  - reflexivity.
  - exact exact_store_rect.
  - simpl. lia.
  - apply (center_run (F := R) 0 1 [[-1]; [1]]%R). reflexivity.
Defined.

(** X27 on their responses. *)
Lemma center_response_sums_zero_exact_witness :
  exists Yc mu h',
    center1 (F := R) 1 exact_store = Ok ((Yc, mu), h')
    /\ h' !! 1 = Some (Vec [-1; 1]%R)
    /\ exists Ycv, h' !! Yc = Some (Vec Ycv) /\ fsum Ycv = 0%R.
Proof.
  eexists _, _, _. split; [apply (center1_run (F := R) 1 [-1; 1]%R); reflexivity|].
  eapply (center_response_sums_zero_exact 1 [-1; 1]%R exact_store).
  - reflexivity.
  - simpl. lia.
  - apply (center1_run (F := R) 1 [-1; 1]%R). reflexivity.
Defined.

(** Multiplication commutes in binary64. *)
Lemma SFmul_comm prec emax (x y : spec_float) : SFmul prec emax x y = SFmul prec emax y x.
Proof.
  destruct x as [sx|sx| |sx mx ex], y as [sy|sy| |sy my ey]; simpl;
    rewrite ?(xorb_comm sx sy), ?(Pos.mul_comm mx my), ?(Z.add_comm ex ey); reflexivity.
Qed.

Lemma float_mul_comm (u v : float) : (u * v)%sc = (v * u)%sc.
Proof.
  apply Prim2SF_inj. simpl. rewrite !FloatAxioms.mul_spec. apply SFmul_comm.
Qed.

(** X28 on the second LV of the scenario. *)
Lemma build_extracts_successive_LVs_witness :
  stores_lv (fst ex_fit) 1 2 (centered_X 2 ex_X) (centered_Y ex_Y).
Proof.
  apply (build_extracts_successive_LVs (F := float) 0 1 2 ex_X ex_Y 2 fzero 10 ex_store
           (snd ex_fit) (fst ex_fit) 1).
  - reflexivity.
  - exact ex_X_rect.
  - simpl. lia.
  - reflexivity.
  - reflexivity.
  - exact ex_fit_built.
  - vm_compute. lia.
Defined.

(** X29 on the second LV of the projection of the scenario. *)
Lemma project_scores_and_distances_witness :
  exists xv mu xc wa pa xa xa',
    snd ex_fit !! 2 = Some (Vec xv) /\ mux (fst ex_fit) = Some mu /\ isub xv mu = Ok xc
    /\ w (fst ex_fit) !! 1 = Some wa /\ p (fst ex_fit) !! 1 = Some pa
    /\ deflated (take 1 (w (fst ex_fit))) (take 1 (p (fst ex_fit))) xc = Ok xa
    /\ isub xa (scale (dot xa wa) pa) = Ok xa'
    /\ snd (fst (fst ex_projected)) !! 1 = Some (dot xa wa)
    /\ snd (fst ex_projected) !! 1
       = Some (fsqrt (dot xa' xa' / of_int (dof_of (nvarx (fst ex_fit)) 1))%sc)
    /\ xa = query_residual (take 1 (w (fst ex_fit))) (take 1 (p (fst ex_fit)))
              (sub_entries xv mu)
    /\ xa' = sub_entries xa (map (fun pj => (pj * dot xa wa)%sc) pa).
Proof.
  apply (project_scores_and_distances (fst ex_fit) 2 2 (snd ex_fit) (snd ex_projected)
           (fst (fst (fst ex_projected))) (snd (fst (fst ex_projected)))
           (snd (fst ex_projected)) 1).
  - vm_compute. reflexivity.
  - lia.
Defined.

(** X30 on the first observation of the scenario, a copy of which is the
    query at reference 2, and the second LV. *)
Lemma project_reproduces_training_scores_witness :
  exists yq tq dq h' ta da s e,
    project (fst ex_fit) 2 2 (snd ex_fit) = Ok (Projected yq tq dq, h')
    /\ t (fst ex_fit) !! 1 = Some ta /\ dmodx (fst ex_fit) !! 1 = Some da
    /\ ta !! 0 = Some s /\ tq !! 1 = Some s
    /\ da !! 0 = Some e /\ dq !! 1 = Some e.
Proof.
  apply (project_reproduces_training_scores (F := float) 0 1 2 ex_X ex_Y 2 fzero 10
           ex_store (snd ex_fit) (snd ex_fit) (fst ex_fit) 2 0 [1; 2]%float 2 1).
  - exact float_mul_comm.
  - reflexivity.
  - exact ex_X_rect.
  - simpl. lia.
  - reflexivity.
  - reflexivity.
  - exact ex_fit_built.
  - reflexivity.
  - vm_compute. reflexivity.
  - vm_compute. lia.
  - lia.
Defined.
